(** * Log-processing pipeline: a shallow embedding of the Go sources

    The development follows the repository layout:
    - [internal/models/events.go]       -> modules [ProcessingJob], [ProcessingResult],
                                           [LogEntry], [LogAggregation]
    - [internal/processor/logparser.go] -> module [Processor]
    - [cmd/worker/main.go]              -> module [Worker]
    - [cmd/trigger/main.go]             -> module [Trigger]
    The parts of the Go standard library the sources call are modelled in
    [Bufio] (line scanner), [Json] (decoder of one log line) and [Strings];
    the AWS clients, the clock and standard output are the [Runtime].

    Go's [int] and [int64] are 64-bit two's complement integers (the Lambdas
    are built for arm64); they are carried as [Z] with the wrap-around
    written out.  [float64] is IEEE-754 binary64, carried as [spec_float]
    with precision 53 and maximal exponent 1024. *)

From Stdlib Require Import ZArith Lia Ascii Permutation.
From Stdlib Require Import Floats.SpecFloat.
From stdpp Require Import gmap strings list.

Local Open Scope Z_scope.

(** ** Machine integers *)

Module GoInt.

(** Reduction of a mathematical integer to the signed 64-bit range. *)
Definition wrap (z : Z) : Z := (z + 2^63) mod 2^64 - 2^63.

Definition in_range (z : Z) : Prop := - 2^63 <= z < 2^63.

(** [x + y] on [int]/[int64]. *)
Definition add (x y : Z) : Z := wrap (x + y).

(** [x++]. *)
Definition incr (x : Z) : Z := add x 1.

End GoInt.

(** ** float64 *)

Module Float64.

Definition prec : Z := 53.
Definition emax : Z := 1024.

Definition float64 : Type := spec_float.

Definition zero : float64 := S754_zero false.

(** The conversion [float64(n)] of an integer, rounding to nearest even. *)
Definition of_int (z : Z) : float64 := binary_normalize prec emax z 0 false.

(** [x / y] *)
Definition div (x y : float64) : float64 := SFdiv prec emax x y.

Definition is_zero (x : float64) : bool :=
  match x with S754_zero _ => true | _ => false end.

End Float64.

(** ** Errors

    A Go [error] is observed through its [Error()] string and, for errors
    built with [fmt.Errorf("...%w", err)], through the error it wraps. *)

Inductive error : Type :=
| errorString (msg : string)
| wrapError (msg : string) (inner : error).

Definition Error (e : error) : string :=
  match e with
  | errorString m => m
  | wrapError m _ => m
  end.

(** [fmt.Errorf(prefix + "%w", err)] *)
Definition Errorf_w (prefix : string) (err : error) : error :=
  wrapError (prefix +:+ Error err) err.

(** [fmt.Errorf(prefix + "%s", s)]: no wrapped error. *)
Definition Errorf_s (prefix : string) (s : string) : error :=
  errorString (prefix +:+ s).

(** ** internal/models/events.go *)

(** [time.Time], as nanoseconds since the Unix epoch. *)
Definition Time : Type := Z.

Module ProcessingJob.
Record t : Type := mk {
  JobID : string;
  Bucket : string;
  Key : string;
  Size : Z;
  ContentType : string;
  ReceivedAt : Time;
  ValidatedAt : Time
}.
End ProcessingJob.

Module ProcessingResult.
Record t : Type := mk {
  JobID : string;
  Status : string;
  LineCount : Z;
  ErrorCount : Z;
  WarnCount : Z;
  InfoCount : Z;
  AvgResponseTimeMs : Float64.float64;
  MaxResponseTimeMs : Z;
  UniqueUsers : Z;
  UniqueEndpoints : Z;
  ProcessingTimeMs : Z;
  FileSizeBytes : Z;
  StartedAt : Time;
  CompletedAt : Time;
  ErrorMessage : string;
  ExpiresAt : Z
}.
End ProcessingResult.

Module LogEntry.
Record t : Type := mk {
  Timestamp : string;
  Level : string;
  Endpoint : string;
  ResponseTimeMs : Z;
  StatusCode : Z;
  UserID : string;
  Message : string
}.

(** The zero value of [var entry models.LogEntry]. *)
Definition zero : t := mk "" "" "" 0 0 "" "".
End LogEntry.

Module LogAggregation.
Record t : Type := mk {
  TotalLines : Z;
  ProcessedLines : Z;
  ErrorCount : Z;
  WarnCount : Z;
  InfoCount : Z;
  DebugCount : Z;
  TotalResponseMs : Z;
  MaxResponseMs : Z;
  UniqueUsers : gset string;
  UniqueEndpoints : gset string;
  StatusCodeCounts : gmap Z Z
}.

(** Field assignments [a.F = v] used by the parser. *)
Definition set_TotalLines (v : Z) (a : t) : t :=
  mk v (ProcessedLines a) (ErrorCount a) (WarnCount a) (InfoCount a) (DebugCount a)
     (TotalResponseMs a) (MaxResponseMs a) (UniqueUsers a) (UniqueEndpoints a)
     (StatusCodeCounts a).
Definition set_ProcessedLines (v : Z) (a : t) : t :=
  mk (TotalLines a) v (ErrorCount a) (WarnCount a) (InfoCount a) (DebugCount a)
     (TotalResponseMs a) (MaxResponseMs a) (UniqueUsers a) (UniqueEndpoints a)
     (StatusCodeCounts a).
Definition set_ErrorCount (v : Z) (a : t) : t :=
  mk (TotalLines a) (ProcessedLines a) v (WarnCount a) (InfoCount a) (DebugCount a)
     (TotalResponseMs a) (MaxResponseMs a) (UniqueUsers a) (UniqueEndpoints a)
     (StatusCodeCounts a).
Definition set_WarnCount (v : Z) (a : t) : t :=
  mk (TotalLines a) (ProcessedLines a) (ErrorCount a) v (InfoCount a) (DebugCount a)
     (TotalResponseMs a) (MaxResponseMs a) (UniqueUsers a) (UniqueEndpoints a)
     (StatusCodeCounts a).
Definition set_InfoCount (v : Z) (a : t) : t :=
  mk (TotalLines a) (ProcessedLines a) (ErrorCount a) (WarnCount a) v (DebugCount a)
     (TotalResponseMs a) (MaxResponseMs a) (UniqueUsers a) (UniqueEndpoints a)
     (StatusCodeCounts a).
Definition set_DebugCount (v : Z) (a : t) : t :=
  mk (TotalLines a) (ProcessedLines a) (ErrorCount a) (WarnCount a) (InfoCount a) v
     (TotalResponseMs a) (MaxResponseMs a) (UniqueUsers a) (UniqueEndpoints a)
     (StatusCodeCounts a).
Definition set_TotalResponseMs (v : Z) (a : t) : t :=
  mk (TotalLines a) (ProcessedLines a) (ErrorCount a) (WarnCount a) (InfoCount a)
     (DebugCount a) v (MaxResponseMs a) (UniqueUsers a) (UniqueEndpoints a)
     (StatusCodeCounts a).
Definition set_MaxResponseMs (v : Z) (a : t) : t :=
  mk (TotalLines a) (ProcessedLines a) (ErrorCount a) (WarnCount a) (InfoCount a)
     (DebugCount a) (TotalResponseMs a) v (UniqueUsers a) (UniqueEndpoints a)
     (StatusCodeCounts a).
Definition set_UniqueUsers (v : gset string) (a : t) : t :=
  mk (TotalLines a) (ProcessedLines a) (ErrorCount a) (WarnCount a) (InfoCount a)
     (DebugCount a) (TotalResponseMs a) (MaxResponseMs a) v (UniqueEndpoints a)
     (StatusCodeCounts a).
Definition set_UniqueEndpoints (v : gset string) (a : t) : t :=
  mk (TotalLines a) (ProcessedLines a) (ErrorCount a) (WarnCount a) (InfoCount a)
     (DebugCount a) (TotalResponseMs a) (MaxResponseMs a) (UniqueUsers a) v
     (StatusCodeCounts a).
Definition set_StatusCodeCounts (v : gmap Z Z) (a : t) : t :=
  mk (TotalLines a) (ProcessedLines a) (ErrorCount a) (WarnCount a) (InfoCount a)
     (DebugCount a) (TotalResponseMs a) (MaxResponseMs a) (UniqueUsers a)
     (UniqueEndpoints a) v.

End LogAggregation.

(** [NewLogAggregation]: zero counters and three empty maps. *)
Definition NewLogAggregation : LogAggregation.t :=
  LogAggregation.mk 0 0 0 0 0 0 0 0 ∅ ∅ ∅.

(** ** bufio.Scanner with the default [ScanLines] split function *)

Module Bufio.

Definition ErrTooLong : error := errorString "bufio.Scanner: token too long".

(** An [io.Reader] that delivers [content] and then ends, either with
    [io.EOF] ([read_err = None]) or with a read error. *)
Record Reader : Type := mkReader {
  content : string;
  read_err : option error
}.

Definition newline : ascii := "010"%char.
Definition carriage_return : ascii := "013"%char.

(** The raw text between line terminators: every ['\n'] closes a segment,
    and text after the last ['\n'] forms a final segment when it is not
    empty.  [cur] is the segment being read, in reverse. *)
Fixpoint segments_from (cur : list ascii) (s : string) : list string :=
  match s with
  | EmptyString =>
      match cur with
      | [] => []
      | _ => [String.string_of_list_ascii (rev cur)]
      end
  | String c rest =>
      if Ascii.eqb c newline
      then String.string_of_list_ascii (rev cur) :: segments_from [] rest
      else segments_from (c :: cur) rest
  end.

Definition segments (s : string) : list string := segments_from [] s.

(** [dropCR]: one trailing ['\r'] is removed from a token. *)
Fixpoint dropCR (s : string) : string :=
  match s with
  | EmptyString => EmptyString
  | String c EmptyString => if Ascii.eqb c carriage_return then EmptyString else s
  | String c rest => String c (dropCR rest)
  end.

(** A segment that fills the whole buffer without a line terminator makes
    [Scan] stop with [ErrTooLong]. *)
Definition too_long (maxTokenSize : Z) (seg : string) : bool :=
  maxTokenSize <=? Z.of_nat (String.length seg).

(** The tokens [Scan] yields, in order, and the final [scanner.Err()]. *)
Fixpoint scan (maxTokenSize : Z) (segs : list string) (final : option error)
  : list string * option error :=
  match segs with
  | [] => ([], final)
  | seg :: rest =>
      if too_long maxTokenSize seg then ([], Some ErrTooLong)
      else let '(toks, e) := scan maxTokenSize rest final in
           (dropCR seg :: toks, e)
  end.

Definition Scan (maxTokenSize : Z) (r : Reader) : list string * option error :=
  scan maxTokenSize (segments (content r)) (read_err r).

End Bufio.

(** ** encoding/json, as far as [json.Unmarshal(line, &entry)] uses it

    The decoder first checks that the whole input is one well-formed JSON
    value (surrounded by optional white space), then stores it into a
    [LogEntry].  Any error makes the call fail; the caller drops the entry.
    [None] stands for a non-nil error. *)

Module Json.

#[local] Set Warnings "-register-all".

Inductive value : Type :=
| Null
| Bool (b : bool)
| Number (literal : string)
| Str (s : string)
| Array (elems : list value)
| Object (members : list (string * value)).

Definition code (c : ascii) : N := N_of_ascii c.

Definition is_space (c : ascii) : bool :=
  match code c with
  | 32 | 9 | 13 | 10 => true
  | _ => false
  end%N.

Definition is_digit (c : ascii) : bool := ((48 <=? code c) && (code c <=? 57))%N.

Definition hex_val (c : ascii) : option N :=
  let n := code c in
  if ((48 <=? n) && (n <=? 57))%N then Some (n - 48)%N
  else if ((97 <=? n) && (n <=? 102))%N then Some (n - 87)%N
  else if ((65 <=? n) && (n <=? 70))%N then Some (n - 55)%N
  else None.

Definition hex4 (a b c d : ascii) : option N :=
  match hex_val a, hex_val b, hex_val c, hex_val d with
  | Some x, Some y, Some z, Some w => Some (x * 4096 + y * 256 + z * 16 + w)%N
  | _, _, _, _ => None
  end.

Fixpoint skip_space (s : string) : string :=
  match s with
  | String c r => if is_space c then skip_space r else s
  | EmptyString => s
  end.

(** [utf8.EncodeRune], in reverse byte order, for a rune below 0x110000
    that is no surrogate. *)
Definition encode_rune_rev (r : N) : list ascii :=
  let b (n : N) := ascii_of_N n in
  if (r <? 128)%N then [b r]
  else if (r <? 2048)%N then [b (128 + r mod 64); b (192 + r / 64)]%N
  else if (r <? 65536)%N then
    [b (128 + r mod 64); b (128 + (r / 64) mod 64); b (224 + r / 4096)]%N
  else
    [b (128 + r mod 64); b (128 + (r / 64) mod 64);
     b (128 + (r / 4096) mod 64); b (240 + r / 262144)]%N.

Definition replacement_char : N := 65533.

Definition is_surrogate (r : N) : bool := ((55296 <=? r) && (r <? 57344))%N.

(** [utf16.DecodeRune]: [None] stands for the replacement character. *)
Definition decode_surrogates (hi lo : N) : option N :=
  if ((55296 <=? hi) && (hi <? 56320) && (56320 <=? lo) && (lo <? 57344))%N
  then Some ((hi - 55296) * 1024 + (lo - 56320) + 65536)%N
  else None.

Definition is_cont (c : ascii) : bool := ((128 <=? code c) && (code c <=? 191))%N.

Definition between (lo hi : N) (c : ascii) : bool :=
  ((lo <=? code c) && (code c <=? hi))%N.

(** The number of bytes that follow the lead byte [c] when [c] and the
    start of [r] form one well-formed UTF-8 sequence ([utf8.DecodeRune]);
    [None] when they do not. *)
Definition utf8_tail (c : ascii) (r : string) : option nat :=
  let n := code c in
  if (n <? 128)%N then Some 0%nat
  else if between 194 223 c then
    match r with
    | String c1 _ => if is_cont c1 then Some 1%nat else None
    | _ => None
    end
  else if between 224 239 c then
    match r with
    | String c1 (String c2 _) =>
        let ok1 :=
          if (n =? 224)%N then between 160 191 c1
          else if (n =? 237)%N then between 128 159 c1
          else is_cont c1 in
        if ok1 && is_cont c2 then Some 2%nat else None
    | _ => None
    end
  else if between 240 244 c then
    match r with
    | String c1 (String c2 (String c3 _)) =>
        let ok1 :=
          if (n =? 240)%N then between 144 191 c1
          else if (n =? 244)%N then between 128 143 c1
          else is_cont c1 in
        if ok1 && is_cont c2 && is_cont c3 then Some 3%nat else None
    | _ => None
    end
  else None.

(** The character a one-letter escape stands for. *)
Definition simple_escape (c : ascii) : option ascii :=
  match code c with
  | 34 => Some "034"%char
  | 92 => Some "092"%char
  | 47 => Some "/"%char
  | 98 => Some "008"%char
  | 102 => Some "012"%char
  | 110 => Some "010"%char
  | 114 => Some "013"%char
  | 116 => Some "009"%char
  | _ => None
  end%N.

(** The second half [\uXXXX] of a surrogate pair, when [s] starts with one. *)
Definition low_surrogate (hi : N) (s : string) : option N :=
  match s with
  | String b (String u (String h1 (String h2 (String h3 (String h4 _))))) =>
      if ((code b =? 92) && (code u =? 117))%N then
        match hex4 h1 h2 h3 h4 with
        | Some lo => decode_surrogates hi lo
        | None => None
        end
      else None
  | _ => None
  end.

(** The text of a string literal after its opening quote: the unquoted
    contents (built in reverse in [acc]) and what follows the closing
    quote.  [copy] counts continuation bytes of a well-formed UTF-8
    sequence still to be copied, [skip] counts bytes of an escape already
    consumed.  Ill-formed UTF-8 is replaced byte by byte with U+FFFD. *)
Fixpoint string_body (s : string) (copy skip : nat) (acc : list ascii)
  : option (string * string) :=
  match s with
  | EmptyString => None
  | String c r =>
      match skip, copy with
      | S k, _ => string_body r copy k acc
      | O, S k => string_body r k O (c :: acc)
      | O, O =>
          if (code c =? 34)%N then Some (String.string_of_list_ascii (rev acc), r)
          else if (code c <? 32)%N then None
          else if (code c =? 92)%N then
            match r with
            | String e r1 =>
                match simple_escape e with
                | Some ch => string_body r O 1 (ch :: acc)
                | None =>
                    if (code e =? 117)%N then
                      match r1 with
                      | String h1 (String h2 (String h3 (String h4 r2))) =>
                          match hex4 h1 h2 h3 h4 with
                          | None => None
                          | Some rr =>
                              if is_surrogate rr then
                                match low_surrogate rr r2 with
                                | Some dec =>
                                    string_body r O 11 (encode_rune_rev dec ++ acc)
                                | None =>
                                    string_body r O 5
                                      (encode_rune_rev replacement_char ++ acc)
                                end
                              else string_body r O 5 (encode_rune_rev rr ++ acc)
                          end
                      | _ => None
                      end
                    else None
                end
            | EmptyString => None
            end
          else
            match utf8_tail c r with
            | Some k => string_body r k O (c :: acc)
            | None => string_body r O O (encode_rune_rev replacement_char ++ acc)
            end
      end
  end.

Fixpoint span_digits (s : string) (acc : list ascii) : list ascii * string :=
  match s with
  | String c r => if is_digit c then span_digits r (c :: acc) else (acc, s)
  | EmptyString => (acc, s)
  end.

(** A number literal at the start of [s]: an optional minus sign, then
    either a single 0 or a digit from 1 to 9 followed by any digits, then
    optionally a dot with at least one digit, then optionally an exponent
    mark (e or E) with an optional sign and at least one digit. *)
Definition number_literal (s : string) : option (string * string) :=
  let '(sign, s1) :=
    match s with
    | String c r => if (code c =? 45)%N then ([c], r) else ([], s)
    | _ => ([], s)
    end in
  let int_part :=
    match s1 with
    | String c r =>
        if (code c =? 48)%N then Some (c :: sign, r)
        else if is_digit c then Some (span_digits r (c :: sign))
        else None
    | _ => None
    end in
  match int_part with
  | None => None
  | Some (acc, s2) =>
      let frac :=
        match s2 with
        | String c (String d r) =>
            if ((code c =? 46)%N) then
              if is_digit d then Some (span_digits r (d :: c :: acc)) else None
            else Some (acc, s2)
        | String c EmptyString => if (code c =? 46)%N then None else Some (acc, s2)
        | _ => Some (acc, s2)
        end in
      match frac with
      | None => None
      | Some (acc, s3) =>
          let expo :=
            match s3 with
            | String c r =>
                if ((code c =? 101) || (code c =? 69))%N then
                  match r with
                  | String sg (String d r') =>
                      if ((code sg =? 43) || (code sg =? 45))%N then
                        if is_digit d then Some (span_digits r' (d :: sg :: c :: acc))
                        else None
                      else if is_digit sg then Some (span_digits (String d r') (sg :: c :: acc))
                      else None
                  | String d EmptyString =>
                      if is_digit d then Some (d :: c :: acc, EmptyString) else None
                  | EmptyString => None
                  end
                else Some (acc, s3)
            | _ => Some (acc, s3)
            end in
          match expo with
          | None => None
          | Some (acc, s4) => Some (String.string_of_list_ascii (rev acc), s4)
          end
      end
  end.

(** [s] starts with the keyword [kw]: what follows it. *)
Fixpoint strip_prefix (kw s : string) : option string :=
  match kw, s with
  | EmptyString, _ => Some s
  | String a kw', String b s' => if Ascii.eqb a b then strip_prefix kw' s' else None
  | _, EmptyString => None
  end.

(** The scanner refuses more than 10000 nested arrays and objects. *)
Definition maxNestingDepth : Z := 10000.

(** One JSON value at the start of [s] (after optional white space) and the
    rest of the input.  [depth] is the number of arrays and objects already
    open; [fuel] bounds the recursion and is taken larger than the input is
    long. *)
Fixpoint parse_value (fuel : nat) (depth : Z) (s : string) {struct fuel}
  : option (value * string) :=
  match fuel with
  | O => None
  | S fuel =>
      match skip_space s with
      | EmptyString => None
      | String c r =>
          if (code c =? 123)%N then
            if maxNestingDepth <=? depth then None
            else
              match skip_space r with
              | String c' r' =>
                  if (code c' =? 125)%N then Some (Object [], r')
                  else parse_members fuel (depth + 1) r []
              | EmptyString => None
              end
          else if (code c =? 91)%N then
            if maxNestingDepth <=? depth then None
            else
              match skip_space r with
              | String c' r' =>
                  if (code c' =? 93)%N then Some (Array [], r')
                  else parse_elems fuel (depth + 1) r []
              | EmptyString => None
              end
          else if (code c =? 34)%N then
            match string_body r O O [] with
            | Some (str, r') => Some (Str str, r')
            | None => None
            end
          else if (code c =? 116)%N then
            option_map (pair (Bool true)) (strip_prefix "rue" r)
          else if (code c =? 102)%N then
            option_map (pair (Bool false)) (strip_prefix "alse" r)
          else if (code c =? 110)%N then
            option_map (pair Null) (strip_prefix "ull" r)
          else
            match number_literal (String c r) with
            | Some (lit, r') => Some (Number lit, r')
            | None => None
            end
      end
  end
with parse_members (fuel : nat) (depth : Z) (s : string) (acc : list (string * value))
  {struct fuel} : option (value * string) :=
  match fuel with
  | O => None
  | S fuel =>
      match skip_space s with
      | String q r =>
          if (code q =? 34)%N then
            match string_body r O O [] with
            | Some (key, r1) =>
                match skip_space r1 with
                | String colon r2 =>
                    if (code colon =? 58)%N then
                      match parse_value fuel depth r2 with
                      | Some (v, r3) =>
                          match skip_space r3 with
                          | String d r4 =>
                              if (code d =? 44)%N
                              then parse_members fuel depth r4 ((key, v) :: acc)
                              else if (code d =? 125)%N
                              then Some (Object (rev ((key, v) :: acc)), r4)
                              else None
                          | EmptyString => None
                          end
                      | None => None
                      end
                    else None
                | EmptyString => None
                end
            | None => None
            end
          else None
      | EmptyString => None
      end
  end
with parse_elems (fuel : nat) (depth : Z) (s : string) (acc : list value)
  {struct fuel} : option (value * string) :=
  match fuel with
  | O => None
  | S fuel =>
      match parse_value fuel depth s with
      | Some (v, r1) =>
          match skip_space r1 with
          | String d r2 =>
              if (code d =? 44)%N then parse_elems fuel depth r2 (v :: acc)
              else if (code d =? 93)%N then Some (Array (rev (v :: acc)), r2)
              else None
          | EmptyString => None
          end
      | None => None
      end
  end.

(** The whole input is one value: the [checkValid] pass. *)
Definition parse (s : string) : option value :=
  match parse_value (S (S (String.length s))) 0 s with
  | Some (v, rest) =>
      match skip_space rest with
      | EmptyString => Some v
      | _ => None
      end
  | None => None
  end.

(** Case folding of an object key for the match against field names:
    ASCII letters go to upper case, and the two letters outside ASCII that
    fold to ASCII ones (U+017F to S, U+212A to K) are replaced. *)
Fixpoint fold_name (s : string) : string :=
  match s with
  | EmptyString => EmptyString
  | String c r =>
      let n := code c in
      if ((97 <=? n) && (n <=? 122))%N then String (ascii_of_N (n - 32)) (fold_name r)
      else
        match r with
        | String c1 r1 =>
            if ((n =? 197) && (code c1 =? 191))%N then String "S"%char (fold_name r1)
            else
              match r1 with
              | String c2 r2 =>
                  if ((n =? 226) && (code c1 =? 132) && (code c2 =? 170))%N
                  then String "K"%char (fold_name r2)
                  else String c (fold_name r)
              | EmptyString => String c (fold_name r)
              end
        | EmptyString => String c EmptyString
        end
  end.

(** [strconv.ParseInt(literal, 10, 64)] on a JSON number literal. *)
Fixpoint decimal (s : string) (acc : Z) : option Z :=
  match s with
  | EmptyString => Some acc
  | String c r =>
      if is_digit c then decimal r (10 * acc + Z.of_N (code c - 48)) else None
  end.

Definition parse_int (literal : string) : option Z :=
  let '(neg, digits) :=
    match literal with
    | String c r => if (code c =? 45)%N then (true, r) else (false, literal)
    | EmptyString => (false, literal)
    end in
  match digits with
  | EmptyString => None
  | _ =>
      match decimal digits 0 with
      | Some n =>
          let z := if neg then - n else n in
          if (- 2^63 <=? z) && (z <? 2^63) then Some z else None
      | None => None
      end
  end.

(** Storing a value into a [string] field and into an [int] field:
    [null] leaves the field as it is, a value of another kind is an
    [UnmarshalTypeError]. *)
Definition store_string (v : value) (old : string) : option string :=
  match v with
  | Str s => Some s
  | Null => Some old
  | _ => None
  end.

Definition store_int (v : value) (old : Z) : option Z :=
  match v with
  | Number lit => parse_int lit
  | Null => Some old
  | _ => None
  end.

Import LogEntry.

(** One object member stored into the entry; members whose key names no
    field are ignored. *)
Definition store_member (e : LogEntry.t) (m : string * value) : option LogEntry.t :=
  let '(key, v) := m in
  let k := fold_name key in
  if String.eqb k "TIMESTAMP" then
    s ← store_string v (Timestamp e);
    Some (mk s (Level e) (Endpoint e) (ResponseTimeMs e) (StatusCode e) (UserID e) (Message e))
  else if String.eqb k "LEVEL" then
    s ← store_string v (Level e);
    Some (mk (Timestamp e) s (Endpoint e) (ResponseTimeMs e) (StatusCode e) (UserID e) (Message e))
  else if String.eqb k "ENDPOINT" then
    s ← store_string v (Endpoint e);
    Some (mk (Timestamp e) (Level e) s (ResponseTimeMs e) (StatusCode e) (UserID e) (Message e))
  else if String.eqb k "RESPONSE_TIME_MS" then
    n ← store_int v (ResponseTimeMs e);
    Some (mk (Timestamp e) (Level e) (Endpoint e) n (StatusCode e) (UserID e) (Message e))
  else if String.eqb k "STATUS_CODE" then
    n ← store_int v (StatusCode e);
    Some (mk (Timestamp e) (Level e) (Endpoint e) (ResponseTimeMs e) n (UserID e) (Message e))
  else if String.eqb k "USER_ID" then
    s ← store_string v (UserID e);
    Some (mk (Timestamp e) (Level e) (Endpoint e) (ResponseTimeMs e) (StatusCode e) s (Message e))
  else if String.eqb k "MESSAGE" then
    s ← store_string v (Message e);
    Some (mk (Timestamp e) (Level e) (Endpoint e) (ResponseTimeMs e) (StatusCode e) (UserID e) s)
  else Some e.

Fixpoint store_members (e : LogEntry.t) (ms : list (string * value)) : option LogEntry.t :=
  match ms with
  | [] => Some e
  | m :: ms' =>
      match store_member e m with
      | Some e' => store_members e' ms'
      | None => None
      end
  end.

(** [json.Unmarshal(line, &entry)] with [entry] at its zero value. *)
Definition Unmarshal (line : string) : option LogEntry.t :=
  match parse line with
  | Some (Object ms) => store_members LogEntry.zero ms
  | Some Null => Some LogEntry.zero
  | Some _ => None
  | None => None
  end.

(** Test inputs are written with ['] where the JSON text has a double
    quote. *)
Definition dq (s : string) : string :=
  String.string_of_list_ascii
    (map (fun c => if (code c =? 39)%N then "034"%char else c)
         (String.list_ascii_of_string s)).

End Json.

(** ** internal/processor/logparser.go *)

Module Processor.

Import LogAggregation.

(** [LogParser] owns the aggregation it mutates; [Parse] hands the same
    object back to the caller. *)
Record LogParser : Type := mkLogParser { aggregation : LogAggregation.t }.

Definition NewLogParser : LogParser := mkLogParser NewLogAggregation.

(** The scanner buffer may grow up to [1024*1024] bytes. *)
Definition maxTokenSize : Z := 1024 * 1024.

(** The [switch entry.Level] of [processEntry]. *)
Definition countLevel (level : string) (a : LogAggregation.t) : LogAggregation.t :=
  if String.eqb level "ERROR" then set_ErrorCount (GoInt.incr (ErrorCount a)) a
  else if String.eqb level "WARN" then set_WarnCount (GoInt.incr (WarnCount a)) a
  else if String.eqb level "INFO" then set_InfoCount (GoInt.incr (InfoCount a)) a
  else if String.eqb level "DEBUG" then set_DebugCount (GoInt.incr (DebugCount a)) a
  else a.

Definition trackResponse (ms : Z) (a : LogAggregation.t) : LogAggregation.t :=
  let a := set_TotalResponseMs (GoInt.add (TotalResponseMs a) ms) a in
  if ms >? MaxResponseMs a then set_MaxResponseMs ms a else a.

Definition trackUser (uid : string) (a : LogAggregation.t) : LogAggregation.t :=
  if String.eqb uid "" then a else set_UniqueUsers ({[ uid ]} ∪ UniqueUsers a) a.

Definition trackEndpoint (ep : string) (a : LogAggregation.t) : LogAggregation.t :=
  if String.eqb ep "" then a else set_UniqueEndpoints ({[ ep ]} ∪ UniqueEndpoints a) a.

(** [m[code]++] on a Go map: a missing key reads as 0. *)
Definition bump (code : Z) (m : gmap Z Z) : gmap Z Z :=
  <[ code := GoInt.incr (default 0 (m !! code)) ]> m.

Definition trackStatus (code : Z) (a : LogAggregation.t) : LogAggregation.t :=
  if code >? 0 then set_StatusCodeCounts (bump code (StatusCodeCounts a)) a else a.

(** [processEntry] updates the aggregation with a single log entry. *)
Definition processEntry (entry : LogEntry.t) (a : LogAggregation.t) : LogAggregation.t :=
  let a := countLevel (LogEntry.Level entry) a in
  let a := trackResponse (LogEntry.ResponseTimeMs entry) a in
  let a := trackUser (LogEntry.UserID entry) a in
  let a := trackEndpoint (LogEntry.Endpoint entry) a in
  trackStatus (LogEntry.StatusCode entry) a.

Section WithDecoder.

(** [json.Unmarshal(line, &entry)] belongs to the Go standard library; the
    parser only looks at whether it returned an error.  [None] stands for
    [err != nil]. *)
Variable Unmarshal : string -> option LogEntry.t.

(** What one iteration of the [for scanner.Scan()] loop does to the
    aggregation, apart from the line counter. *)
Definition ingest (line : string) (a : LogAggregation.t) : LogAggregation.t :=
  if (String.length line =? 0)%nat then a
  else match Unmarshal line with
       | None => set_WarnCount (GoInt.incr (WarnCount a)) a
       | Some entry =>
           let a := processEntry entry a in
           set_ProcessedLines (GoInt.incr (ProcessedLines a)) a
       end.

(** One iteration on the loop state [(lineNum, *p.aggregation)]. *)
Definition scanStep (st : Z * LogAggregation.t) (line : string) : Z * LogAggregation.t :=
  (GoInt.incr (fst st), ingest line (snd st)).

Definition scanLoop (lines : list string) (st : Z * LogAggregation.t)
  : Z * LogAggregation.t :=
  fold_left scanStep lines st.

(** [Parse] returns the parser after the call together with
    [(aggregation, nil)] as [inr] or [(nil, err)] as [inl]. *)
Definition Parse (p : LogParser) (reader : Bufio.Reader)
  : LogParser * (error + LogAggregation.t) :=
  let '(lines, scanErr) := Bufio.Scan maxTokenSize reader in
  let '(lineNum, a) := scanLoop lines (0, aggregation p) in
  match scanErr with
  | Some err => (mkLogParser a, inl (Errorf_w "error scanning file: " err))
  | None =>
      let a := set_TotalLines lineNum a in
      (mkLogParser a, inr a)
  end.

End WithDecoder.

(** [GetAverageResponseTime] *)
Definition GetAverageResponseTime (p : LogParser) : Float64.float64 :=
  if ProcessedLines (aggregation p) =? 0 then Float64.zero
  else Float64.div (Float64.of_int (TotalResponseMs (aggregation p)))
                   (Float64.of_int (ProcessedLines (aggregation p))).

End Processor.

(** ** The process and its collaborators

    Both Lambdas run against ambient state: the wall clock, standard
    output, the queue, the result table and the metrics side channel.  The
    functions of [cmd/] are written in a state monad over that [World]. *)

Module Runtime.

(** An argument handed to [fmt.Printf]. *)
Inductive arg : Type :=
| AStr (s : string)
| AInt (z : Z)
| AFloat (f : Float64.float64)
| AErr (e : error).

(** One [fmt.Printf] call: the format string as written in the source and
    its arguments. *)
Record printed : Type := mkPrinted { format : string; args : list arg }.

(** [metrics.MetricValue] *)
Record MetricValue : Type := mkMetricValue { Value : Float64.float64; Unit : string }.

Definition LatencyMs (v : Float64.float64) : MetricValue := mkMetricValue v "Milliseconds".
Definition Count (v : Float64.float64) : MetricValue := mkMetricValue v "Count".

(** A message accepted by the queue: the body and the [JobID] attribute. *)
Record QueueMessage : Type := mkQueueMessage { MessageBody : string; JobIDAttribute : string }.

Record World : Type := mkWorld {
  clock : nat -> Time;              (* the readings [time.Now()] returns, in order *)
  reads : nat;                      (* readings taken so far *)
  stdout : list printed;            (* what was printed, oldest first *)
  table : gmap string ProcessingResult.t;   (* the result table, keyed by job_id *)
  putRequests : list ProcessingResult.t;    (* every [PutItem] issued, oldest first *)
  queue : list QueueMessage;                (* messages the queue accepted *)
  sendRequests : list QueueMessage;         (* every [SendMessage] issued *)
  emitted : list (Time * gmap string MetricValue)  (* metric batches issued *)
}.

Definition M (A : Type) : Type := World -> A * World.

Definition ret {A : Type} (a : A) : M A := fun w => (a, w).

Definition bind {A B : Type} (m : M A) (k : A -> M B) : M B :=
  fun w => let '(a, w') := m w in k a w'.

Notation "x <~ m ;; k" := (bind m (fun x => k))
  (at level 100, m at next level, right associativity).
Notation "m ;;; k" := (bind m (fun _ => k))
  (at level 100, right associativity).

(** [time.Now()] *)
Definition Now : M Time :=
  fun w => (clock w (reads w),
            mkWorld (clock w) (S (reads w)) (stdout w) (table w) (putRequests w)
                    (queue w) (sendRequests w) (emitted w)).

(** [time.Since(t).Milliseconds()]: whole milliseconds, truncated. *)
Definition SinceMilliseconds (t : Time) : M Z :=
  now <~ Now ;; ret (Z.quot (now - t) 1000000).

(** [t.Add(7 * 24 * time.Hour).Unix()] *)
Definition expiry (t : Time) : Z := (t + 7 * 24 * 3600 * 1000000000) / 1000000000.

(** [fmt.Printf] *)
Definition Printf (fmt : string) (a : list arg) : M unit :=
  fun w => (tt,
            mkWorld (clock w) (reads w) (stdout w ++ [mkPrinted fmt a]) (table w)
                    (putRequests w) (queue w) (sendRequests w) (emitted w)).

(** [ddbClient.PutItem]: the request is recorded; when the service accepts
    it the item replaces whatever the table held under the same job id. *)
Definition PutItem (fault : option error) (item : ProcessingResult.t) : M (option error) :=
  fun w =>
    let tbl := match fault with
               | None => <[ ProcessingResult.JobID item := item ]> (table w)
               | Some _ => table w
               end in
    (fault,
     mkWorld (clock w) (reads w) (stdout w) tbl (putRequests w ++ [item])
             (queue w) (sendRequests w) (emitted w)).

(** [sqsClient.SendMessage] *)
Definition SendMessage (fault : option error) (msg : QueueMessage) : M (option error) :=
  fun w =>
    let q := match fault with
             | None => queue w ++ [msg]
             | Some _ => queue w
             end in
    (fault,
     mkWorld (clock w) (reads w) (stdout w) (table w) (putRequests w)
             q (sendRequests w ++ [msg]) (emitted w)).

(** [metricsCollector.EmitBatch], guarded by [metricsCollector != nil] at
    every call site.  The call reads the clock once for a batch that is not
    empty; its result is ignored by the callers. *)
Definition EmitBatch (collector : bool) (metrics : list (string * MetricValue)) : M unit :=
  if collector then
    match metrics with
    | [] => ret tt
    | _ =>
        now <~ Now ;;
        fun w => (tt,
                  mkWorld (clock w) (reads w) (stdout w) (table w) (putRequests w)
                          (queue w) (sendRequests w)
                          (emitted w ++ [(now, list_to_map metrics)]))
    end
  else ret tt.

End Runtime.

(** ** cmd/worker/main.go *)

Module Worker.

Import Runtime.

(** The collaborators of the worker.  [unmarshalJob] is
    [json.Unmarshal([]byte(record.Body), &job)], [unmarshalEntry] the
    decoder of one log line, [GetObject] the object store ([inl] is its
    error), [putFault] the answer of the result store to the n-th request
    for a given item. *)
Record Env : Type := mkEnv {
  unmarshalJob : string -> error + ProcessingJob.t;
  unmarshalEntry : string -> option LogEntry.t;
  GetObject : string -> string -> error + Bufio.Reader;
  putFault : nat -> ProcessingResult.t -> option error;
  metricsCollector : bool
}.

(** [events.SQSMessage], of which only the body is read. *)
Record SQSMessage : Type := mkSQSMessage { Body : string }.

Section WithEnv.

Variable env : Env.

(** [saveResult]: marshalling a [ProcessingResult] cannot fail, so the
    outcome is the one of [PutItem]. *)
Definition saveResult (result : ProcessingResult.t) : M (option error) :=
  fun w => PutItem (putFault env (length (putRequests w)) result) result w.

(** The struct literal of [saveFailedResult]; the fields it leaves out
    hold their zero values. *)
Definition failedResult (job : ProcessingJob.t) (startTime : Time) (elapsed : Z)
    (completedAt expiresFrom : Time) (processErr : error) : ProcessingResult.t :=
  {| ProcessingResult.JobID := ProcessingJob.JobID job;
     ProcessingResult.Status := "failed";
     ProcessingResult.LineCount := 0;
     ProcessingResult.ErrorCount := 0;
     ProcessingResult.WarnCount := 0;
     ProcessingResult.InfoCount := 0;
     ProcessingResult.AvgResponseTimeMs := Float64.zero;
     ProcessingResult.MaxResponseTimeMs := 0;
     ProcessingResult.UniqueUsers := 0;
     ProcessingResult.UniqueEndpoints := 0;
     ProcessingResult.ProcessingTimeMs := elapsed;
     ProcessingResult.FileSizeBytes := ProcessingJob.Size job;
     ProcessingResult.StartedAt := startTime;
     ProcessingResult.CompletedAt := completedAt;
     ProcessingResult.ErrorMessage := Error processErr;
     ProcessingResult.ExpiresAt := expiry expiresFrom |}.

Definition saveFailedResult (job : ProcessingJob.t) (startTime : Time) (processErr : error)
  : M (option error) :=
  elapsed <~ SinceMilliseconds startTime ;;
  completedAt <~ Now ;;
  expiresFrom <~ Now ;;
  let result := failedResult job startTime elapsed completedAt expiresFrom processErr in
  saved <~ saveResult result ;;
  match saved with
  | Some err => Printf "Failed to save error result: %v\n" [AErr err]
  | None => ret tt
  end ;;;
  EmitBatch (metricsCollector env)
    [("WorkerFailureCount", Count (Float64.of_int 1))] ;;;
  ret (Some processErr).

(** The struct literal under [// Build result] in [processMessage]. *)
Definition completedResult (job : ProcessingJob.t) (parser : Processor.LogParser)
    (aggregation : LogAggregation.t) (startTime : Time) (elapsed : Z)
    (completedAt expiresFrom : Time) : ProcessingResult.t :=
  {| ProcessingResult.JobID := ProcessingJob.JobID job;
     ProcessingResult.Status := "completed";
     ProcessingResult.LineCount := LogAggregation.TotalLines aggregation;
     ProcessingResult.ErrorCount := LogAggregation.ErrorCount aggregation;
     ProcessingResult.WarnCount := LogAggregation.WarnCount aggregation;
     ProcessingResult.InfoCount := LogAggregation.InfoCount aggregation;
     ProcessingResult.AvgResponseTimeMs := Processor.GetAverageResponseTime parser;
     ProcessingResult.MaxResponseTimeMs := LogAggregation.MaxResponseMs aggregation;
     ProcessingResult.UniqueUsers :=
       Z.of_nat (size (LogAggregation.UniqueUsers aggregation));
     ProcessingResult.UniqueEndpoints :=
       Z.of_nat (size (LogAggregation.UniqueEndpoints aggregation));
     ProcessingResult.ProcessingTimeMs := elapsed;
     ProcessingResult.FileSizeBytes := ProcessingJob.Size job;
     ProcessingResult.StartedAt := startTime;
     ProcessingResult.CompletedAt := completedAt;
     ProcessingResult.ErrorMessage := "";
     ProcessingResult.ExpiresAt := expiry expiresFrom |}.

Definition processMessage (record : SQSMessage) : M (option error) :=
  startTime <~ Now ;;
  match unmarshalJob env (Body record) with
  | inl err => ret (Some (Errorf_w "failed to unmarshal job: " err))
  | inr job =>
      Printf "Processing job %s: %s/%s\n"
        [AStr (ProcessingJob.JobID job); AStr (ProcessingJob.Bucket job);
         AStr (ProcessingJob.Key job)] ;;;
      match GetObject env (ProcessingJob.Bucket job) (ProcessingJob.Key job) with
      | inl err =>
          saveFailedResult job startTime (Errorf_w "failed to get S3 object: " err)
      | inr body =>
          let '(parser, parsed) :=
            Processor.Parse (unmarshalEntry env) Processor.NewLogParser body in
          match parsed with
          | inl err =>
              saveFailedResult job startTime (Errorf_w "failed to parse logs: " err)
          | inr aggregation =>
              elapsed <~ SinceMilliseconds startTime ;;
              completedAt <~ Now ;;
              expiresFrom <~ Now ;;
              let result :=
                completedResult job parser aggregation startTime elapsed
                  completedAt expiresFrom in
              saved <~ saveResult result ;;
              match saved with
              | Some err => ret (Some (Errorf_w "failed to save result: " err))
              | None =>
                  EmitBatch (metricsCollector env)
                    [("WorkerProcessingLatencyMs",
                      LatencyMs (Float64.of_int (ProcessingResult.ProcessingTimeMs result)));
                     ("WorkerLinesProcessed",
                      Count (Float64.of_int (ProcessingResult.LineCount result)));
                     ("WorkerErrorsFound",
                      Count (Float64.of_int (ProcessingResult.ErrorCount result)));
                     ("WorkerSuccessCount", Count (Float64.of_int 1))] ;;;
                  Printf "Completed job %s: %d lines in %dms\n"
                    [AStr (ProcessingJob.JobID job);
                     AInt (ProcessingResult.LineCount result);
                     AInt (ProcessingResult.ProcessingTimeMs result)] ;;;
                  ret None
              end
          end
      end
  end.

(** [handler]: the records of the batch in order; the first error ends the
    invocation and is returned. *)
Fixpoint handler (records : list SQSMessage) : M (option error) :=
  match records with
  | [] => ret None
  | record :: rest =>
      r <~ processMessage record ;;
      match r with
      | Some err =>
          Printf "Error processing message: %v\n" [AErr err] ;;;
          ret (Some err)
      | None => handler rest
      end
  end.

End WithEnv.

End Worker.

(** ** package strings, as far as the trigger uses it *)

Module Strings.

(** [strings.ToLower] on the ASCII letters.  On other runes Go applies the
    Unicode mapping, which never yields one of the characters of [.json],
    so the suffix test below is not affected. *)
Definition lower (c : ascii) : ascii :=
  let n := N_of_ascii c in
  if ((65 <=? n) && (n <=? 90))%N then ascii_of_N (n + 32) else c.

Fixpoint ToLower (s : string) : string :=
  match s with
  | EmptyString => EmptyString
  | String c r => String (lower c) (ToLower r)
  end.

(** [strings.HasSuffix] *)
Definition HasSuffix (s suffix : string) : bool :=
  let n := String.length s in
  let m := String.length suffix in
  (m <=? n)%nat && String.eqb (String.substring (n - m) m s) suffix.

(** [strings.Split] with a separator of one byte: one more part than
    there are separators.  [cur] is the part being read, in reverse. *)
Fixpoint split_from (sep : ascii) (cur : list ascii) (s : string) : list string :=
  match s with
  | EmptyString => [String.string_of_list_ascii (rev cur)]
  | String c r =>
      if Ascii.eqb c sep
      then String.string_of_list_ascii (rev cur) :: split_from sep [] r
      else split_from sep (c :: cur) r
  end.

Definition Split (s : string) (sep : ascii) : list string := split_from sep [] s.

End Strings.

(** ** cmd/trigger/main.go *)

Module Trigger.

Import Runtime.

(** [s3.HeadObjectOutput]: both fields are pointers in the SDK. *)
Record HeadObjectOutput : Type := mkHeadObjectOutput {
  ContentLength : option Z;
  ContentType : option string
}.

(** The collaborators of the trigger: the object store's metadata call,
    [json.Marshal(job)], and the queue's answer to the n-th request. *)
Record Env : Type := mkEnv {
  HeadObject : string -> string -> error + HeadObjectOutput;
  marshalJob : ProcessingJob.t -> error + string;
  sendFault : nat -> QueueMessage -> option error;
  metricsCollector : bool
}.

(** [events.S3EventRecord], of which these three fields are read. *)
Record S3EventRecord : Type := mkS3EventRecord {
  BucketName : string;
  ObjectKey : string;
  EventTime : Time
}.

(** How a call ends: it returns ([None] is [nil]), or the process panics
    on the nil [ContentLength] dereference. *)
Inductive outcome : Type :=
| Returned (err : option error)
| Panicked.

(** The test [len(parts) >= 3 && parts[0] == "logs/test"] and, when it
    holds, [parts[1]]. *)
Definition extractJobID (key : string) : option string :=
  let parts := Strings.Split key "_"%char in
  match parts with
  | p0 :: p1 :: _ :: _ => if String.eqb p0 "logs/test" then Some p1 else None
  | _ => None
  end.

(** [aws.ToString] *)
Definition ToString (p : option string) : string := default "" p.

Section WithEnv.

Variable env : Env.

Definition processRecord (record : S3EventRecord) : M outcome :=
  startTime <~ Now ;;
  let bucket := BucketName record in
  let key := ObjectKey record in
  if negb (Strings.HasSuffix (Strings.ToLower key) ".json") then
    Printf "Skipping non-JSON file: %s\n" [AStr key] ;;;
    ret (Returned None)
  else
    match HeadObject env bucket key with
    | inl err =>
        ret (Returned (Some
          (Errorf_w ("failed to head object " +:+ bucket +:+ "/" +:+ key +:+ ": ") err)))
    | inr headResp =>
        match extractJobID key with
        | None =>
            ret (Returned (Some (Errorf_s "could not extract test_id from key: " key)))
        | Some jobID =>
            Printf "Extracted test_id '%s' from key\n" [AStr jobID] ;;;
            match ContentLength headResp with
            | None => ret Panicked
            | Some size =>
                validatedAt <~ Now ;;
                let job :=
                  {| ProcessingJob.JobID := jobID;
                     ProcessingJob.Bucket := bucket;
                     ProcessingJob.Key := key;
                     ProcessingJob.Size := size;
                     ProcessingJob.ContentType := ToString (ContentType headResp);
                     ProcessingJob.ReceivedAt := EventTime record;
                     ProcessingJob.ValidatedAt := validatedAt |} in
                match marshalJob env job with
                | inl err => ret (Returned (Some (Errorf_w "failed to marshal job: " err)))
                | inr jobBytes =>
                    let msg := mkQueueMessage jobBytes (ProcessingJob.JobID job) in
                    sent <~ (fun w =>
                      SendMessage (sendFault env (length (sendRequests w)) msg) msg w) ;;
                    match sent with
                    | Some err =>
                        ret (Returned (Some (Errorf_w "failed to send SQS message: " err)))
                    | None =>
                        elapsed <~ SinceMilliseconds startTime ;;
                        let validationLatency := Float64.of_int elapsed in
                        EmitBatch (metricsCollector env)
                          [("TriggerValidationLatencyMs", LatencyMs validationLatency);
                           ("TriggerFileSizeBytes",
                            mkMetricValue (Float64.of_int (ProcessingJob.Size job)) "Bytes");
                           ("TriggerInvocations", Count (Float64.of_int 1))] ;;;
                        Printf "Queued job %s for file %s/%s (%.2fms)\n"
                          [AStr (ProcessingJob.JobID job); AStr bucket; AStr key;
                           AFloat validationLatency] ;;;
                        ret (Returned None)
                    end
                end
            end
        end
    end.

(** [handler]: a record that fails is reported and the loop goes on; the
    invocation itself returns [nil]. *)
Fixpoint handler (records : list S3EventRecord) : M outcome :=
  match records with
  | [] => ret (Returned None)
  | record :: rest =>
      r <~ processRecord record ;;
      match r with
      | Panicked => ret Panicked
      | Returned (Some err) =>
          Printf "Error processing record: %v\n" [AErr err] ;;;
          EmitBatch (metricsCollector env)
            [("TriggerFailures", Count (Float64.of_int 1))] ;;;
          handler rest
      | Returned None => handler rest
      end
  end.

End WithEnv.

End Trigger.

(** ** internal/metrics/collector.go

    The collector in full, with the calls it makes to the metrics service.
    The two Lambdas ignore what [EmitBatch] returns; [Runtime.EmitBatch]
    above is the view they have of it. *)

Module Metrics.

(** [types.Dimension] and [types.MetricDatum] of the CloudWatch SDK. *)
Record Dimension : Type := mkDimension { Name : string; DimensionValue : string }.

Record MetricDatum : Type := mkMetricDatum {
  MetricName : string;
  Value : Float64.float64;
  Unit : string;
  Timestamp : Time;
  Dimensions : list Dimension
}.

Record PutMetricDataInput : Type := mkPutMetricDataInput {
  Namespace : string;
  MetricData : list MetricDatum
}.

(** [Collector]; the CloudWatch client it holds is the [putFault] of the
    state below. *)
Record Collector : Type := mkCollector {
  namespace : string;
  dims : list Dimension
}.

(** [MetricValue] with its two helpers. *)
Record MetricValue : Type := mkMetricValue { value : Float64.float64; unit : string }.

Definition LatencyMs (v : Float64.float64) : MetricValue := mkMetricValue v "Milliseconds".
Definition Count (v : Float64.float64) : MetricValue := mkMetricValue v "Count".

(** [getEnvironment], over the process environment. *)
Definition getEnvironment (getenv : string -> string) : string :=
  if String.eqb (getenv "ENVIRONMENT") "" then "development" else getenv "ENVIRONMENT".

(** [NewCollector]: [configError] is what [config.LoadDefaultConfig]
    answers. *)
Definition NewCollector (configError : option error) (getenv : string -> string)
    (namespace : string) : error + Collector :=
  match configError with
  | Some err => inl (Errorf_w "failed to load AWS config: " err)
  | None =>
      inr (mkCollector namespace
             [mkDimension "Environment" (getEnvironment getenv);
              mkDimension "Service" "event-pipeline"])
  end.

(** The clock and the CloudWatch service: [putFault n input] is the answer
    to the call number [n]; [calls] records every [PutMetricData] issued,
    oldest first. *)
Record State : Type := mkState {
  clock : nat -> Time;
  reads : nat;
  putFault : nat -> PutMetricDataInput -> option error;
  calls : list PutMetricDataInput
}.

Definition Now (st : State) : Time * State :=
  (clock st (reads st), mkState (clock st) (S (reads st)) (putFault st) (calls st)).

Definition PutMetricData (input : PutMetricDataInput) (st : State) : option error * State :=
  (putFault st (length (calls st)) input,
   mkState (clock st) (reads st) (putFault st) (calls st ++ [input])).

(** [emit] sends one datum. *)
Definition emit (c : Collector) (name : string) (v : Float64.float64) (u : string)
    (st : State) : option error * State :=
  let '(now, st) := Now st in
  let '(err, st) :=
    PutMetricData
      (mkPutMetricDataInput (namespace c) [mkMetricDatum name v u now (dims c)]) st in
  match err with
  | Some e => (Some (Errorf_w ("failed to emit metric " +:+ name +:+ ": ") e), st)
  | None => (None, st)
  end.

Definition EmitLatency (c : Collector) (name : string) (valueMs : Float64.float64) :=
  emit c name valueMs "Milliseconds".
Definition EmitCount (c : Collector) (name : string) (v : Float64.float64) :=
  emit c name v "Count".
Definition EmitBytes (c : Collector) (name : string) (v : Float64.float64) :=
  emit c name v "Bytes".

(** The loop [for i := 0; i < len(data); i += 1000] of [EmitBatch].  Every
    round advances [i], so [fuel] rounds are enough once [fuel] is the
    length of [data]. *)
Fixpoint batchLoop (fuel : nat) (c : Collector) (data : list MetricDatum) (i : nat)
    (st : State) : option error * State :=
  match fuel with
  | O => (None, st)
  | S fuel =>
      if (i <? length data)%nat then
        let stop := (if (length data <? i + 1000)%nat then length data else i + 1000)%nat in
        let '(err, st) :=
          PutMetricData
            (mkPutMetricDataInput (namespace c) (firstn (stop - i) (skipn i data))) st in
        match err with
        | Some e => (Some (Errorf_w "failed to emit batch metrics: " e), st)
        | None => batchLoop fuel c data (i + 1000)%nat st
        end
      else (None, st)
  end.

(** [EmitBatch]; [metrics] lists the entries of the Go map in the order in
    which the [range] statement visits them. *)
Definition EmitBatch (c : Collector) (metrics : list (string * MetricValue)) (st : State)
  : option error * State :=
  match metrics with
  | [] => (None, st)
  | _ =>
      let '(timestamp, st) := Now st in
      let data :=
        map (fun '(name, mv) => mkMetricDatum name (value mv) (unit mv) timestamp (dims c))
            metrics in
      batchLoop (length data) c data 0 st
  end.

End Metrics.

(** * Vocabulary of the properties *)

Module Spec.

Import LogAggregation.

(** What a scanned line amounts to for the parser: an empty line is passed
    over, a line the decoder refuses is malformed, any other line yields an
    entry. *)
Inductive lineOutcome : Type :=
| Skipped
| Malformed
| Decoded (entry : LogEntry.t).

Definition classify (U : string -> option LogEntry.t) (line : string) : lineOutcome :=
  if (String.length line =? 0)%nat then Skipped
  else match U line with
       | None => Malformed
       | Some e => Decoded e
       end.

Definition entryOf (o : lineOutcome) : option LogEntry.t :=
  match o with
  | Decoded e => Some e
  | _ => None
  end.

(** The entries of the lines that decode, in file order. *)
Definition decoded (U : string -> option LogEntry.t) (lines : list string)
  : list LogEntry.t :=
  omap (fun l => entryOf (classify U l)) lines.

Definition isDecoded (o : lineOutcome) : bool :=
  match o with
  | Decoded _ => true
  | _ => false
  end.

Definition isMalformed (o : lineOutcome) : bool :=
  match o with
  | Malformed => true
  | _ => false
  end.

Definition hasLevel (name : string) (o : lineOutcome) : bool :=
  match o with
  | Decoded e => String.eqb (LogEntry.Level e) name
  | _ => false
  end.

(** A line without any character other than white space; the empty line is
    one of them. *)
Definition blank (line : string) : bool :=
  forallb Json.is_space (String.list_ascii_of_string line).

(** The lines a reader delivers to the scanning loop. *)
Definition linesOf (r : Bufio.Reader) : list string :=
  fst (Bufio.Scan Processor.maxTokenSize r).

(** The lines that are not blank. *)
Definition nonBlank (lines : list string) : list string :=
  List.filter (fun l => negb (blank l)) lines.

(** The lines counted as warnings: the malformed ones and the entries of
    level WARN. *)
Definition warned (U : string -> option LogEntry.t) (lines : list string) : list string :=
  List.filter (fun l => isMalformed (classify U l) || hasLevel "WARN" (classify U l)) lines.

(** A file with the given lines, each closed by a line feed. *)
Fixpoint unlines (lines : list string) : string :=
  match lines with
  | [] => EmptyString
  | l :: rest => l +:+ String Bufio.newline (unlines rest)
  end.

(** The effect of one line on each field of the aggregation. *)
Definition stepCount (hit : bool) (x : Z) : Z := if hit then GoInt.incr x else x.

Definition stepTotalMs (o : lineOutcome) (x : Z) : Z :=
  match o with
  | Decoded e => GoInt.add x (LogEntry.ResponseTimeMs e)
  | _ => x
  end.

Definition stepMax (o : lineOutcome) (x : Z) : Z :=
  match o with
  | Decoded e => Z.max x (LogEntry.ResponseTimeMs e)
  | _ => x
  end.

Definition stepSet (key : option string) (s : gset string) : gset string :=
  match key with
  | Some k => if String.eqb k "" then s else {[ k ]} ∪ s
  | None => s
  end.

Definition stepCodes (o : lineOutcome) (m : gmap Z Z) : gmap Z Z :=
  match o with
  | Decoded e =>
      if LogEntry.StatusCode e >? 0 then Processor.bump (LogEntry.StatusCode e) m else m
  | _ => m
  end.

Definition applyOutcome (o : lineOutcome) (a : LogAggregation.t) : LogAggregation.t :=
  LogAggregation.mk
    (TotalLines a)
    (stepCount (isDecoded o) (ProcessedLines a))
    (stepCount (hasLevel "ERROR" o) (ErrorCount a))
    (stepCount (isMalformed o || hasLevel "WARN" o) (WarnCount a))
    (stepCount (hasLevel "INFO" o) (InfoCount a))
    (stepCount (hasLevel "DEBUG" o) (DebugCount a))
    (stepTotalMs o (TotalResponseMs a))
    (stepMax o (MaxResponseMs a))
    (stepSet (LogEntry.UserID <$> entryOf o) (UniqueUsers a))
    (stepSet (LogEntry.Endpoint <$> entryOf o) (UniqueEndpoints a))
    (stepCodes o (StatusCodeCounts a)).

(** The statistics of a result: everything but the job id, the status, the
    processing time, the file size, the time stamps and the error text. *)
Definition statistics (r : ProcessingResult.t)
  : Z * Z * Z * Z * Float64.float64 * Z * Z * Z :=
  (ProcessingResult.LineCount r, ProcessingResult.ErrorCount r,
   ProcessingResult.WarnCount r, ProcessingResult.InfoCount r,
   ProcessingResult.AvgResponseTimeMs r, ProcessingResult.MaxResponseTimeMs r,
   ProcessingResult.UniqueUsers r, ProcessingResult.UniqueEndpoints r).

(** Everything in a result that is not a time stamp or a duration. *)
Definition stableContent (r : ProcessingResult.t) : string * string * Z * string :=
  (ProcessingResult.JobID r, ProcessingResult.Status r,
   ProcessingResult.FileSizeBytes r, ProcessingResult.ErrorMessage r).

(** The k-th clock reading from now on, and the duration the worker
    measures between its first two readings. *)
Definition reading (w : Runtime.World) (k : nat) : Time :=
  Runtime.clock w (k + Runtime.reads w).

Definition elapsedMs (w : Runtime.World) : Z :=
  Z.quot (reading w 1 - reading w 0) 1000000.

(** The world in which [processMessage] starts to fetch: one clock reading
    taken and the job announced on standard output. *)
Definition announced (job : ProcessingJob.t) (w : Runtime.World) : Runtime.World :=
  snd (Runtime.Printf "Processing job %s: %s/%s\n"
         [Runtime.AStr (ProcessingJob.JobID job); Runtime.AStr (ProcessingJob.Bucket job);
          Runtime.AStr (ProcessingJob.Key job)] (snd (Runtime.Now w))).

End Spec.

(** * Sample inputs *)

Module Sample.

(** The three lines of the end-to-end scenario. *)
Definition infoLine : string := Json.dq "{'level':'INFO','response_time_ms':10}".
Definition errorLine : string := Json.dq "{'level':'ERROR','response_time_ms':500}".
Definition malformedLine : string := "not-json".

Definition threeLines : Bufio.Reader :=
  Bufio.mkReader (Spec.unlines [infoLine; errorLine; malformedLine]) None.

(** The same lines in another order. *)
Definition threeLinesShuffled : Bufio.Reader :=
  Bufio.mkReader (Spec.unlines [malformedLine; infoLine; errorLine]) None.

(** A file made of one empty line, and a file made of one line that holds a
    single space. *)
Definition oneEmptyLine : Bufio.Reader := Bufio.mkReader (Spec.unlines [""]) None.
Definition oneSpaceLine : Bufio.Reader := Bufio.mkReader (Spec.unlines [" "]) None.

(** A body whose transfer breaks off after the first line. *)
Definition brokenBody : Bufio.Reader :=
  Bufio.mkReader (Spec.unlines [infoLine]) (Some (errorString "unexpected EOF")).

End Sample.

(** * A sample deployment of the worker and of the trigger *)

Module Deployment.

Import Runtime.

Definition job42 : ProcessingJob.t :=
  {| ProcessingJob.JobID := "42";
     ProcessingJob.Bucket := "uploads";
     ProcessingJob.Key := "logs/test_42_20240101T000000.json";
     ProcessingJob.Size := 89;
     ProcessingJob.ContentType := "application/json";
     ProcessingJob.ReceivedAt := 1704067200000000000;
     ProcessingJob.ValidatedAt := 1704067200250000000 |}.

(** A job whose object the store does not hold, and a job whose body
    breaks off while it is read. *)
Definition job43 : ProcessingJob.t :=
  {| ProcessingJob.JobID := "43";
     ProcessingJob.Bucket := "uploads";
     ProcessingJob.Key := "logs/test_43_20240101T000000.json";
     ProcessingJob.Size := 10;
     ProcessingJob.ContentType := "application/json";
     ProcessingJob.ReceivedAt := 1704067200000000000;
     ProcessingJob.ValidatedAt := 1704067200250000000 |}.

Definition job44 : ProcessingJob.t :=
  {| ProcessingJob.JobID := "44";
     ProcessingJob.Bucket := "uploads";
     ProcessingJob.Key := "logs/test_44_20240101T000000.json";
     ProcessingJob.Size := 40;
     ProcessingJob.ContentType := "application/json";
     ProcessingJob.ReceivedAt := 1704067200000000000;
     ProcessingJob.ValidatedAt := 1704067200250000000 |}.

(** The queue bodies of the sample are opaque tokens; the decoder of the
    sample maps each token to its job. *)
Definition decodeJob (body : string) : error + ProcessingJob.t :=
  if String.eqb body "job-42" then inr job42
  else if String.eqb body "job-43" then inr job43
  else if String.eqb body "job-44" then inr job44
  else inl (errorString "invalid character 'j' looking for beginning of value").

Definition objects (bucket key : string) : error + Bufio.Reader :=
  if String.eqb bucket "uploads" then
    if String.eqb key "logs/test_42_20240101T000000.json" then inr Sample.threeLines
    else if String.eqb key "logs/test_44_20240101T000000.json" then inr Sample.brokenBody
    else inl (errorString "NoSuchKey: The specified key does not exist.")
  else inl (errorString "NoSuchBucket: The specified bucket does not exist").

Definition workerEnv : Worker.Env :=
  {| Worker.unmarshalJob := decodeJob;
     Worker.unmarshalEntry := Json.Unmarshal;
     Worker.GetObject := objects;
     Worker.putFault := fun _ _ => None;
     Worker.metricsCollector := true |}.

(** A clock that advances by one millisecond between two readings. *)
Definition initial : World :=
  {| clock := fun n => 1704067201000000000 + Z.of_nat n * 1000000;
     reads := 0;
     stdout := [];
     table := ∅;
     putRequests := [];
     queue := [];
     sendRequests := [];
     emitted := [] |}.

(** The same deployment a minute later, with the first result stored. *)
Definition later : World :=
  {| clock := fun n => 1704067261000000000 + Z.of_nat n * 3000000;
     reads := 0;
     stdout := [];
     table := table (snd (Worker.processMessage workerEnv (Worker.mkSQSMessage "job-42") initial));
     putRequests := [];
     queue := [];
     sendRequests := [];
     emitted := [] |}.

Definition headers (bucket key : string) : error + Trigger.HeadObjectOutput :=
  if String.eqb bucket "uploads" then
    inr (Trigger.mkHeadObjectOutput (Some 89) (Some "application/json"))
  else inl (errorString "NotFound").

Definition triggerEnv : Trigger.Env :=
  {| Trigger.HeadObject := headers;
     Trigger.marshalJob := fun job => inr ("job-" +:+ ProcessingJob.JobID job);
     Trigger.sendFault := fun _ _ => None;
     Trigger.metricsCollector := true |}.

Definition arrival (key : string) : Trigger.S3EventRecord :=
  Trigger.mkS3EventRecord "uploads" key 1704067200000000000.

End Deployment.

(** * Vocabulary of the further properties *)

Module Tally.

(** The entries with a given level, status code, and the sum of the
    response times, over a list of decoded entries. *)
Definition withLevel (name : string) (es : list LogEntry.t) : list LogEntry.t :=
  List.filter (fun e => String.eqb (LogEntry.Level e) name) es.

Definition withStatus (code : Z) (es : list LogEntry.t) : list LogEntry.t :=
  List.filter (fun e => LogEntry.StatusCode e =? code) es.

Definition responseSum (es : list LogEntry.t) : Z :=
  fold_right (fun e s => LogEntry.ResponseTimeMs e + s) 0 es.

End Tally.

(** * A sample log file with users, endpoints and status codes *)

Module Traffic.

Definition line1 : string :=
  Json.dq "{'timestamp':'2024-01-15T10:00:00Z','level':'INFO','endpoint':'/api/users','response_time_ms':45,'status_code':200,'user_id':'user_1'}".
Definition line2 : string :=
  Json.dq "{'timestamp':'2024-01-15T10:00:01Z','level':'ERROR','endpoint':'/api/orders','response_time_ms':2500,'status_code':500,'user_id':'user_2'}".
Definition line3 : string :=
  Json.dq "{'level':'DEBUG','endpoint':'/api/users','response_time_ms':-5,'status_code':200,'user_id':''}".
Definition line4 : string := Json.dq "{'level':'TRACE','response_time_ms':7}".
Definition line6 : string := "<<garbage>>".

Definition entry1 : LogEntry.t :=
  LogEntry.mk "2024-01-15T10:00:00Z" "INFO" "/api/users" 45 200 "user_1" "".
Definition entry2 : LogEntry.t :=
  LogEntry.mk "2024-01-15T10:00:01Z" "ERROR" "/api/orders" 2500 500 "user_2" "".
Definition entry3 : LogEntry.t := LogEntry.mk "" "DEBUG" "/api/users" (-5) 200 "" "".
Definition entry4 : LogEntry.t := LogEntry.mk "" "TRACE" "" 7 0 "" "".

(** Six lines: four entries, an empty line and a malformed line. *)
Definition file : Bufio.Reader :=
  Bufio.mkReader (Spec.unlines [line1; line2; line3; line4; ""; line6]) None.

Definition aggregation : LogAggregation.t :=
  LogAggregation.mk 6 4 1 1 1 1 2547 2500
    ({[ "user_1" ]} ∪ {[ "user_2" ]})
    ({[ "/api/users" ]} ∪ {[ "/api/orders" ]})
    (<[ 200 := 2 ]> (<[ 500 := 1 ]> ∅)).

(** A file of three empty lines, the second one closed by CR LF. *)
Definition emptyLines : Bufio.Reader :=
  Bufio.mkReader
    (String Bufio.newline
       (String Bufio.carriage_return (String Bufio.newline (String Bufio.newline ""))))
    None.

End Traffic.

(** What the parser of [Sample.threeLines] holds after it has also parsed
    [Traffic.file]. *)
Module Reuse.

Definition first : LogAggregation.t := LogAggregation.mk 3 2 1 1 1 0 510 500 ∅ ∅ ∅.

Definition second : LogAggregation.t :=
  LogAggregation.mk 6 6 2 2 2 1 3057 2500
    ({[ "user_1" ]} ∪ {[ "user_2" ]})
    ({[ "/api/users" ]} ∪ {[ "/api/orders" ]})
    (<[ 200 := 2 ]> (<[ 500 := 1 ]> ∅)).

End Reuse.

(** * A store that refuses every write *)

Module Outage.

Definition refusal : error := errorString "ProvisionedThroughputExceededException".

Definition workerEnv : Worker.Env :=
  {| Worker.unmarshalJob := Deployment.decodeJob;
     Worker.unmarshalEntry := Json.Unmarshal;
     Worker.GetObject := Deployment.objects;
     Worker.putFault := fun _ _ => Some refusal;
     Worker.metricsCollector := true |}.

End Outage.

(** * Keys and metadata answers for the trigger *)

Module Keys.

(** No character of [s] is [sep]. *)
Definition free (sep : ascii) (s : string) : bool :=
  forallb (fun c => negb (Ascii.eqb c sep)) (String.list_ascii_of_string s).

(** An object store whose metadata answer lacks the content length. *)
Definition lengthless : Trigger.Env :=
  {| Trigger.HeadObject := fun _ _ => inr (Trigger.mkHeadObjectOutput None None);
     Trigger.marshalJob := fun job => inr ("job-" +:+ ProcessingJob.JobID job);
     Trigger.sendFault := fun _ _ => None;
     Trigger.metricsCollector := true |}.

End Keys.

(** * A collector with a healthy and with a throttling metrics service *)

Module Telemetry.

Definition collector : Metrics.Collector :=
  Metrics.mkCollector "EventPipeline"
    [Metrics.mkDimension "Environment" "development";
     Metrics.mkDimension "Service" "event-pipeline"].

Definition batch : list (string * Metrics.MetricValue) :=
  [("WorkerLinesProcessed", Metrics.Count (Float64.of_int 3));
   ("WorkerSuccessCount", Metrics.Count (Float64.of_int 1))].

(** The datum [EmitBatch] builds for one entry of the map. *)
Definition datum (c : Metrics.Collector) (timestamp : Time)
    (entry : string * Metrics.MetricValue) : Metrics.MetricDatum :=
  Metrics.mkMetricDatum (fst entry) (Metrics.value (snd entry)) (Metrics.unit (snd entry))
    timestamp (Metrics.dims c).

Definition healthy : Metrics.State :=
  Metrics.mkState (fun n => 1704067201000000000 + Z.of_nat n * 1000000) 0
    (fun _ _ => None) [].


End Telemetry.

(** * Line endings *)

Module Endings.

(** A line followed by a carriage return, as in a file with CR LF line
    ends. *)
Definition withCR (line : string) : string :=
  line +:+ String Bufio.carriage_return EmptyString.

(** A line that can be written to a file and read back as it is: it holds
    no line feed, does not end in a carriage return, and leaves room in the
    scanner's buffer for two more bytes. *)
Definition plain (line : string) : Prop :=
  Keys.free Bufio.newline line = true
  /\ Bufio.dropCR line = line
  /\ Z.of_nat (String.length line) + 1 < Processor.maxTokenSize.

End Endings.

(** * Properties *)

(** ** Wrap-around arithmetic *)

Section GoIntFacts.

Import GoInt.

Lemma wrap_small (z : Z) : in_range z -> wrap z = z.
Proof.
  unfold in_range, wrap. intros Hz.
  rewrite Z.mod_small; lia.
Qed.

Lemma wrap_add_l (x y : Z) : wrap (wrap x + y) = wrap (x + y).
Proof.
  unfold wrap.
  replace ((x + 2^63) mod 2^64 - 2^63 + y + 2^63) with ((x + 2^63) mod 2^64 + y) by lia.
  rewrite Zplus_mod_idemp_l.
  replace (x + 2^63 + y) with (x + y + 2^63) by lia.
  reflexivity.
Qed.

Lemma add_swap (x a b : Z) : add (add x a) b = add (add x b) a.
Proof.
  unfold add. rewrite !wrap_add_l. f_equal. lia.
Qed.

Lemma incr_wrap (z : Z) : incr (wrap z) = wrap (z + 1).
Proof. unfold incr, add. apply wrap_add_l. Qed.

Lemma incr_of_nat (n : nat) : incr (wrap (Z.of_nat n)) = wrap (Z.of_nat (S n)).
Proof. rewrite incr_wrap. f_equal. lia. Qed.

End GoIntFacts.

(** ** The scanning loop, field by field *)

Section ProcessorFacts.

Import LogAggregation Processor Spec.

Variable U : string -> option LogEntry.t.

Lemma countLevel_fields (level : string) (a : LogAggregation.t) :
  countLevel level a =
  LogAggregation.mk (TotalLines a) (ProcessedLines a)
    (stepCount (String.eqb level "ERROR") (ErrorCount a))
    (stepCount (String.eqb level "WARN") (WarnCount a))
    (stepCount (String.eqb level "INFO") (InfoCount a))
    (stepCount (String.eqb level "DEBUG") (DebugCount a))
    (TotalResponseMs a) (MaxResponseMs a) (UniqueUsers a) (UniqueEndpoints a)
    (StatusCodeCounts a).
Proof.
  unfold countLevel. destruct a; simpl.
  destruct (String.eqb level "ERROR") eqn:E1.
  { apply String.eqb_eq in E1; subst level; reflexivity. }
  destruct (String.eqb level "WARN") eqn:E2.
  { apply String.eqb_eq in E2; subst level; reflexivity. }
  destruct (String.eqb level "INFO") eqn:E3.
  { apply String.eqb_eq in E3; subst level; reflexivity. }
  destruct (String.eqb level "DEBUG") eqn:E4; reflexivity.
Qed.

Lemma gtb_max (x y : Z) : (if y >? x then y else x) = Z.max x y.
Proof. rewrite Z.gtb_ltb. destruct (Z.ltb_spec x y); lia. Qed.

Lemma processEntry_fields (e : LogEntry.t) (a : LogAggregation.t) :
  set_ProcessedLines (GoInt.incr (ProcessedLines (processEntry e a))) (processEntry e a)
  = applyOutcome (Decoded e) a.
Proof.
  unfold processEntry. rewrite countLevel_fields.
  unfold trackResponse, trackUser, trackEndpoint, trackStatus, applyOutcome.
  destruct a as [tl pl ec wc ic dc tr mx uu ue sc], e as [ts lv ep rt st uid msg]; simpl.
  rewrite <- gtb_max.
  destruct (rt >? mx), (String.eqb uid ""), (String.eqb ep ""), (st >? 0); reflexivity.
Qed.

Lemma ingest_fields (line : string) (a : LogAggregation.t) :
  ingest U line a = applyOutcome (classify U line) a.
Proof.
  unfold ingest, classify.
  destruct (String.length line =? 0)%nat.
  - destruct a; reflexivity.
  - destruct (U line) as [e|].
    + apply processEntry_fields.
    + destruct a; reflexivity.
Qed.

Lemma scanLoop_fst (lines : list string) (n : Z) (a : LogAggregation.t) :
  fst (scanLoop U lines (n, a)) = fold_left (fun k _ => GoInt.incr k) lines n.
Proof.
  unfold scanLoop. revert n a.
  induction lines as [|l lines IH]; intros n a; simpl; [reflexivity|].
  unfold scanStep at 2; simpl. apply IH.
Qed.

Lemma scanLoop_snd (lines : list string) (n : Z) (a : LogAggregation.t) :
  snd (scanLoop U lines (n, a))
  = fold_left (fun b l => applyOutcome (classify U l) b) lines a.
Proof.
  unfold scanLoop. revert n a.
  induction lines as [|l lines IH]; intros n a; simpl; [reflexivity|].
  unfold scanStep at 2; simpl. rewrite ingest_fields. apply IH.
Qed.

Lemma lineNum_final (lines : list string) (k : nat) :
  fold_left (fun n (_ : string) => GoInt.incr n) lines (GoInt.wrap (Z.of_nat k))
  = GoInt.wrap (Z.of_nat (k + length lines)).
Proof.
  revert k. induction lines as [|l lines IH]; intros k; simpl.
  - f_equal. lia.
  - rewrite incr_of_nat, IH. f_equal. lia.
Qed.

End ProcessorFacts.

(** ** The scanner *)

Section ScannerFacts.

Import Bufio.

Lemma scan_within_limit (maxSize : Z) (segs : list string) (final : option error) :
  existsb (too_long maxSize) segs = false ->
  scan maxSize segs final = (map dropCR segs, final).
Proof.
  induction segs as [|seg segs IH]; simpl; [reflexivity|].
  intros H. apply Bool.orb_false_iff in H as [H1 H2].
  rewrite H1, (IH H2). reflexivity.
Qed.

Lemma scan_beyond_limit (maxSize : Z) (segs : list string) (final : option error) :
  existsb (too_long maxSize) segs = true ->
  snd (scan maxSize segs final) = Some ErrTooLong.
Proof.
  induction segs as [|seg segs IH]; simpl; [discriminate|].
  destruct (too_long maxSize seg); simpl; [reflexivity|].
  intros H. specialize (IH H).
  destruct (scan maxSize segs final) as [toks e]; simpl in *. exact IH.
Qed.

Lemma existsb_Permutation {A : Type} (f : A -> bool) (l l' : list A) :
  Permutation l l' -> existsb f l = existsb f l'.
Proof.
  induction 1 as [|x l l' _ IH|x y l|l l' l'' _ IH1 _ IH2]; simpl.
  - reflexivity.
  - now rewrite IH.
  - destruct (f x), (f y); reflexivity.
  - now rewrite IH1.
Qed.

End ScannerFacts.

(** ** Order of the lines *)

Section OrderFacts.

Import LogAggregation Processor Spec.

Lemma fold_left_Permutation {A B : Type} (f : A -> B -> A) :
  (forall a x y, f (f a x) y = f (f a y) x) ->
  forall l l', Permutation l l' -> forall a, fold_left f l a = fold_left f l' a.
Proof.
  intros Hswap l l' HP.
  induction HP as [|x l l' _ IH|x y l|l l' l'' _ IH1 _ IH2]; intros a; simpl.
  - reflexivity.
  - apply IH.
  - now rewrite Hswap.
  - now rewrite IH1.
Qed.

Lemma stepCount_swap (b1 b2 : bool) (x : Z) :
  stepCount b1 (stepCount b2 x) = stepCount b2 (stepCount b1 x).
Proof. destruct b1, b2; reflexivity. Qed.

Lemma stepTotalMs_swap (o1 o2 : lineOutcome) (x : Z) :
  stepTotalMs o1 (stepTotalMs o2 x) = stepTotalMs o2 (stepTotalMs o1 x).
Proof. destruct o1, o2; simpl; try reflexivity. apply add_swap. Qed.

Lemma stepMax_swap (o1 o2 : lineOutcome) (x : Z) :
  stepMax o1 (stepMax o2 x) = stepMax o2 (stepMax o1 x).
Proof. destruct o1, o2; simpl; lia. Qed.

Lemma stepSet_swap (k1 k2 : option string) (s : gset string) :
  stepSet k1 (stepSet k2 s) = stepSet k2 (stepSet k1 s).
Proof.
  destruct k1 as [k1|], k2 as [k2|]; simpl; try reflexivity.
  destruct (String.eqb k1 ""), (String.eqb k2 ""); try reflexivity.
  rewrite !(assoc_L (∪)). f_equal. apply (comm_L (∪)).
Qed.

Lemma bump_swap (c1 c2 : Z) (m : gmap Z Z) :
  bump c1 (bump c2 m) = bump c2 (bump c1 m).
Proof.
  unfold bump. destruct (decide (c1 = c2)) as [->|Hne]; [reflexivity|].
  rewrite (lookup_insert_ne _ c2 c1) by congruence.
  rewrite (lookup_insert_ne _ c1 c2) by congruence.
  apply insert_insert_ne. congruence.
Qed.

Lemma stepCodes_swap (o1 o2 : lineOutcome) (m : gmap Z Z) :
  stepCodes o1 (stepCodes o2 m) = stepCodes o2 (stepCodes o1 m).
Proof.
  destruct o1 as [| |e1], o2 as [| |e2]; simpl; try reflexivity.
  destruct (LogEntry.StatusCode e1 >? 0), (LogEntry.StatusCode e2 >? 0);
    try reflexivity.
  apply bump_swap.
Qed.

Lemma applyOutcome_swap (o1 o2 : lineOutcome) (a : LogAggregation.t) :
  applyOutcome o1 (applyOutcome o2 a) = applyOutcome o2 (applyOutcome o1 a).
Proof.
  unfold applyOutcome; simpl.
  f_equal; auto using stepCount_swap, stepTotalMs_swap, stepMax_swap,
    stepSet_swap, stepCodes_swap.
Qed.

End OrderFacts.

(** ** What [Parse] returns *)

Section ParseFacts.

Import LogAggregation Processor Spec.

Variable U : string -> option LogEntry.t.

Lemma Parse_unfold (p : LogParser) (r : Bufio.Reader) :
  Parse U p r =
  let lines := fst (Bufio.Scan maxTokenSize r) in
  let a := fold_left (fun b l => applyOutcome (classify U l) b) lines (aggregation p) in
  match snd (Bufio.Scan maxTokenSize r) with
  | Some err => (mkLogParser a, inl (Errorf_w "error scanning file: " err))
  | None =>
      let a' := set_TotalLines (fold_left (fun k _ => GoInt.incr k) lines 0) a in
      (mkLogParser a', inr a')
  end.
Proof.
  unfold Parse. destruct (Bufio.Scan maxTokenSize r) as [lines e]; simpl.
  pose proof (scanLoop_fst U lines 0 (aggregation p)) as Hn.
  pose proof (scanLoop_snd U lines 0 (aggregation p)) as Ha.
  destruct (scanLoop U lines (0, aggregation p)) as [n a]; simpl in *.
  subst n a. reflexivity.
Qed.

(** A successful [Parse] hands back the parser's own aggregation. *)
Lemma Parse_success (p p' : LogParser) (r : Bufio.Reader) (agg : LogAggregation.t) :
  Parse U p r = (p', inr agg) ->
  aggregation p' = agg /\
  snd (Bufio.Scan maxTokenSize r) = None /\
  agg = set_TotalLines (fold_left (fun k _ => GoInt.incr k) (linesOf r) 0)
          (fold_left (fun b l => applyOutcome (classify U l) b) (linesOf r)
                     (aggregation p)).
Proof.
  rewrite Parse_unfold. unfold linesOf. simpl.
  destruct (snd (Bufio.Scan maxTokenSize r)); intros H; inversion H; subst.
  auto.
Qed.

Lemma fold_project {X : Type} (proj : LogAggregation.t -> X)
    (g : lineOutcome -> X -> X) :
  (forall o a, proj (applyOutcome o a) = g o (proj a)) ->
  forall lines a,
    proj (fold_left (fun b l => applyOutcome (classify U l) b) lines a)
    = fold_left (fun x l => g (classify U l) x) lines (proj a).
Proof.
  intros Hg lines. induction lines as [|l lines IH]; intros a; simpl; [reflexivity|].
  rewrite IH, Hg. reflexivity.
Qed.

Lemma stepCount_fold (P : string -> bool) (lines : list string) (k : nat) :
  fold_left (fun x l => stepCount (P l) x) lines (GoInt.wrap (Z.of_nat k))
  = GoInt.wrap (Z.of_nat (k + length (List.filter P lines))).
Proof.
  revert k. induction lines as [|l lines IH]; intros k; simpl.
  - f_equal. lia.
  - destruct (P l); simpl.
    + rewrite incr_of_nat, IH. f_equal. lia.
    + apply IH.
Qed.

Lemma decoded_length (lines : list string) :
  length (decoded U lines)
  = length (List.filter (fun l => isDecoded (classify U l)) lines).
Proof.
  unfold decoded. induction lines as [|l lines IH]; simpl; [reflexivity|].
  destruct (classify U l); simpl; auto.
Qed.

Lemma stepMax_fold (lines : list string) (x : Z) :
  fold_left (fun y l => stepMax (classify U l) y) lines x
  = fold_left Z.max (map LogEntry.ResponseTimeMs (decoded U lines)) x.
Proof.
  unfold decoded. revert x. induction lines as [|l lines IH]; intros x; simpl.
  - reflexivity.
  - destruct (classify U l); simpl; apply IH.
Qed.

End ParseFacts.

Lemma fold_max_ge (l : list Z) (x : Z) : x <= fold_left Z.max l x.
Proof.
  revert x. induction l as [|y l IH]; intros x; simpl; [lia|].
  specialize (IH (Z.max x y)). lia.
Qed.

Lemma fold_max_bound (l : list Z) (x : Z) :
  Forall (fun y => y <= fold_left Z.max l x) l.
Proof.
  revert x. induction l as [|y l IH]; intros x; simpl; constructor.
  - pose proof (fold_max_ge l (Z.max x y)). lia.
  - apply IH.
Qed.

Lemma fold_max_attained (l : list Z) (x : Z) :
  fold_left Z.max l x = x \/ In (fold_left Z.max l x) l.
Proof.
  revert x. induction l as [|y l IH]; intros x; simpl; [auto|].
  destruct (IH (Z.max x y)) as [H|H]; [|auto].
  rewrite H. destruct (Z.max_spec x y) as [[_ ->]|[_ ->]]; auto.
Qed.

(** ** float64 conversion never turns a non-zero integer into zero *)

Section FloatFacts.

Lemma digits_after_shr_1 (s : shr_record) :
  Zdigits2 (shr_m (shr_1 s)) = Z.max 0 (Zdigits2 (shr_m s) - 1).
Proof.
  destruct s as [m r b]. destruct m as [|q|q]; simpl.
  - reflexivity.
  - destruct q; simpl; lia.
  - destruct q; simpl; lia.
Qed.

Lemma digits_after_shr (n : positive) (s : shr_record) :
  Zdigits2 (shr_m (SpecFloat.iter_pos shr_1 n s)) = Z.max 0 (Zdigits2 (shr_m s) - Z.pos n).
Proof.
  revert s. induction n as [n IH|n IH|]; intros s; simpl.
  - rewrite !IH, digits_after_shr_1. lia.
  - rewrite !IH. lia.
  - apply digits_after_shr_1.
Qed.

Lemma shr_1_nonneg (s : shr_record) : 0 <= shr_m s -> 0 <= shr_m (shr_1 s).
Proof.
  destruct s as [m r b]. destruct m as [|q|q]; simpl; intros H; try lia.
  destruct q; simpl; lia.
Qed.

Lemma shr_nonneg (n : positive) (s : shr_record) :
  0 <= shr_m s -> 0 <= shr_m (SpecFloat.iter_pos shr_1 n s).
Proof.
  revert s. induction n as [n IH|n IH|]; intros s H; simpl.
  - apply IH, IH, shr_1_nonneg, H.
  - apply IH, IH, H.
  - apply shr_1_nonneg, H.
Qed.

Lemma digits_pos (m : Z) : 0 < m -> 0 < Zdigits2 m.
Proof. destruct m; simpl; lia. Qed.

Lemma shr_m_of_loc (m : Z) (l : location) : shr_m (shr_record_of_loc m l) = m.
Proof. destruct l as [|[]]; reflexivity. Qed.

Lemma shr_fexp_positive (m e : Z) (l : location) :
  0 < m -> emin Float64.prec Float64.emax < e ->
  0 < shr_m (fst (shr_fexp Float64.prec Float64.emax m e l))
  /\ e <= snd (shr_fexp Float64.prec Float64.emax m e l).
Proof.
  intros Hm He. unfold shr_fexp, shr, fexp.
  pose proof (digits_pos m Hm) as Hd.
  unfold emin, Float64.prec, Float64.emax in *.
  destruct (Z.max (Zdigits2 m + e - 53) (3 - 1024 - 53) - e) as [|n|n] eqn:Hn;
    simpl; rewrite ?shr_m_of_loc; try lia.
  split; [|lia].
  pose proof (digits_after_shr n (shr_record_of_loc m l)) as Hdig.
  pose proof (shr_nonneg n (shr_record_of_loc m l)) as Hnn.
  rewrite shr_m_of_loc in Hdig, Hnn. specialize (Hnn ltac:(lia)).
  destruct (Z.eq_dec (shr_m (SpecFloat.iter_pos shr_1 n (shr_record_of_loc m l))) 0) as [H0|H0];
    [|lia].
  rewrite H0 in Hdig. simpl in Hdig. lia.
Qed.

Lemma round_nearest_even_positive (m : Z) (l : location) :
  0 < m -> 0 < round_nearest_even m l.
Proof.
  intros Hm. destruct l as [|[]]; simpl; try lia.
  destruct (Z.even m); lia.
Qed.

Lemma binary_round_aux_not_zero (sx : bool) (m e : Z) (l : location) :
  0 < m -> emin Float64.prec Float64.emax < e ->
  Float64.is_zero (binary_round_aux Float64.prec Float64.emax sx m e l) = false.
Proof.
  intros Hm He. unfold binary_round_aux.
  pose proof (shr_fexp_positive m e l Hm He) as [H1 H2].
  destruct (shr_fexp Float64.prec Float64.emax m e l) as [mrs' e']; simpl in H1, H2.
  pose proof (round_nearest_even_positive _ (loc_of_shr_record mrs') H1) as H3.
  pose proof (shr_fexp_positive _ e' loc_Exact H3 ltac:(lia)) as [H4 _].
  destruct (shr_fexp Float64.prec Float64.emax
              (round_nearest_even (shr_m mrs') (loc_of_shr_record mrs')) e' loc_Exact)
    as [mrs'' e'']; simpl in H4.
  destruct (shr_m mrs''); try lia.
  destruct (e'' <=? Float64.emax - Float64.prec); reflexivity.
Qed.

Lemma binary_round_not_zero (sx : bool) (m : positive) :
  Float64.is_zero (binary_round Float64.prec Float64.emax sx m 0) = false.
Proof.
  unfold binary_round, shl_align, fexp.
  pose proof (Pos2Z.is_pos (digits2_pos m)) as Hd.
  unfold emin, Float64.prec, Float64.emax in *.
  destruct (Z.max (Z.pos (digits2_pos m) + 0 - 53) (3 - 1024 - 53) - 0) as [|n|n] eqn:Hn;
    apply binary_round_aux_not_zero; unfold emin, Float64.prec, Float64.emax; lia.
Qed.

Lemma of_int_not_zero (z : Z) : z <> 0 -> Float64.is_zero (Float64.of_int z) = false.
Proof.
  intros Hz. unfold Float64.of_int, binary_normalize.
  destruct z as [|m|m]; [congruence| |]; apply binary_round_not_zero.
Qed.

End FloatFacts.

(** ** The decoder on blank lines *)

Lemma skip_space_blank (line : string) :
  Spec.blank line = true -> Json.skip_space line = EmptyString.
Proof.
  unfold Spec.blank. induction line as [|c line IH]; simpl; [reflexivity|].
  intros H. apply andb_prop in H as [Hc Hrest].
  rewrite Hc. apply IH, Hrest.
Qed.

Lemma Unmarshal_blank (line : string) :
  Spec.blank line = true -> Json.Unmarshal line = None.
Proof.
  intros H. unfold Json.Unmarshal, Json.parse. simpl.
  rewrite (skip_space_blank line H). reflexivity.
Qed.

(** * The claims about the parser *)

Section ParserClaims.

Import LogAggregation Processor Spec.

(** C9. Two inputs whose line sequences are permutations of each other (and
    whose readers end the same way) make [Parse] return the same thing: the
    same aggregation, field for field, or the same error. *)
Theorem parse_line_order_irrelevant
    (U : string -> option LogEntry.t) (p : LogParser) (r r' : Bufio.Reader) :
  Permutation (Bufio.segments (Bufio.content r)) (Bufio.segments (Bufio.content r')) ->
  Bufio.read_err r = Bufio.read_err r' ->
  snd (Parse U p r) = snd (Parse U p r').
Proof.
  intros HP Herr. rewrite !Parse_unfold. unfold Bufio.Scan. rewrite <- Herr.
  pose proof (existsb_Permutation (Bufio.too_long maxTokenSize) _ _ HP) as Hex.
  destruct (existsb (Bufio.too_long maxTokenSize) (Bufio.segments (Bufio.content r)))
    eqn:Hlong.
  - symmetry in Hex.
    rewrite (scan_beyond_limit _ _ (Bufio.read_err r) Hlong).
    rewrite (scan_beyond_limit _ _ (Bufio.read_err r) Hex).
    reflexivity.
  - symmetry in Hex.
    rewrite (scan_within_limit _ _ (Bufio.read_err r) Hlong).
    rewrite (scan_within_limit _ _ (Bufio.read_err r) Hex).
    simpl.
    assert (HPm : Permutation (map Bufio.dropCR (Bufio.segments (Bufio.content r)))
                              (map Bufio.dropCR (Bufio.segments (Bufio.content r'))))
      by (apply Permutation_map; exact HP).
    rewrite (fold_left_Permutation (fun b l => applyOutcome (classify U l) b)
               (fun a x y => applyOutcome_swap (classify U y) (classify U x) a) _ _ HPm).
    rewrite (fold_left_Permutation (fun (k : Z) (_ : string) => GoInt.incr k)
               (fun a x y => eq_refl) _ _ HPm).
    destruct (Bufio.read_err r); reflexivity.
Qed.

Lemma parse_line_order_irrelevant_witness :
  snd (Parse Json.Unmarshal NewLogParser Sample.threeLines)
  = snd (Parse Json.Unmarshal NewLogParser Sample.threeLinesShuffled).
Proof.
  apply parse_line_order_irrelevant.
  - vm_compute. eapply perm_trans; [apply perm_skip, perm_swap | apply perm_swap].
  - reflexivity.
Defined.

(** C2, as the code has it.  After a successful [Parse] on a fresh parser,
    [TotalLines] is the number of all lines scanned, empty ones included
    (reduced to 64 bits); [ProcessedLines] is the number of lines that are
    not empty and decode; [WarnCount] is the number of lines that are not
    empty and fail to decode plus the number of entries of level WARN; an
    empty line changes nothing in the aggregation, whereas a line that is
    blank but not empty is refused by [Json.Unmarshal] and counted as a
    warning; and as long as the line count fits 64 bits,
    [ProcessedLines <= TotalLines]. *)
Theorem parse_line_counts
    (U : string -> option LogEntry.t) (r : Bufio.Reader)
    (p : LogParser) (agg : LogAggregation.t) :
  Parse U NewLogParser r = (p, inr agg) ->
  TotalLines agg = GoInt.wrap (Z.of_nat (length (linesOf r)))
  /\ ProcessedLines agg = GoInt.wrap (Z.of_nat (length (decoded U (linesOf r))))
  /\ WarnCount agg = GoInt.wrap (Z.of_nat (length (warned U (linesOf r))))
  /\ (forall a, ingest U "" a = a)
  /\ (forall line a,
        line <> "" -> blank line = true ->
        ingest Json.Unmarshal line a
        = set_WarnCount (GoInt.incr (WarnCount a)) a)
  /\ (Z.of_nat (length (linesOf r)) < 2^63 ->
      TotalLines agg = Z.of_nat (length (linesOf r))
      /\ ProcessedLines agg <= TotalLines agg).
Proof.
  intros H. apply Parse_success in H as (_ & _ & ->).
  set (lines := linesOf r).
  assert (HT : TotalLines (set_TotalLines
                 (fold_left (fun k (_ : string) => GoInt.incr k) lines 0)
                 (fold_left (fun b l => applyOutcome (classify U l) b) lines
                    (aggregation NewLogParser)))
               = GoInt.wrap (Z.of_nat (length lines))).
  { simpl. apply (lineNum_final lines 0). }
  assert (HP : ProcessedLines (set_TotalLines
                 (fold_left (fun k (_ : string) => GoInt.incr k) lines 0)
                 (fold_left (fun b l => applyOutcome (classify U l) b) lines
                    (aggregation NewLogParser)))
               = GoInt.wrap (Z.of_nat (length (decoded U lines)))).
  { simpl.
    rewrite (fold_project U ProcessedLines (fun o => stepCount (isDecoded o)))
      by reflexivity.
    rewrite decoded_length.
    apply (stepCount_fold (fun l => isDecoded (classify U l)) lines 0). }
  split; [exact HT|]. split; [exact HP|]. split; [|split; [|split]].
  - simpl.
    rewrite (fold_project U WarnCount
               (fun o => stepCount (isMalformed o || hasLevel "WARN" o)))
      by reflexivity.
    apply (stepCount_fold
             (fun l => isMalformed (classify U l) || hasLevel "WARN" (classify U l))
             lines 0).
  - intros a. reflexivity.
  - intros line a Hne Hblank. unfold ingest.
    rewrite (Unmarshal_blank line Hblank).
    destruct line; [congruence|reflexivity].
  - intros Hlen. rewrite HT, HP.
    assert (Hd : (length (decoded U lines) <= length lines)%nat).
    { rewrite decoded_length. apply List.filter_length_le. }
    rewrite !wrap_small by (unfold GoInt.in_range; lia).
    lia.
Qed.

Lemma parse_line_counts_witness :
  TotalLines (LogAggregation.mk 3 2 1 1 1 0 510 500 ∅ ∅ ∅) = 3
  /\ ProcessedLines (LogAggregation.mk 3 2 1 1 1 0 510 500 ∅ ∅ ∅)
     <= TotalLines (LogAggregation.mk 3 2 1 1 1 0 510 500 ∅ ∅ ∅).
Proof.
  apply (parse_line_counts Json.Unmarshal Sample.threeLines
           (mkLogParser (LogAggregation.mk 3 2 1 1 1 0 510 500 ∅ ∅ ∅))).
  - vm_compute. reflexivity.
  - vm_compute. reflexivity.
Defined.

(** C2, as the claim words it, fails: a file made of one empty line has no
    line that is not blank, yet [TotalLines] is 1; and a line holding a
    single space is a decode failure, counted in [WarnCount]. *)
Lemma blank_lines_are_counted :
  (exists agg,
      snd (Parse Json.Unmarshal NewLogParser Sample.oneEmptyLine) = inr agg
      /\ length (nonBlank (linesOf Sample.oneEmptyLine)) = 0%nat
      /\ TotalLines agg = 1)
  /\ (exists agg,
      snd (Parse Json.Unmarshal NewLogParser Sample.oneSpaceLine) = inr agg
      /\ length (nonBlank (linesOf Sample.oneSpaceLine)) = 0%nat
      /\ TotalLines agg = 1 /\ WarnCount agg = 1).
Proof.
  split; eexists; (split; [vm_compute; reflexivity|]); vm_compute; auto.
Qed.

(** C6. Ingesting a line never lowers [MaxResponseMs]; a new aggregation
    starts at 0; and when no decoded entry has a negative response time, the
    value after a successful [Parse] is the largest response time among the
    decoded entries: an upper bound of all of them that one of them attains,
    or 0 when there is none. *)
Theorem max_response_is_running_maximum
    (U : string -> option LogEntry.t) (r : Bufio.Reader)
    (p : LogParser) (agg : LogAggregation.t) :
  Parse U NewLogParser r = (p, inr agg) ->
  Forall (fun e => 0 <= LogEntry.ResponseTimeMs e) (decoded U (linesOf r)) ->
  (forall line a, MaxResponseMs a <= MaxResponseMs (ingest U line a))
  /\ MaxResponseMs NewLogAggregation = 0
  /\ Forall (fun e => LogEntry.ResponseTimeMs e <= MaxResponseMs agg)
            (decoded U (linesOf r))
  /\ (decoded U (linesOf r) = [] -> MaxResponseMs agg = 0)
  /\ (decoded U (linesOf r) <> [] ->
      exists e, In e (decoded U (linesOf r))
                /\ LogEntry.ResponseTimeMs e = MaxResponseMs agg).
Proof.
  intros H Hpos. apply Parse_success in H as (_ & _ & ->).
  set (lines := linesOf r) in *.
  assert (HM : MaxResponseMs (set_TotalLines
                 (fold_left (fun k (_ : string) => GoInt.incr k) lines 0)
                 (fold_left (fun b l => applyOutcome (classify U l) b) lines
                    (aggregation NewLogParser)))
               = fold_left Z.max (map LogEntry.ResponseTimeMs (decoded U lines)) 0).
  { simpl. rewrite (fold_project U MaxResponseMs stepMax) by reflexivity.
    apply stepMax_fold. }
  rewrite HM. clear HM.
  split; [|split; [reflexivity|split; [|split]]].
  - intros line a. rewrite ingest_fields.
    destruct (classify U line); simpl; lia.
  - pose proof (fold_max_bound (map LogEntry.ResponseTimeMs (decoded U lines)) 0) as Hb.
    rewrite Forall_map in Hb. exact Hb.
  - intros ->. reflexivity.
  - intros Hne.
    destruct (fold_max_attained (map LogEntry.ResponseTimeMs (decoded U lines)) 0)
      as [H0|Hin].
    + destruct (decoded U lines) as [|e es] eqn:Hd; [congruence|].
      exists e. split; [left; reflexivity|].
      pose proof (fold_max_bound (map LogEntry.ResponseTimeMs (e :: es)) 0) as Hb.
      rewrite H0 in Hb. inversion Hb; subst. inversion Hpos; subst. lia.
    + apply in_map_iff in Hin as (e & He & Hin). eauto.
Qed.

Lemma max_response_is_running_maximum_witness :
  exists e, In e (decoded Json.Unmarshal (linesOf Sample.threeLines))
            /\ LogEntry.ResponseTimeMs e = 500.
Proof.
  refine (proj2 (proj2 (proj2 (proj2
    (max_response_is_running_maximum Json.Unmarshal Sample.threeLines
       (mkLogParser (LogAggregation.mk 3 2 1 1 1 0 510 500 ∅ ∅ ∅))
       (LogAggregation.mk 3 2 1 1 1 0 510 500 ∅ ∅ ∅) _ _)))) _).
  - vm_compute. reflexivity.
  - vm_compute. repeat constructor; discriminate.
  - vm_compute. discriminate.
Defined.

(** C5. After a successful [Parse], [GetAverageResponseTime] is 0 when no
    line was processed; otherwise it is the float64 quotient of
    [TotalResponseMs] by [ProcessedLines], and the divisor of that quotient
    is not zero. *)
Theorem average_response_time_guarded
    (U : string -> option LogEntry.t) (p0 p : LogParser) (r : Bufio.Reader)
    (agg : LogAggregation.t) :
  Parse U p0 r = (p, inr agg) ->
  (ProcessedLines agg = 0 -> GetAverageResponseTime p = Float64.zero)
  /\ (ProcessedLines agg <> 0 ->
      GetAverageResponseTime p
      = Float64.div (Float64.of_int (TotalResponseMs agg))
                    (Float64.of_int (ProcessedLines agg))
      /\ Float64.is_zero (Float64.of_int (ProcessedLines agg)) = false).
Proof.
  intros H. apply Parse_success in H as (Hp & _ & _).
  unfold GetAverageResponseTime. rewrite Hp. split.
  - intros ->. reflexivity.
  - intros Hne. split.
    + destruct (Z.eqb_spec (ProcessedLines agg) 0); [contradiction|reflexivity].
    + apply of_int_not_zero, Hne.
Qed.

Lemma average_response_time_guarded_witness :
  GetAverageResponseTime (mkLogParser (LogAggregation.mk 3 2 1 1 1 0 510 500 ∅ ∅ ∅))
  = Float64.div (Float64.of_int 510) (Float64.of_int 2)
  /\ Float64.is_zero (Float64.of_int 2) = false.
Proof.
  apply (average_response_time_guarded Json.Unmarshal NewLogParser
           (mkLogParser (LogAggregation.mk 3 2 1 1 1 0 510 500 ∅ ∅ ∅))
           Sample.threeLines (LogAggregation.mk 3 2 1 1 1 0 510 500 ∅ ∅ ∅)).
  - vm_compute. reflexivity.
  - vm_compute. discriminate.
Defined.

End ParserClaims.

(** * The worker *)

Arguments Processor.Parse : simpl never.
Arguments Processor.GetAverageResponseTime : simpl never.
Arguments Float64.of_int : simpl never.
Arguments Runtime.expiry : simpl never.
Arguments Errorf_w : simpl never.
Arguments Worker.failedResult : simpl never.
Arguments Worker.completedResult : simpl never.

Section WorkerFacts.

Import Runtime Worker Spec.

Variable env : Worker.Env.

Lemma saveFailedResult_spec (job : ProcessingJob.t) (t0 : Time) (cause : error)
    (w : World) :
  let r := failedResult job t0 (Z.quot (clock w (reads w) - t0) 1000000)
             (clock w (S (reads w))) (clock w (S (S (reads w)))) cause in
  let out := saveFailedResult env job t0 cause w in
  fst out = Some cause
  /\ putRequests (snd out) = putRequests w ++ [r]
  /\ table (snd out)
     = match putFault env (length (putRequests w)) r with
       | None => <[ ProcessingResult.JobID r := r ]> (table w)
       | Some _ => table w
       end
  /\ stdout (snd out)
     = match putFault env (length (putRequests w)) r with
       | None => stdout w
       | Some pe => stdout w ++ [mkPrinted "Failed to save error result: %v\n" [AErr pe]]
       end.
Proof.
  intros r out. subst out.
  unfold saveFailedResult, saveResult, SinceMilliseconds, EmitBatch, PutItem,
    Printf, Now, bind, ret; simpl.
  fold r.
  destruct (putFault env (length (putRequests w)) r);
    destruct (metricsCollector env); simpl; auto.
Qed.

Lemma processMessage_undecodable (record : SQSMessage) (e : error) (w : World) :
  unmarshalJob env (Body record) = inl e ->
  processMessage env record w
  = (Some (Errorf_w "failed to unmarshal job: " e), snd (Now w)).
Proof.
  intros H. unfold processMessage, bind, ret; simpl. rewrite H. reflexivity.
Qed.

Lemma processMessage_fetch_failed (record : SQSMessage) (job : ProcessingJob.t)
    (e : error) (w : World) :
  unmarshalJob env (Body record) = inr job ->
  GetObject env (ProcessingJob.Bucket job) (ProcessingJob.Key job) = inl e ->
  processMessage env record w
  = saveFailedResult env job (clock w (reads w))
      (Errorf_w "failed to get S3 object: " e) (announced job w).
Proof.
  intros Hjob Hget. unfold processMessage, bind, announced; simpl.
  rewrite Hjob; simpl. rewrite Hget. reflexivity.
Qed.

Lemma processMessage_parse_failed (record : SQSMessage) (job : ProcessingJob.t)
    (body : Bufio.Reader) (e : error) (w : World) :
  unmarshalJob env (Body record) = inr job ->
  GetObject env (ProcessingJob.Bucket job) (ProcessingJob.Key job) = inr body ->
  snd (Processor.Parse (unmarshalEntry env) Processor.NewLogParser body) = inl e ->
  processMessage env record w
  = saveFailedResult env job (clock w (reads w))
      (Errorf_w "failed to parse logs: " e) (announced job w).
Proof.
  intros Hjob Hget Hparse. unfold processMessage, bind, announced; simpl.
  rewrite Hjob; simpl. rewrite Hget.
  destruct (Processor.Parse (unmarshalEntry env) Processor.NewLogParser body)
    as [p res]; simpl in Hparse. subst res. reflexivity.
Qed.

Lemma processMessage_completed (record : SQSMessage) (job : ProcessingJob.t)
    (body : Bufio.Reader) (p : Processor.LogParser) (agg : LogAggregation.t)
    (w : World) :
  unmarshalJob env (Body record) = inr job ->
  GetObject env (ProcessingJob.Bucket job) (ProcessingJob.Key job) = inr body ->
  Processor.Parse (unmarshalEntry env) Processor.NewLogParser body = (p, inr agg) ->
  let r := completedResult job p agg (reading w 0) (elapsedMs w) (reading w 2)
             (reading w 3) in
  let out := processMessage env record w in
  putRequests (snd out) = putRequests w ++ [r]
  /\ fst out
     = match putFault env (length (putRequests w)) r with
       | None => None
       | Some pe => Some (Errorf_w "failed to save result: " pe)
       end
  /\ table (snd out)
     = match putFault env (length (putRequests w)) r with
       | None => <[ ProcessingResult.JobID r := r ]> (table w)
       | Some _ => table w
       end.
Proof.
  intros Hjob Hget Hparse r out. subst out.
  unfold processMessage, bind; simpl.
  rewrite Hjob; simpl. rewrite Hget, Hparse.
  unfold saveResult, SinceMilliseconds, EmitBatch, PutItem, Printf, Now, bind, ret;
    simpl.
  change (completedResult job p agg _ _ _ _) with r.
  destruct (putFault env (length (putRequests w)) r);
    destruct (metricsCollector env); simpl; auto.
Qed.

End WorkerFacts.

Section WorkerClaims.

Import Runtime Worker Spec.

(** C8. When the fetch of the job's object fails, or the parse of its body
    fails, [processMessage] issues one write of a result with status
    [failed] that carries the text of the error, and returns that very
    error.  When the store accepts the write the table holds the result
    under the job id; when the store refuses it the table is unchanged, the
    refusal is printed, and the error returned is still the original one. *)
Theorem job_failure_recorded_then_propagated
    (env : Worker.Env) (record : SQSMessage) (job : ProcessingJob.t)
    (cause : error) (w : World) :
  unmarshalJob env (Body record) = inr job ->
  ((exists e,
       GetObject env (ProcessingJob.Bucket job) (ProcessingJob.Key job) = inl e
       /\ cause = Errorf_w "failed to get S3 object: " e)
   \/ (exists body e,
       GetObject env (ProcessingJob.Bucket job) (ProcessingJob.Key job) = inr body
       /\ snd (Processor.Parse (unmarshalEntry env) Processor.NewLogParser body) = inl e
       /\ cause = Errorf_w "failed to parse logs: " e)) ->
  exists failed,
    fst (processMessage env record w) = Some cause
    /\ putRequests (snd (processMessage env record w)) = putRequests w ++ [failed]
    /\ ProcessingResult.Status failed = "failed"
    /\ ProcessingResult.JobID failed = ProcessingJob.JobID job
    /\ ProcessingResult.ErrorMessage failed = Error cause
    /\ match putFault env (length (putRequests w)) failed with
       | None =>
           table (snd (processMessage env record w))
           = <[ ProcessingJob.JobID job := failed ]> (table w)
       | Some refusal =>
           table (snd (processMessage env record w)) = table w
           /\ last (stdout (snd (processMessage env record w)))
              = Some (mkPrinted "Failed to save error result: %v\n" [AErr refusal])
       end.
Proof.
  intros Hjob Hfail.
  assert (Hrun : processMessage env record w
                 = saveFailedResult env job (clock w (reads w)) cause (announced job w)).
  { destruct Hfail as [(e & Hget & ->)|(body & e & Hget & Hparse & ->)].
    - apply processMessage_fetch_failed; assumption.
    - eapply processMessage_parse_failed; eassumption. }
  rewrite Hrun.
  destruct (saveFailedResult_spec env job (clock w (reads w)) cause (announced job w))
    as (Hret & Hput & Htable & Hout).
  eexists. split; [exact Hret|]. split; [exact Hput|].
  split; [reflexivity|]. split; [reflexivity|]. split; [reflexivity|].
  rewrite Htable, Hout. simpl.
  destruct (putFault env (length (putRequests w)) _); [|reflexivity].
  split; [reflexivity|]. apply last_snoc.
Qed.

Lemma job_failure_recorded_then_propagated_witness :
  exists failed,
    fst (processMessage Deployment.workerEnv (mkSQSMessage "job-44") Deployment.initial)
    = Some (Errorf_w "failed to parse logs: "
              (Errorf_w "error scanning file: " (errorString "unexpected EOF")))
    /\ putRequests
         (snd (processMessage Deployment.workerEnv (mkSQSMessage "job-44")
                 Deployment.initial))
       = putRequests Deployment.initial ++ [failed]
    /\ ProcessingResult.Status failed = "failed"
    /\ ProcessingResult.JobID failed = "44"
    /\ ProcessingResult.ErrorMessage failed
       = "failed to parse logs: error scanning file: unexpected EOF"
    /\ table (snd (processMessage Deployment.workerEnv (mkSQSMessage "job-44")
                     Deployment.initial))
       = <[ "44" := failed ]> (table Deployment.initial).
Proof.
  apply (job_failure_recorded_then_propagated Deployment.workerEnv
           (mkSQSMessage "job-44") Deployment.job44
           (Errorf_w "failed to parse logs: "
              (Errorf_w "error scanning file: " (errorString "unexpected EOF")))
           Deployment.initial).
  - reflexivity.
  - right. exists Sample.brokenBody, (Errorf_w "error scanning file: "
                                       (errorString "unexpected EOF")).
    split; [reflexivity|]. split; [vm_compute; reflexivity|reflexivity].
Defined.

(** C4. Two attempts at the same job over the same object, started in any
    two states of the clock, the table and the logs, each issue one write;
    the two results agree on every statistic, and on the job id, the
    status, the file size and the error text.  An accepted write leaves its
    result in the table under the job id. *)
Theorem redelivery_same_statistics
    (env : Worker.Env) (record : SQSMessage) (job : ProcessingJob.t) (w1 w2 : World) :
  unmarshalJob env (Body record) = inr job ->
  exists r1 r2,
    putRequests (snd (processMessage env record w1)) = putRequests w1 ++ [r1]
    /\ putRequests (snd (processMessage env record w2)) = putRequests w2 ++ [r2]
    /\ statistics r1 = statistics r2
    /\ stableContent r1 = stableContent r2
    /\ (putFault env (length (putRequests w2)) r2 = None ->
        table (snd (processMessage env record w2)) !! ProcessingJob.JobID job = Some r2).
Proof.
  intros Hjob.
  destruct (GetObject env (ProcessingJob.Bucket job) (ProcessingJob.Key job))
    as [e|body] eqn:Hget.
  - rewrite !(processMessage_fetch_failed env record job e) by assumption.
    destruct (saveFailedResult_spec env job (clock w1 (reads w1))
                (Errorf_w "failed to get S3 object: " e) (announced job w1))
      as (_ & Hput1 & _).
    destruct (saveFailedResult_spec env job (clock w2 (reads w2))
                (Errorf_w "failed to get S3 object: " e) (announced job w2))
      as (_ & Hput2 & Htable2 & _).
    eexists; eexists. split; [exact Hput1|]. split; [exact Hput2|].
    split; [reflexivity|]. split; [reflexivity|].
    intros Hok. rewrite Htable2. simpl in *. rewrite Hok. apply lookup_insert_eq.
  - destruct (Processor.Parse (unmarshalEntry env) Processor.NewLogParser body)
      as [p [e|agg]] eqn:Hparse.
    + assert (Hsnd : snd (Processor.Parse (unmarshalEntry env)
                            Processor.NewLogParser body) = inl e)
        by (rewrite Hparse; reflexivity).
      rewrite !(processMessage_parse_failed env record job body e) by assumption.
      destruct (saveFailedResult_spec env job (clock w1 (reads w1))
                  (Errorf_w "failed to parse logs: " e) (announced job w1))
        as (_ & Hput1 & _).
      destruct (saveFailedResult_spec env job (clock w2 (reads w2))
                  (Errorf_w "failed to parse logs: " e) (announced job w2))
        as (_ & Hput2 & Htable2 & _).
      eexists; eexists. split; [exact Hput1|]. split; [exact Hput2|].
      split; [reflexivity|]. split; [reflexivity|].
      intros Hok. rewrite Htable2. simpl in *. rewrite Hok. apply lookup_insert_eq.
    + destruct (processMessage_completed env record job body p agg w1 Hjob Hget Hparse)
        as (Hput1 & _).
      destruct (processMessage_completed env record job body p agg w2 Hjob Hget Hparse)
        as (Hput2 & _ & Htable2).
      eexists; eexists. split; [exact Hput1|]. split; [exact Hput2|].
      split; [reflexivity|]. split; [reflexivity|].
      intros Hok. rewrite Htable2, Hok. apply lookup_insert_eq.
Qed.

Lemma redelivery_same_statistics_witness :
  exists r1 r2,
    putRequests (snd (processMessage Deployment.workerEnv (mkSQSMessage "job-42")
                        Deployment.initial))
    = putRequests Deployment.initial ++ [r1]
    /\ putRequests (snd (processMessage Deployment.workerEnv (mkSQSMessage "job-42")
                           Deployment.later))
       = putRequests Deployment.later ++ [r2]
    /\ statistics r1 = statistics r2
    /\ stableContent r1 = stableContent r2
    /\ (Worker.putFault Deployment.workerEnv (length (putRequests Deployment.later)) r2
        = None ->
        table (snd (processMessage Deployment.workerEnv (mkSQSMessage "job-42")
                      Deployment.later)) !! "42" = Some r2).
Proof.
  apply (redelivery_same_statistics Deployment.workerEnv (mkSQSMessage "job-42")
           Deployment.job42 Deployment.initial Deployment.later).
  reflexivity.
Defined.

(** C1, as the code has it.  Whatever the job, the clock and the store,
    a worker that decodes log lines with [Json.Unmarshal] and fetches the
    three-line sample file writes a result with status [completed], 3
    lines, 1 error, 1 info, average 255.0, maximum 500 and a warning count
    of 1: the malformed line is tallied in [WarnCount]. *)
Theorem three_line_file_result
    (decode : string -> error + ProcessingJob.t)
    (fetch : string -> string -> error + Bufio.Reader)
    (fault : nat -> ProcessingResult.t -> option error) (collector : bool)
    (record : SQSMessage) (job : ProcessingJob.t) (w : World) :
  decode (Body record) = inr job ->
  fetch (ProcessingJob.Bucket job) (ProcessingJob.Key job) = inr Sample.threeLines ->
  exists r,
    putRequests (snd (processMessage (Worker.mkEnv decode Json.Unmarshal fetch fault collector)
                        record w))
    = putRequests w ++ [r]
    /\ ProcessingResult.JobID r = ProcessingJob.JobID job
    /\ ProcessingResult.Status r = "completed"
    /\ ProcessingResult.LineCount r = 3
    /\ ProcessingResult.ErrorCount r = 1
    /\ ProcessingResult.InfoCount r = 1
    /\ ProcessingResult.WarnCount r = 1
    /\ ProcessingResult.AvgResponseTimeMs r = Float64.of_int 255
    /\ ProcessingResult.MaxResponseTimeMs r = 500
    /\ (fault (length (putRequests w)) r = None ->
        fst (processMessage (Worker.mkEnv decode Json.Unmarshal fetch fault collector)
               record w) = None).
Proof.
  intros Hjob Hget.
  set (env := Worker.mkEnv decode Json.Unmarshal fetch fault collector).
  set (agg := LogAggregation.mk 3 2 1 1 1 0 510 500 ∅ ∅ ∅).
  assert (Hparse : Processor.Parse (unmarshalEntry env) Processor.NewLogParser
                     Sample.threeLines = (Processor.mkLogParser agg, inr agg))
    by (vm_compute; reflexivity).
  destruct (processMessage_completed env record job Sample.threeLines
              (Processor.mkLogParser agg) agg w Hjob Hget Hparse)
    as (Hput & Hret & _).
  eexists. split; [exact Hput|].
  do 6 (split; [reflexivity|]).
  split; [vm_compute; reflexivity|]. split; [reflexivity|].
  intros Hok. rewrite Hret. simpl in Hok |- *. rewrite Hok. reflexivity.
Qed.

Lemma three_line_file_result_witness :
  exists r,
    putRequests (snd (processMessage Deployment.workerEnv (mkSQSMessage "job-42")
                        Deployment.initial))
    = putRequests Deployment.initial ++ [r]
    /\ ProcessingResult.JobID r = "42"
    /\ ProcessingResult.Status r = "completed"
    /\ ProcessingResult.LineCount r = 3
    /\ ProcessingResult.ErrorCount r = 1
    /\ ProcessingResult.InfoCount r = 1
    /\ ProcessingResult.WarnCount r = 1
    /\ ProcessingResult.AvgResponseTimeMs r = Float64.of_int 255
    /\ ProcessingResult.MaxResponseTimeMs r = 500
    /\ (Worker.putFault Deployment.workerEnv (length (putRequests Deployment.initial)) r
        = None ->
        fst (processMessage Deployment.workerEnv (mkSQSMessage "job-42")
               Deployment.initial) = None).
Proof.
  apply (three_line_file_result Deployment.decodeJob Deployment.objects
           (Worker.putFault Deployment.workerEnv) true (mkSQSMessage "job-42")
           Deployment.job42 Deployment.initial); reflexivity.
Defined.

(** C1, as the claim words it, fails on the warning count: in the sample
    deployment the one result written for the three-line file has every
    claimed value except that its [WarnCount] is 1 and not 0. *)
Lemma three_line_file_warn_count_not_zero :
  exists r,
    putRequests (snd (processMessage Deployment.workerEnv (mkSQSMessage "job-42")
                        Deployment.initial)) = [r]
    /\ ProcessingResult.Status r = "completed"
    /\ ProcessingResult.LineCount r = 3
    /\ ProcessingResult.ErrorCount r = 1
    /\ ProcessingResult.InfoCount r = 1
    /\ ProcessingResult.AvgResponseTimeMs r = Float64.of_int 255
    /\ ProcessingResult.MaxResponseTimeMs r = 500
    /\ ProcessingResult.WarnCount r <> 0.
Proof.
  eexists. split; [vm_compute; reflexivity|].
  vm_compute. repeat split; discriminate.
Qed.

(** C10. When the messages before [m] are processed without error and [m]
    fails with [e], the handler returns [e], and the state it leaves is the
    one [m] left plus the line that reports the error: whatever follows [m]
    in the batch is not touched. *)
Theorem batch_stops_at_first_failure
    (env : Worker.Env) (before after : list SQSMessage) (m : SQSMessage)
    (e : error) (w : World) :
  fst (handler env before w) = None ->
  fst (processMessage env m (snd (handler env before w))) = Some e ->
  handler env (before ++ m :: after) w
  = (Some e,
     snd (Printf "Error processing message: %v\n" [AErr e]
            (snd (processMessage env m (snd (handler env before w)))))).
Proof.
  revert w. induction before as [|x before IH]; intros w Hbefore Hm; simpl in *.
  - unfold bind, ret in *.
    destruct (processMessage env m w) as [res w']; simpl in *. subst res.
    reflexivity.
  - unfold bind in *.
    destruct (processMessage env x w) as [[ex|] w'] eqn:Hx; simpl in *.
    + discriminate.
    + apply IH; assumption.
Qed.

Lemma batch_stops_at_first_failure_witness :
  handler Deployment.workerEnv
    ([mkSQSMessage "job-42"] ++ mkSQSMessage "job-43" :: [mkSQSMessage "job-42"])
    Deployment.initial
  = (Some (Errorf_w "failed to get S3 object: "
             (errorString "NoSuchKey: The specified key does not exist.")),
     snd (Printf "Error processing message: %v\n"
            [AErr (Errorf_w "failed to get S3 object: "
                     (errorString "NoSuchKey: The specified key does not exist."))]
            (snd (processMessage Deployment.workerEnv (mkSQSMessage "job-43")
                    (snd (handler Deployment.workerEnv [mkSQSMessage "job-42"]
                            Deployment.initial)))))).
Proof.
  apply batch_stops_at_first_failure; vm_compute; reflexivity.
Defined.

End WorkerClaims.

(** * The trigger *)

Section TriggerFacts.

Import Runtime Trigger Spec.

Lemma split_from_head (sep : ascii) (s : string) (cur : list ascii) :
  exists p q rest,
    Strings.split_from sep cur s = String.string_of_list_ascii (rev cur ++ p) :: rest
    /\ String.list_ascii_of_string s = p ++ q.
Proof.
  revert cur. induction s as [|c s IH]; intros cur; simpl.
  - exists [], [], []. rewrite app_nil_r. auto.
  - destruct (Ascii.eqb c sep).
    + exists [], (c :: String.list_ascii_of_string s), (Strings.split_from sep [] s).
      rewrite app_nil_r. auto.
    + destruct (IH (c :: cur)) as (p & q & rest & Hsplit & Hs).
      exists (c :: p), q, rest. simpl in Hsplit.
      rewrite <- app_assoc in Hsplit. simpl in Hsplit.
      split; [exact Hsplit|]. simpl. now rewrite Hs.
Qed.

(** A key outside the reserved prefix [logs/] yields no job id. *)
Lemma extractJobID_needs_prefix (key : string) :
  String.prefix "logs/" key = false -> extractJobID key = None.
Proof.
  intros Hprefix. unfold extractJobID, Strings.Split.
  destruct (split_from_head "_"%char key []) as (p & q & rest & Hsplit & Hkey).
  rewrite Hsplit. simpl.
  destruct rest as [|p1 [|p2 rest]]; try reflexivity.
  destruct (String.eqb (String.string_of_list_ascii p) "logs/test") eqn:Hp0;
    [|reflexivity].
  apply String.eqb_eq in Hp0.
  assert (Hp : p = String.list_ascii_of_string "logs/test").
  { rewrite <- Hp0. symmetry. apply String.list_ascii_of_string_of_list_ascii. }
  rewrite <- (String.string_of_list_ascii_of_string key), Hkey, Hp in Hprefix.
  simpl in Hprefix. discriminate.
Qed.

Variable env : Trigger.Env.

Lemma processRecord_skipped (record : S3EventRecord) (w : World) :
  Strings.HasSuffix (Strings.ToLower (ObjectKey record)) ".json" = false ->
  processRecord env record w
  = (Returned None,
     snd (Printf "Skipping non-JSON file: %s\n" [AStr (ObjectKey record)] (snd (Now w)))).
Proof.
  intros H. unfold processRecord, bind, ret; simpl. rewrite H. reflexivity.
Qed.

Lemma processRecord_rejected (record : S3EventRecord) (w : World) :
  Strings.HasSuffix (Strings.ToLower (ObjectKey record)) ".json" = true ->
  extractJobID (ObjectKey record) = None ->
  exists err, processRecord env record w = (Returned (Some err), snd (Now w)).
Proof.
  intros Hsuffix Hid. unfold processRecord, bind, ret; simpl.
  rewrite Hsuffix; simpl.
  destruct (HeadObject env (BucketName record) (ObjectKey record)) as [e|head].
  - eexists; reflexivity.
  - rewrite Hid. eexists; reflexivity.
Qed.

Lemma processRecord_queued (record : S3EventRecord) (w : World)
    (head : HeadObjectOutput) (jobID : string) (size : Z) (body : string) :
  Strings.HasSuffix (Strings.ToLower (ObjectKey record)) ".json" = true ->
  HeadObject env (BucketName record) (ObjectKey record) = inr head ->
  extractJobID (ObjectKey record) = Some jobID ->
  ContentLength head = Some size ->
  marshalJob env
    (ProcessingJob.mk jobID (BucketName record) (ObjectKey record) size
       (ToString (ContentType head)) (EventTime record) (reading w 1)) = inr body ->
  let msg := mkQueueMessage body jobID in
  let out := processRecord env record w in
  sendRequests (snd out) = sendRequests w ++ [msg]
  /\ queue (snd out)
     = match sendFault env (length (sendRequests w)) msg with
       | None => queue w ++ [msg]
       | Some _ => queue w
       end
  /\ fst out
     = match sendFault env (length (sendRequests w)) msg with
       | None => Returned None
       | Some e => Returned (Some (Errorf_w "failed to send SQS message: " e))
       end.
Proof.
  intros Hsuffix Hhead Hid Hsize Hbody msg out. subst out.
  unfold processRecord, bind, ret; simpl.
  rewrite Hsuffix; simpl. rewrite Hhead, Hid. simpl. rewrite Hsize. simpl.
  unfold reading in Hbody; simpl in Hbody. rewrite Hbody.
  unfold SendMessage, SinceMilliseconds, EmitBatch, Printf, Now, bind, ret; simpl.
  fold msg.
  destruct (sendFault env (length (sendRequests w)) msg);
    destruct (metricsCollector env); simpl; auto.
Qed.

End TriggerFacts.

Section TriggerClaims.

Import Runtime Trigger Spec.

(** C3, as the code has it.  A key without the [.json] suffix (in any
    letter case) is skipped: nothing is sent, nothing is queued, and the
    call returns [nil].  A key with the suffix from which no job id can be
    extracted is not skipped: nothing is sent and nothing is queued, but the
    call returns an error.  Every key outside the prefix [logs/] is of the
    second kind once it carries the suffix. *)
Theorem non_matching_key_yields_no_job
    (env : Trigger.Env) (record : S3EventRecord) (w : World) :
  (Strings.HasSuffix (Strings.ToLower (ObjectKey record)) ".json" = false ->
   fst (processRecord env record w) = Returned None
   /\ sendRequests (snd (processRecord env record w)) = sendRequests w
   /\ queue (snd (processRecord env record w)) = queue w)
  /\ (Strings.HasSuffix (Strings.ToLower (ObjectKey record)) ".json" = true ->
      extractJobID (ObjectKey record) = None ->
      (exists err, fst (processRecord env record w) = Returned (Some err))
      /\ sendRequests (snd (processRecord env record w)) = sendRequests w
      /\ queue (snd (processRecord env record w)) = queue w)
  /\ (String.prefix "logs/" (ObjectKey record) = false ->
      extractJobID (ObjectKey record) = None).
Proof.
  split; [|split].
  - intros H. rewrite (processRecord_skipped env record w H). auto.
  - intros Hsuffix Hid.
    destruct (processRecord_rejected env record w Hsuffix Hid) as (err & ->).
    split; [exists err; reflexivity|auto].
  - apply extractJobID_needs_prefix.
Qed.

Lemma non_matching_key_yields_no_job_witness :
  (fst (processRecord Deployment.triggerEnv (Deployment.arrival "logs/readme.txt")
          Deployment.initial) = Returned None
   /\ sendRequests (snd (processRecord Deployment.triggerEnv
                           (Deployment.arrival "logs/readme.txt") Deployment.initial))
      = sendRequests Deployment.initial
   /\ queue (snd (processRecord Deployment.triggerEnv
                    (Deployment.arrival "logs/readme.txt") Deployment.initial))
      = queue Deployment.initial)
  /\ ((exists err,
         fst (processRecord Deployment.triggerEnv
                (Deployment.arrival "incoming/test_42_20240101T000000.json")
                Deployment.initial) = Returned (Some err))
      /\ sendRequests (snd (processRecord Deployment.triggerEnv
                              (Deployment.arrival "incoming/test_42_20240101T000000.json")
                              Deployment.initial))
         = sendRequests Deployment.initial
      /\ queue (snd (processRecord Deployment.triggerEnv
                       (Deployment.arrival "incoming/test_42_20240101T000000.json")
                       Deployment.initial))
         = queue Deployment.initial)
  /\ extractJobID "incoming/test_42_20240101T000000.json" = None.
Proof.
  split; [|split].
  - apply (proj1 (non_matching_key_yields_no_job Deployment.triggerEnv
                    (Deployment.arrival "logs/readme.txt") Deployment.initial)).
    reflexivity.
  - apply (proj1 (proj2 (non_matching_key_yields_no_job Deployment.triggerEnv
                    (Deployment.arrival "incoming/test_42_20240101T000000.json")
                    Deployment.initial))); reflexivity.
  - apply (proj2 (proj2 (non_matching_key_yields_no_job Deployment.triggerEnv
                    (Deployment.arrival "incoming/test_42_20240101T000000.json")
                    Deployment.initial))).
    reflexivity.
Defined.

(** C3, as the claim words it, fails for a key outside the prefix: the
    arrival of [incoming/test_42_20240101T000000.json] in the sample
    deployment is not reported as a success but as an error. *)
Lemma wrong_prefix_key_is_an_error :
  String.prefix "logs/" "incoming/test_42_20240101T000000.json" = false
  /\ fst (processRecord Deployment.triggerEnv
            (Deployment.arrival "incoming/test_42_20240101T000000.json")
            Deployment.initial)
     = Returned (Some (errorString
         "could not extract test_id from key: incoming/test_42_20240101T000000.json"))
  /\ fst (processRecord Deployment.triggerEnv
            (Deployment.arrival "incoming/test_42_20240101T000000.json")
            Deployment.initial)
     <> Returned None.
Proof.
  split; [reflexivity|]. split; [vm_compute; reflexivity|].
  vm_compute. discriminate.
Qed.

(** C7. The key [logs/test_42_20240101T000000.json] has job id [42], and
    once its metadata is fetched and the job serialised, one message with
    that job id is sent to the queue.  The key [logs/readme.txt] is skipped:
    nothing is sent and the call returns [nil].  The key
    [logs/test_bad.json] makes the call return an error, and nothing is
    sent; the handler reports the error and goes on with the other
    notifications of the batch. *)
Theorem key_convention_examples
    (env : Trigger.Env) (bucket : string) (received : Time) (w : World)
    (head : HeadObjectOutput) (size : Z) (body : string) :
  HeadObject env bucket "logs/test_42_20240101T000000.json" = inr head ->
  ContentLength head = Some size ->
  marshalJob env
    (ProcessingJob.mk "42" bucket "logs/test_42_20240101T000000.json" size
       (ToString (ContentType head)) received (reading w 1)) = inr body ->
  (extractJobID "logs/test_42_20240101T000000.json" = Some "42"
   /\ sendRequests
        (snd (processRecord env
                (mkS3EventRecord bucket "logs/test_42_20240101T000000.json" received) w))
      = sendRequests w ++ [mkQueueMessage body "42"])
  /\ (processRecord env (mkS3EventRecord bucket "logs/readme.txt" received) w
      = (Returned None,
         snd (Printf "Skipping non-JSON file: %s\n" [AStr "logs/readme.txt"]
                (snd (Now w))))
      /\ sendRequests
           (snd (processRecord env (mkS3EventRecord bucket "logs/readme.txt" received) w))
         = sendRequests w)
  /\ ((exists err,
         fst (processRecord env (mkS3EventRecord bucket "logs/test_bad.json" received) w)
         = Returned (Some err)
         /\ forall siblings,
             handler env (mkS3EventRecord bucket "logs/test_bad.json" received :: siblings) w
             = handler env siblings
                 (snd (EmitBatch (metricsCollector env)
                         [("TriggerFailures", Count (Float64.of_int 1))]
                         (snd (Printf "Error processing record: %v\n" [AErr err]
                                 (snd (Now w)))))))
      /\ sendRequests
           (snd (processRecord env (mkS3EventRecord bucket "logs/test_bad.json" received) w))
         = sendRequests w).
Proof.
  intros Hhead Hsize Hbody. split; [|split].
  - split; [reflexivity|].
    apply (processRecord_queued env
             (mkS3EventRecord bucket "logs/test_42_20240101T000000.json" received)
             w head "42" size body); auto.
  - rewrite (processRecord_skipped env (mkS3EventRecord bucket "logs/readme.txt" received) w)
      by reflexivity.
    auto.
  - destruct (processRecord_rejected env
                (mkS3EventRecord bucket "logs/test_bad.json" received) w)
      as (err & Hrun); [reflexivity|reflexivity|].
    split.
    + exists err. split; [rewrite Hrun; reflexivity|].
      intros siblings. simpl. unfold bind at 1. rewrite Hrun.
      unfold bind. simpl.
      destruct (EmitBatch (metricsCollector env) _ _) as [[] w'] eqn:He.
      reflexivity.
    + rewrite Hrun. reflexivity.
Qed.

Lemma key_convention_examples_witness :
  extractJobID "logs/test_42_20240101T000000.json" = Some "42"
  /\ sendRequests
       (snd (processRecord Deployment.triggerEnv
               (mkS3EventRecord "uploads" "logs/test_42_20240101T000000.json"
                  1704067200000000000) Deployment.initial))
     = sendRequests Deployment.initial ++ [mkQueueMessage "job-42" "42"].
Proof.
  apply (key_convention_examples Deployment.triggerEnv "uploads" 1704067200000000000
           Deployment.initial
           (mkHeadObjectOutput (Some 89) (Some "application/json")) 89 "job-42");
    reflexivity.
Defined.

End TriggerClaims.

(** * Further properties of the parser *)

Section ParserTallies.

Import LogAggregation Processor Spec.

Variable U : string -> option LogEntry.t.

Lemma stepSet_fold (proj : LogEntry.t -> string) (lines : list string)
    (s : gset string) (u : string) :
  u ∈ fold_left (fun acc l => stepSet (proj <$> entryOf (classify U l)) acc) lines s
  <-> u ∈ s \/ (u <> "" /\ exists e, In e (decoded U lines) /\ proj e = u).
Proof.
  revert s. unfold decoded.
  induction lines as [|l lines IH]; intros s; simpl.
  - split; [auto|]. intros [H|(_ & e & [] & _)]. exact H.
  - rewrite IH. clear IH.
    destruct (classify U l) as [| |e0]; simpl.
    + tauto.
    + tauto.
    + destruct (String.eqb_spec (proj e0) "") as [Hempty|Hfull].
      * split.
        -- intros [H|(Hne & e & He & Hp)]; [auto|].
           right. split; [exact Hne|]. exists e. auto.
        -- intros [H|(Hne & e & [He|He] & Hp)]; [auto| |].
           ++ subst e0. congruence.
           ++ right. split; [exact Hne|]. exists e. auto.
      * rewrite elem_of_union, elem_of_singleton. split.
        -- intros [[H|H]|(Hne & e & He & Hp)].
           ++ right. split; [congruence|]. exists e0. auto.
           ++ auto.
           ++ right. split; [exact Hne|]. exists e. auto.
        -- intros [H|(Hne & e & [He|He] & Hp)].
           ++ auto.
           ++ subst e0. auto.
           ++ right. split; [exact Hne|]. exists e. auto.
Qed.

Lemma fold_decoded {X : Type} (g : LogEntry.t -> X -> X) (lines : list string) (x : X) :
  fold_left (fun y l => match classify U l with
                        | Decoded e => g e y
                        | _ => y
                        end) lines x
  = fold_left (fun y e => g e y) (decoded U lines) x.
Proof.
  unfold decoded. revert x. induction lines as [|l lines IH]; intros x; simpl.
  - reflexivity.
  - destruct (classify U l); simpl; apply IH.
Qed.

Lemma level_filter_length (name : string) (lines : list string) :
  length (List.filter (fun l => hasLevel name (classify U l)) lines)
  = length (Tally.withLevel name (decoded U lines)).
Proof.
  unfold decoded, Tally.withLevel. induction lines as [|l lines IH]; simpl.
  - reflexivity.
  - destruct (classify U l) as [| |e]; simpl; try exact IH.
    destruct (String.eqb (LogEntry.Level e) name); simpl; rewrite IH; reflexivity.
Qed.

End ParserTallies.

Lemma three_levels_bound (a b c : string) (es : list LogEntry.t) :
  a <> b -> a <> c -> b <> c ->
  (length (Tally.withLevel a es) + length (Tally.withLevel b es)
   + length (Tally.withLevel c es) <= length es)%nat.
Proof.
  intros Hab Hac Hbc. unfold Tally.withLevel.
  induction es as [|e es IH]; simpl; [lia|].
  destruct (String.eqb_spec (LogEntry.Level e) a) as [Ha|Ha];
    destruct (String.eqb_spec (LogEntry.Level e) b) as [Hb|Hb];
    destruct (String.eqb_spec (LogEntry.Level e) c) as [Hc|Hc];
    simpl; try congruence; lia.
Qed.

Lemma add_fold (es : list LogEntry.t) (k : Z) :
  fold_left (fun y e => GoInt.add y (LogEntry.ResponseTimeMs e)) es (GoInt.wrap k)
  = GoInt.wrap (k + Tally.responseSum es).
Proof.
  revert k. induction es as [|e es IH]; intros k; simpl.
  - f_equal. lia.
  - unfold GoInt.add at 2. rewrite wrap_add_l, IH. f_equal. lia.
Qed.

Lemma bump_fold (es : list LogEntry.t) (m : gmap Z Z) (c : Z) :
  fold_left (fun y e => if LogEntry.StatusCode e >? 0
                        then Processor.bump (LogEntry.StatusCode e) y else y) es m !! c
  = if (c >? 0) && negb (Nat.eqb (length (Tally.withStatus c es)) 0)
    then Some (GoInt.wrap (default 0 (m !! c) + Z.of_nat (length (Tally.withStatus c es))))
    else m !! c.
Proof.
  revert m. unfold Tally.withStatus.
  induction es as [|e es IH]; intros m; simpl.
  - rewrite Bool.andb_false_r. reflexivity.
  - rewrite IH. clear IH.
    destruct (Z.eqb_spec (LogEntry.StatusCode e) c) as [Heq|Hne].
    + subst c. simpl length.
      destruct (LogEntry.StatusCode e >? 0) eqn:Hpos; simpl.
      * unfold Processor.bump. rewrite lookup_insert_eq. simpl.
        destruct (length (List.filter (fun e0 => LogEntry.StatusCode e0 =? LogEntry.StatusCode e) es))
          as [|n] eqn:Hn; simpl.
        -- reflexivity.
        -- unfold GoInt.incr, GoInt.add. rewrite wrap_add_l.
           f_equal. f_equal. lia.
      * reflexivity.
    + destruct (LogEntry.StatusCode e >? 0) eqn:Hpos.
      * unfold Processor.bump. rewrite lookup_insert_ne by exact Hne. reflexivity.
      * reflexivity.
Qed.

Section ParserExtras.

Import LogAggregation Processor Spec.

(** X1. After a successful [Parse] on a fresh parser the set of users holds
    exactly the user ids of the decoded entries that are not the empty
    string, and the set of endpoints exactly their non-empty endpoints. *)
Theorem unique_sets_hold_nonempty_values
    (U : string -> option LogEntry.t) (r : Bufio.Reader)
    (p : LogParser) (agg : LogAggregation.t) (v : string) :
  Parse U NewLogParser r = (p, inr agg) ->
  (v ∈ UniqueUsers agg
   <-> v <> "" /\ exists e, In e (decoded U (linesOf r)) /\ LogEntry.UserID e = v)
  /\ (v ∈ UniqueEndpoints agg
      <-> v <> "" /\ exists e, In e (decoded U (linesOf r)) /\ LogEntry.Endpoint e = v).
Proof.
  intros H. apply Parse_success in H as (_ & _ & ->). simpl. split.
  - rewrite (fold_project U UniqueUsers
               (fun o => stepSet (LogEntry.UserID <$> entryOf o))) by reflexivity.
    rewrite (stepSet_fold U LogEntry.UserID). simpl.
    rewrite elem_of_empty. tauto.
  - rewrite (fold_project U UniqueEndpoints
               (fun o => stepSet (LogEntry.Endpoint <$> entryOf o))) by reflexivity.
    rewrite (stepSet_fold U LogEntry.Endpoint). simpl.
    rewrite elem_of_empty. tauto.
Qed.

Lemma unique_sets_hold_nonempty_values_witness :
  ("user_2" ∈ UniqueUsers Traffic.aggregation
   <-> "user_2" <> "" /\ exists e, In e (decoded Json.Unmarshal (linesOf Traffic.file))
                                   /\ LogEntry.UserID e = "user_2")
  /\ ("user_2" ∈ UniqueEndpoints Traffic.aggregation
      <-> "user_2" <> "" /\ exists e, In e (decoded Json.Unmarshal (linesOf Traffic.file))
                                      /\ LogEntry.Endpoint e = "user_2").
Proof.
  apply (unique_sets_hold_nonempty_values Json.Unmarshal Traffic.file
           (mkLogParser Traffic.aggregation)).
  vm_compute. reflexivity.
Defined.

(** X2. After a successful [Parse] on a fresh parser the map of status
    codes holds, for every code above 0 that occurs among the decoded
    entries, the number of entries with that code (reduced to 64 bits), and
    holds no other key: codes that are 0 or negative are never recorded. *)
Theorem status_codes_are_tallied
    (U : string -> option LogEntry.t) (r : Bufio.Reader)
    (p : LogParser) (agg : LogAggregation.t) (c : Z) :
  Parse U NewLogParser r = (p, inr agg) ->
  StatusCodeCounts agg !! c
  = if (c >? 0) && negb (Nat.eqb (length (Tally.withStatus c (decoded U (linesOf r)))) 0)
    then Some (GoInt.wrap
                 (Z.of_nat (length (Tally.withStatus c (decoded U (linesOf r))))))
    else None.
Proof.
  intros H. apply Parse_success in H as (_ & _ & ->). simpl.
  rewrite (fold_project U StatusCodeCounts stepCodes) by reflexivity.
  unfold stepCodes.
  rewrite (fold_decoded U
             (fun e y => if LogEntry.StatusCode e >? 0
                         then bump (LogEntry.StatusCode e) y else y)).
  rewrite bump_fold. simpl. rewrite lookup_empty. reflexivity.
Qed.

Lemma status_codes_are_tallied_witness :
  StatusCodeCounts Traffic.aggregation !! 200
  = if (200 >? 0)
       && negb (Nat.eqb (length (Tally.withStatus 200
                                   (decoded Json.Unmarshal (linesOf Traffic.file)))) 0)
    then Some (GoInt.wrap
                 (Z.of_nat (length (Tally.withStatus 200
                                      (decoded Json.Unmarshal (linesOf Traffic.file))))))
    else None.
Proof.
  apply (status_codes_are_tallied Json.Unmarshal Traffic.file
           (mkLogParser Traffic.aggregation)).
  vm_compute. reflexivity.
Defined.

(** X3. After a successful [Parse] on a fresh parser the counters of the
    levels ERROR, INFO and DEBUG hold the number of decoded entries with
    exactly that level (reduced to 64 bits).  Entries of any other level
    are processed without being counted by level, so as long as the line
    count fits 64 bits the three counters together never exceed
    [ProcessedLines]. *)
Theorem level_counters_are_tallied
    (U : string -> option LogEntry.t) (r : Bufio.Reader)
    (p : LogParser) (agg : LogAggregation.t) :
  Parse U NewLogParser r = (p, inr agg) ->
  ErrorCount agg
  = GoInt.wrap (Z.of_nat (length (Tally.withLevel "ERROR" (decoded U (linesOf r)))))
  /\ InfoCount agg
     = GoInt.wrap (Z.of_nat (length (Tally.withLevel "INFO" (decoded U (linesOf r)))))
  /\ DebugCount agg
     = GoInt.wrap (Z.of_nat (length (Tally.withLevel "DEBUG" (decoded U (linesOf r)))))
  /\ (Z.of_nat (length (linesOf r)) < 2^63 ->
      ErrorCount agg + InfoCount agg + DebugCount agg <= ProcessedLines agg).
Proof.
  intros H. apply Parse_success in H as (_ & _ & ->).
  set (lines := linesOf r). simpl.
  assert (HL : forall name (proj : LogAggregation.t -> Z),
             (forall o a, proj (applyOutcome o a) = stepCount (hasLevel name o) (proj a)) ->
             proj NewLogAggregation = 0 ->
             proj (fold_left (fun b l => applyOutcome (classify U l) b) lines
                     NewLogAggregation)
             = GoInt.wrap (Z.of_nat (length (Tally.withLevel name (decoded U lines))))).
  { intros name proj Hstep Hzero.
    rewrite (fold_project U proj (fun o => stepCount (hasLevel name o)) Hstep).
    rewrite Hzero, <- level_filter_length.
    apply (stepCount_fold (fun l => hasLevel name (classify U l)) lines 0). }
  rewrite (HL "ERROR" ErrorCount) by reflexivity.
  rewrite (HL "INFO" InfoCount) by reflexivity.
  rewrite (HL "DEBUG" DebugCount) by reflexivity.
  do 3 (split; [reflexivity|]).
  intros Hlen.
  assert (HP : ProcessedLines
                 (fold_left (fun b l => applyOutcome (classify U l) b) lines
                    NewLogAggregation)
               = GoInt.wrap (Z.of_nat (length (decoded U lines)))).
  { rewrite (fold_project U ProcessedLines (fun o => stepCount (isDecoded o)))
      by reflexivity.
    rewrite decoded_length.
    apply (stepCount_fold (fun l => isDecoded (classify U l)) lines 0). }
  rewrite HP.
  assert (Hd : (length (decoded U lines) <= length lines)%nat).
  { rewrite decoded_length. apply List.filter_length_le. }
  pose proof (three_levels_bound "ERROR" "INFO" "DEBUG" (decoded U lines)
                ltac:(discriminate) ltac:(discriminate) ltac:(discriminate)) as Hsum.
  rewrite !wrap_small by (unfold GoInt.in_range; lia).
  lia.
Qed.

Lemma level_counters_are_tallied_witness :
  ErrorCount Traffic.aggregation + InfoCount Traffic.aggregation
  + DebugCount Traffic.aggregation <= ProcessedLines Traffic.aggregation.
Proof.
  apply (level_counters_are_tallied Json.Unmarshal Traffic.file
           (mkLogParser Traffic.aggregation)).
  - vm_compute. reflexivity.
  - vm_compute. reflexivity.
Defined.

(** X4. After a successful [Parse] on a fresh parser [TotalResponseMs] is
    the sum of the response times of the decoded entries, reduced to 64
    bits; it is that sum itself whenever the sum fits 64 bits. *)
Theorem total_response_is_wrapped_sum
    (U : string -> option LogEntry.t) (r : Bufio.Reader)
    (p : LogParser) (agg : LogAggregation.t) :
  Parse U NewLogParser r = (p, inr agg) ->
  TotalResponseMs agg = GoInt.wrap (Tally.responseSum (decoded U (linesOf r)))
  /\ (GoInt.in_range (Tally.responseSum (decoded U (linesOf r))) ->
      TotalResponseMs agg = Tally.responseSum (decoded U (linesOf r))).
Proof.
  intros H. apply Parse_success in H as (_ & _ & ->). simpl.
  rewrite (fold_project U TotalResponseMs stepTotalMs) by reflexivity.
  unfold stepTotalMs.
  rewrite (fold_decoded U (fun e y => GoInt.add y (LogEntry.ResponseTimeMs e))).
  simpl. rewrite (add_fold _ 0). simpl.
  split; [reflexivity|]. intros Hr. apply wrap_small, Hr.
Qed.

Lemma total_response_is_wrapped_sum_witness :
  TotalResponseMs Traffic.aggregation
  = Tally.responseSum (decoded Json.Unmarshal (linesOf Traffic.file)).
Proof.
  apply (total_response_is_wrapped_sum Json.Unmarshal Traffic.file
           (mkLogParser Traffic.aggregation)).
  - vm_compute. reflexivity.
  - vm_compute. split; [discriminate|reflexivity].
Defined.

(** X5. Whatever the response times, negative ones included,
    [MaxResponseMs] after a successful [Parse] on a fresh parser is never
    below 0, is an upper bound of every decoded response time, and is
    either 0 or the response time of some decoded entry. *)
Theorem max_response_never_below_zero
    (U : string -> option LogEntry.t) (r : Bufio.Reader)
    (p : LogParser) (agg : LogAggregation.t) :
  Parse U NewLogParser r = (p, inr agg) ->
  0 <= MaxResponseMs agg
  /\ Forall (fun e => LogEntry.ResponseTimeMs e <= MaxResponseMs agg)
            (decoded U (linesOf r))
  /\ (MaxResponseMs agg = 0
      \/ exists e, In e (decoded U (linesOf r))
                   /\ LogEntry.ResponseTimeMs e = MaxResponseMs agg).
Proof.
  intros H. apply Parse_success in H as (_ & _ & ->). simpl.
  rewrite (fold_project U MaxResponseMs stepMax) by reflexivity.
  rewrite stepMax_fold. simpl.
  set (rts := map LogEntry.ResponseTimeMs (decoded U (linesOf r))).
  split; [apply fold_max_ge|]. split.
  - pose proof (fold_max_bound rts 0) as Hb. subst rts.
    rewrite Forall_map in Hb. exact Hb.
  - destruct (fold_max_attained rts 0) as [H0|Hin]; [left; exact H0|].
    right. subst rts. apply in_map_iff in Hin as (e & He & Hin). eauto.
Qed.

Lemma max_response_never_below_zero_witness :
  0 <= MaxResponseMs Traffic.aggregation
  /\ Forall (fun e => LogEntry.ResponseTimeMs e <= MaxResponseMs Traffic.aggregation)
            (decoded Json.Unmarshal (linesOf Traffic.file))
  /\ (MaxResponseMs Traffic.aggregation = 0
      \/ exists e, In e (decoded Json.Unmarshal (linesOf Traffic.file))
                   /\ LogEntry.ResponseTimeMs e = MaxResponseMs Traffic.aggregation).
Proof.
  apply (max_response_never_below_zero Json.Unmarshal Traffic.file
           (mkLogParser Traffic.aggregation)).
  vm_compute. reflexivity.
Defined.

(** X6. Whether [Parse] fails depends on the scanner alone, never on what
    the lines hold.  A line of 1024 * 1024 bytes or more anywhere in the
    input makes it fail with the scanner's token-too-long error; otherwise a
    read error of the body is returned, wrapped the same way; otherwise
    [Parse] succeeds, however many lines are malformed, and hands back the
    parser's own aggregation. *)
Theorem parse_fails_only_in_the_scanner
    (U : string -> option LogEntry.t) (p0 : LogParser) (r : Bufio.Reader) :
  snd (Parse U p0 r)
  = if existsb (fun seg => maxTokenSize <=? Z.of_nat (String.length seg))
         (Bufio.segments (Bufio.content r))
    then inl (wrapError "error scanning file: bufio.Scanner: token too long"
                Bufio.ErrTooLong)
    else match Bufio.read_err r with
         | Some e => inl (wrapError ("error scanning file: " +:+ Error e) e)
         | None => inr (aggregation (fst (Parse U p0 r)))
         end.
Proof.
  rewrite Parse_unfold. unfold Bufio.Scan.
  change (fun seg => maxTokenSize <=? Z.of_nat (String.length seg))
    with (Bufio.too_long maxTokenSize).
  destruct (existsb (Bufio.too_long maxTokenSize) (Bufio.segments (Bufio.content r)))
    eqn:Hlong.
  - rewrite (scan_beyond_limit _ _ (Bufio.read_err r) Hlong). reflexivity.
  - rewrite (scan_within_limit _ _ (Bufio.read_err r) Hlong). simpl.
    destruct (Bufio.read_err r); reflexivity.
Qed.

(** X7. A file in which every scanned line is empty is parsed without
    error into an aggregation that is all zero except for [TotalLines],
    which is the number of lines; the average response time is 0. *)
Theorem empty_lines_only_count_as_lines
    (U : string -> option LogEntry.t) (r : Bufio.Reader)
    (p : LogParser) (agg : LogAggregation.t) :
  Forall (fun l => l = "") (linesOf r) ->
  Parse U NewLogParser r = (p, inr agg) ->
  agg = set_TotalLines (GoInt.wrap (Z.of_nat (length (linesOf r)))) NewLogAggregation
  /\ GetAverageResponseTime p = Float64.zero.
Proof.
  intros Hempty H.
  assert (Hfold : forall a,
             fold_left (fun b l => applyOutcome (classify U l) b) (linesOf r) a = a).
  { induction Hempty as [|l lines Hl _ IH]; intros a; simpl; [reflexivity|].
    subst l. rewrite IH. destruct a; reflexivity. }
  apply Parse_success in H as (Hp & _ & Hagg).
  rewrite Hfold in Hagg.
  pose proof (lineNum_final (linesOf r) 0) as Hn.
  change (GoInt.wrap (Z.of_nat 0)) with 0 in Hn. rewrite Hn in Hagg. simpl in Hagg.
  split; [exact Hagg|].
  unfold GetAverageResponseTime. rewrite Hp, Hagg. reflexivity.
Qed.

Lemma empty_lines_only_count_as_lines_witness :
  set_TotalLines 3 NewLogAggregation
  = set_TotalLines (GoInt.wrap (Z.of_nat (length (linesOf Traffic.emptyLines))))
      NewLogAggregation
  /\ GetAverageResponseTime (mkLogParser (set_TotalLines 3 NewLogAggregation))
     = Float64.zero.
Proof.
  apply (empty_lines_only_count_as_lines Json.Unmarshal Traffic.emptyLines).
  - vm_compute. repeat constructor.
  - vm_compute. reflexivity.
Defined.

(** X8. A parser that is used for a second file keeps counting where the
    first file left off: processed lines and response times of both files
    add up, and the users of the first file stay in the set.  [TotalLines]
    however is overwritten with the line count of the second file alone. *)
Theorem reused_parser_accumulates
    (U : string -> option LogEntry.t) (r1 r2 : Bufio.Reader)
    (p1 p2 : LogParser) (a1 a2 : LogAggregation.t) :
  Parse U NewLogParser r1 = (p1, inr a1) ->
  Parse U p1 r2 = (p2, inr a2) ->
  TotalLines a2 = GoInt.wrap (Z.of_nat (length (linesOf r2)))
  /\ ProcessedLines a2
     = GoInt.wrap (Z.of_nat (length (decoded U (linesOf r1))
                             + length (decoded U (linesOf r2))))
  /\ TotalResponseMs a2
     = GoInt.wrap (Tally.responseSum (decoded U (linesOf r1))
                   + Tally.responseSum (decoded U (linesOf r2)))
  /\ UniqueUsers a1 ⊆ UniqueUsers a2.
Proof.
  intros H1 H2.
  apply Parse_success in H1 as (Hp1 & _ & Ha1).
  apply Parse_success in H2 as (_ & _ & Ha2).
  rewrite Hp1 in Ha2.
  assert (HP1 : ProcessedLines a1 = GoInt.wrap (Z.of_nat (length (decoded U (linesOf r1))))).
  { rewrite Ha1. simpl.
    rewrite (fold_project U ProcessedLines (fun o => stepCount (isDecoded o)))
      by reflexivity.
    rewrite decoded_length.
    apply (stepCount_fold (fun l => isDecoded (classify U l)) (linesOf r1) 0). }
  assert (HT1 : TotalResponseMs a1 = GoInt.wrap (Tally.responseSum (decoded U (linesOf r1)))).
  { rewrite Ha1. simpl.
    rewrite (fold_project U TotalResponseMs stepTotalMs) by reflexivity.
    unfold stepTotalMs.
    rewrite (fold_decoded U (fun e y => GoInt.add y (LogEntry.ResponseTimeMs e))).
    apply (add_fold _ 0). }
  rewrite Ha2. simpl. split; [apply (lineNum_final (linesOf r2) 0)|]. split; [|split].
  - rewrite (fold_project U ProcessedLines (fun o => stepCount (isDecoded o)))
      by reflexivity.
    rewrite HP1, (decoded_length U (linesOf r2)), Nat2Z.inj_add.
    rewrite (stepCount_fold (fun l => isDecoded (classify U l)) (linesOf r2)).
    f_equal. lia.
  - rewrite (fold_project U TotalResponseMs stepTotalMs) by reflexivity.
    unfold stepTotalMs.
    rewrite (fold_decoded U (fun e y => GoInt.add y (LogEntry.ResponseTimeMs e))).
    rewrite HT1. apply add_fold.
  - intros u Hu.
    rewrite (fold_project U UniqueUsers
               (fun o => stepSet (LogEntry.UserID <$> entryOf o))) by reflexivity.
    apply (stepSet_fold U LogEntry.UserID). left. exact Hu.
Qed.

Lemma reused_parser_accumulates_witness :
  TotalLines Reuse.second = GoInt.wrap (Z.of_nat (length (linesOf Traffic.file)))
  /\ ProcessedLines Reuse.second
     = GoInt.wrap (Z.of_nat (length (decoded Json.Unmarshal (linesOf Sample.threeLines))
                             + length (decoded Json.Unmarshal (linesOf Traffic.file))))
  /\ TotalResponseMs Reuse.second
     = GoInt.wrap (Tally.responseSum (decoded Json.Unmarshal (linesOf Sample.threeLines))
                   + Tally.responseSum (decoded Json.Unmarshal (linesOf Traffic.file)))
  /\ UniqueUsers Reuse.first ⊆ UniqueUsers Reuse.second.
Proof.
  apply (reused_parser_accumulates Json.Unmarshal Sample.threeLines Traffic.file
           (mkLogParser Reuse.first) (mkLogParser Reuse.second)).
  - vm_compute. reflexivity.
  - vm_compute. reflexivity.
Defined.

End ParserExtras.

Section LineEndings.

Import Processor Spec.

Lemma segments_from_line (l rest : string) (cur : list ascii) :
  Keys.free Bufio.newline l = true ->
  Bufio.segments_from cur (l +:+ String Bufio.newline rest)
  = String.string_of_list_ascii (rev cur ++ String.list_ascii_of_string l)
    :: Bufio.segments_from [] rest.
Proof.
  unfold Keys.free. revert cur. induction l as [|c l IH]; intros cur Hfree; simpl in *.
  - rewrite app_nil_r. reflexivity.
  - apply andb_prop in Hfree as [Hc Hl].
    destruct (Ascii.eqb c Bufio.newline); [discriminate|].
    rewrite (IH (c :: cur) Hl). simpl. rewrite <- app_assoc. reflexivity.
Qed.

Lemma segments_unlines (lines : list string) :
  Forall (fun l => Keys.free Bufio.newline l = true) lines ->
  Bufio.segments (unlines lines) = lines.
Proof.
  unfold Bufio.segments. induction 1 as [|l lines Hl _ IH]; simpl; [reflexivity|].
  rewrite (segments_from_line l (unlines lines) [] Hl). simpl.
  rewrite String.string_of_list_ascii_of_string, IH. reflexivity.
Qed.

Lemma dropCR_withCR (l : string) : Bufio.dropCR (Endings.withCR l) = l.
Proof.
  unfold Endings.withCR. induction l as [|c l IH]; simpl; [reflexivity|].
  rewrite IH. destruct l; reflexivity.
Qed.

Lemma free_withCR (l : string) :
  Keys.free Bufio.newline l = true -> Keys.free Bufio.newline (Endings.withCR l) = true.
Proof.
  unfold Keys.free, Endings.withCR. induction l as [|c l IH]; simpl; [reflexivity|].
  intros H. apply andb_prop in H as [Hc Hl]. rewrite Hc. exact (IH Hl).
Qed.

Lemma length_withCR (l : string) :
  String.length (Endings.withCR l) = S (String.length l).
Proof.
  unfold Endings.withCR. induction l as [|c l IH]; simpl; [reflexivity|].
  now rewrite IH.
Qed.

(** X21. A file written from plain lines, each closed by a line feed, is
    scanned back into exactly those lines; and closing every line by
    carriage return and line feed instead changes nothing in what [Parse]
    returns. *)
Theorem line_ends_do_not_matter
    (U : string -> option LogEntry.t) (p0 : LogParser) (lines : list string)
    (final : option error) :
  Forall Endings.plain lines ->
  fst (Bufio.Scan maxTokenSize (Bufio.mkReader (unlines lines) final)) = lines
  /\ Parse U p0 (Bufio.mkReader (unlines (map Endings.withCR lines)) final)
     = Parse U p0 (Bufio.mkReader (unlines lines) final).
Proof.
  intros Hplain.
  assert (Hfree : Forall (fun l => Keys.free Bufio.newline l = true) lines).
  { eapply Forall_impl; [exact Hplain|]. intros l (H & _). exact H. }
  assert (Hfree' : Forall (fun l => Keys.free Bufio.newline l = true)
                     (map Endings.withCR lines)).
  { apply Forall_map. eapply Forall_impl; [exact Hfree|]. apply free_withCR. }
  assert (Hshort : existsb (Bufio.too_long maxTokenSize) lines = false).
  { clear Hfree Hfree'. induction Hplain as [|l lines (_ & _ & Hl) _ IH]; simpl;
      [reflexivity|].
    rewrite IH, Bool.orb_false_r. unfold Bufio.too_long. apply Z.leb_gt. lia. }
  assert (Hshort' : existsb (Bufio.too_long maxTokenSize) (map Endings.withCR lines) = false).
  { clear Hfree Hfree' Hshort. induction Hplain as [|l lines (_ & _ & Hl) _ IH]; simpl;
      [reflexivity|].
    rewrite IH, Bool.orb_false_r. unfold Bufio.too_long. rewrite length_withCR.
    apply Z.leb_gt. lia. }
  assert (Hsame : map Bufio.dropCR lines = lines).
  { clear Hfree Hfree' Hshort Hshort'.
    induction Hplain as [|l lines (_ & Hl & _) _ IH]; simpl; congruence. }
  assert (Hsame' : map Bufio.dropCR (map Endings.withCR lines) = lines).
  { rewrite map_map. clear. induction lines as [|l lines IH]; simpl; [reflexivity|].
    now rewrite dropCR_withCR, IH. }
  assert (Hscan : Bufio.Scan maxTokenSize (Bufio.mkReader (unlines lines) final)
                  = (lines, final)).
  { unfold Bufio.Scan. simpl. rewrite (segments_unlines lines Hfree).
    rewrite (scan_within_limit _ _ final Hshort), Hsame. reflexivity. }
  assert (Hscan' : Bufio.Scan maxTokenSize
                     (Bufio.mkReader (unlines (map Endings.withCR lines)) final)
                   = (lines, final)).
  { unfold Bufio.Scan. simpl. rewrite (segments_unlines _ Hfree').
    rewrite (scan_within_limit _ _ final Hshort'), Hsame'. reflexivity. }
  split; [rewrite Hscan; reflexivity|].
  rewrite !Parse_unfold, Hscan, Hscan'. reflexivity.
Qed.

Lemma line_ends_do_not_matter_witness :
  fst (Bufio.Scan maxTokenSize
         (Bufio.mkReader (unlines [Sample.infoLine; ""; Sample.malformedLine]) None))
  = [Sample.infoLine; ""; Sample.malformedLine]
  /\ Parse Json.Unmarshal NewLogParser
       (Bufio.mkReader
          (unlines (map Endings.withCR [Sample.infoLine; ""; Sample.malformedLine])) None)
     = Parse Json.Unmarshal NewLogParser
         (Bufio.mkReader (unlines [Sample.infoLine; ""; Sample.malformedLine]) None).
Proof.
  apply line_ends_do_not_matter.
  repeat constructor.
Defined.

End LineEndings.

(** * Further properties of the worker *)

Section WorkerExtras.

Import Runtime Worker Spec.

(** The three ways [processMessage] can go once the job is decoded. *)
Lemma processMessage_cases (env : Worker.Env) (record : SQSMessage)
    (job : ProcessingJob.t) (w : World) :
  unmarshalJob env (Body record) = inr job ->
  (exists cause,
      processMessage env record w
      = saveFailedResult env job (clock w (reads w)) cause (announced job w))
  \/ (exists body p agg,
      GetObject env (ProcessingJob.Bucket job) (ProcessingJob.Key job) = inr body
      /\ Processor.Parse (unmarshalEntry env) Processor.NewLogParser body = (p, inr agg)).
Proof.
  intros Hjob.
  destruct (GetObject env (ProcessingJob.Bucket job) (ProcessingJob.Key job))
    as [e|body] eqn:Hget.
  - left. eexists. apply processMessage_fetch_failed; eassumption.
  - destruct (Processor.Parse (unmarshalEntry env) Processor.NewLogParser body)
      as [p [e|agg]] eqn:Hparse.
    + left. eexists. eapply processMessage_parse_failed; try eassumption.
      rewrite Hparse. reflexivity.
    + right. eauto.
Qed.

(** X9. A message whose body does not decode as a job is answered with the
    decoding error, wrapped; since there is no job id to file a result
    under, nothing is written to the store, nothing is printed and no
    metric is emitted. *)
Theorem undecodable_message_leaves_no_trace
    (env : Worker.Env) (record : SQSMessage) (e : error) (w : World) :
  unmarshalJob env (Body record) = inl e ->
  fst (processMessage env record w)
  = Some (wrapError ("failed to unmarshal job: " +:+ Error e) e)
  /\ putRequests (snd (processMessage env record w)) = putRequests w
  /\ table (snd (processMessage env record w)) = table w
  /\ stdout (snd (processMessage env record w)) = stdout w
  /\ emitted (snd (processMessage env record w)) = emitted w.
Proof.
  intros H. rewrite (processMessage_undecodable env record e w H). simpl. auto.
Qed.

Lemma undecodable_message_leaves_no_trace_witness :
  fst (processMessage Deployment.workerEnv (mkSQSMessage "{") Deployment.initial)
  = Some (wrapError
            ("failed to unmarshal job: "
             +:+ Error (errorString "invalid character 'j' looking for beginning of value"))
            (errorString "invalid character 'j' looking for beginning of value"))
  /\ putRequests (snd (processMessage Deployment.workerEnv (mkSQSMessage "{")
                         Deployment.initial)) = putRequests Deployment.initial
  /\ table (snd (processMessage Deployment.workerEnv (mkSQSMessage "{")
                   Deployment.initial)) = table Deployment.initial
  /\ stdout (snd (processMessage Deployment.workerEnv (mkSQSMessage "{")
                    Deployment.initial)) = stdout Deployment.initial
  /\ emitted (snd (processMessage Deployment.workerEnv (mkSQSMessage "{")
                     Deployment.initial)) = emitted Deployment.initial.
Proof.
  apply undecodable_message_leaves_no_trace. reflexivity.
Defined.

(** X10. When the object is fetched and parsed but the store refuses the
    result, [processMessage] returns the store's error, wrapped: the table
    is unchanged, no metric is emitted, and the only line printed is the one
    that announced the job. *)
Theorem refused_result_is_propagated
    (env : Worker.Env) (record : SQSMessage) (job : ProcessingJob.t)
    (body : Bufio.Reader) (p : Processor.LogParser) (agg : LogAggregation.t)
    (refusal : error) (w : World) :
  unmarshalJob env (Body record) = inr job ->
  GetObject env (ProcessingJob.Bucket job) (ProcessingJob.Key job) = inr body ->
  Processor.Parse (unmarshalEntry env) Processor.NewLogParser body = (p, inr agg) ->
  putFault env (length (putRequests w))
    (completedResult job p agg (reading w 0) (elapsedMs w) (reading w 2) (reading w 3))
  = Some refusal ->
  fst (processMessage env record w)
  = Some (wrapError ("failed to save result: " +:+ Error refusal) refusal)
  /\ table (snd (processMessage env record w)) = table w
  /\ emitted (snd (processMessage env record w)) = emitted w
  /\ stdout (snd (processMessage env record w))
     = stdout w ++ [mkPrinted "Processing job %s: %s/%s\n"
                      [AStr (ProcessingJob.JobID job); AStr (ProcessingJob.Bucket job);
                       AStr (ProcessingJob.Key job)]].
Proof.
  intros Hjob Hget Hparse Hput.
  unfold processMessage, bind; simpl.
  rewrite Hjob; simpl. rewrite Hget, Hparse.
  unfold saveResult, SinceMilliseconds, EmitBatch, PutItem, Printf, Now, bind, ret;
    simpl.
  change (completedResult job p agg _ _ _ _)
    with (completedResult job p agg (reading w 0) (elapsedMs w) (reading w 2)
            (reading w 3)).
  rewrite Hput. simpl. auto.
Qed.

Lemma refused_result_is_propagated_witness :
  fst (processMessage Outage.workerEnv (mkSQSMessage "job-42") Deployment.initial)
  = Some (wrapError ("failed to save result: " +:+ Error Outage.refusal) Outage.refusal)
  /\ table (snd (processMessage Outage.workerEnv (mkSQSMessage "job-42") Deployment.initial))
     = table Deployment.initial
  /\ emitted (snd (processMessage Outage.workerEnv (mkSQSMessage "job-42") Deployment.initial))
     = emitted Deployment.initial
  /\ stdout (snd (processMessage Outage.workerEnv (mkSQSMessage "job-42") Deployment.initial))
     = stdout Deployment.initial
       ++ [mkPrinted "Processing job %s: %s/%s\n"
             [AStr "42"; AStr "uploads"; AStr "logs/test_42_20240101T000000.json"]].
Proof.
  apply (refused_result_is_propagated Outage.workerEnv (mkSQSMessage "job-42")
           Deployment.job42 Sample.threeLines
           (Processor.mkLogParser Reuse.first) Reuse.first Outage.refusal
           Deployment.initial).
  - reflexivity.
  - reflexivity.
  - vm_compute. reflexivity.
  - reflexivity.
Defined.

(** X11. One call of [processMessage] issues at most one write, sends
    nothing to the queue, and leaves every entry of the table as it was
    except possibly the one filed under the id of the job it decoded. *)
Theorem attempt_touches_only_its_own_result
    (env : Worker.Env) (record : SQSMessage) (w : World) (k : string) :
  (forall job, unmarshalJob env (Body record) = inr job -> ProcessingJob.JobID job <> k) ->
  table (snd (processMessage env record w)) !! k = table w !! k
  /\ (putRequests (snd (processMessage env record w)) = putRequests w
      \/ exists r, putRequests (snd (processMessage env record w)) = putRequests w ++ [r])
  /\ sendRequests (snd (processMessage env record w)) = sendRequests w
  /\ queue (snd (processMessage env record w)) = queue w.
Proof.
  intros Hk.
  destruct (unmarshalJob env (Body record)) as [e|job] eqn:Hjob.
  - rewrite (processMessage_undecodable env record e w Hjob). simpl. auto.
  - specialize (Hk job eq_refl).
    assert (Hq : sendRequests (snd (processMessage env record w)) = sendRequests w
                 /\ queue (snd (processMessage env record w)) = queue w).
    { unfold processMessage, saveFailedResult, saveResult, SinceMilliseconds, EmitBatch,
        PutItem, Printf, Now, bind, ret; simpl. rewrite Hjob; simpl.
      destruct (GetObject env _ _) as [e|body]; simpl.
      - destruct (putFault env _ _); destruct (metricsCollector env); simpl; auto.
      - destruct (Processor.Parse _ _ body) as [p [e|agg]]; simpl.
        + destruct (putFault env _ _); destruct (metricsCollector env); simpl; auto.
        + destruct (putFault env _ _); destruct (metricsCollector env); simpl; auto. }
    destruct (processMessage_cases env record job w Hjob)
      as [(cause & Hrun)|(body & p & agg & Hget & Hparse)].
    + rewrite Hrun in Hq.
      destruct (saveFailedResult_spec env job (clock w (reads w)) cause (announced job w))
        as (_ & Hput & Htable & _).
      rewrite Hrun, Htable, Hput. simpl.
      split; [|split; [right; eexists; reflexivity|exact Hq]].
      destruct (putFault env _ _); [reflexivity|].
      apply lookup_insert_ne. exact Hk.
    + destruct (processMessage_completed env record job body p agg w Hjob Hget Hparse)
        as (Hput & _ & Htable).
      rewrite Htable, Hput.
      split; [|split; [right; eexists; reflexivity|exact Hq]].
      destruct (putFault env _ _); [reflexivity|].
      apply lookup_insert_ne. exact Hk.
Qed.

Lemma attempt_touches_only_its_own_result_witness :
  table (snd (processMessage Deployment.workerEnv (mkSQSMessage "job-42")
                Deployment.later)) !! "43"
  = table Deployment.later !! "43"
  /\ (putRequests (snd (processMessage Deployment.workerEnv (mkSQSMessage "job-42")
                          Deployment.later)) = putRequests Deployment.later
      \/ exists r, putRequests (snd (processMessage Deployment.workerEnv
                                       (mkSQSMessage "job-42") Deployment.later))
                   = putRequests Deployment.later ++ [r])
  /\ sendRequests (snd (processMessage Deployment.workerEnv (mkSQSMessage "job-42")
                          Deployment.later)) = sendRequests Deployment.later
  /\ queue (snd (processMessage Deployment.workerEnv (mkSQSMessage "job-42")
                   Deployment.later)) = queue Deployment.later.
Proof.
  apply attempt_touches_only_its_own_result.
  intros job Hjob. vm_compute in Hjob. inversion Hjob. discriminate.
Defined.

(** X12. A batch handled in two parts: when the first part ends with an
    error the whole batch ends there, in the same state and with the same
    error; otherwise the second part is handled from the state the first
    part left.  So the handler returns [nil] exactly when every message,
    taken in order, was processed without error. *)
Theorem handler_splits_at_any_point
    (env : Worker.Env) (first rest : list SQSMessage) (w : World) :
  handler env (first ++ rest) w
  = match fst (handler env first w) with
    | Some _ => handler env first w
    | None => handler env rest (snd (handler env first w))
    end.
Proof.
  revert w. induction first as [|m first IH]; intros w; simpl; [reflexivity|].
  unfold bind. destruct (processMessage env m w) as [[e|] w']; simpl.
  - reflexivity.
  - apply IH.
Qed.

Lemma expiry_is_seven_days (t : Time) : expiry t = t / 1000000000 + 604800.
Proof.
  unfold expiry.
  replace (t + 7 * 24 * 3600 * 1000000000) with (t + 604800 * 1000000000) by lia.
  apply Z.div_add. lia.
Qed.

(** X13. Every result written for a decoded job, completed or failed,
    takes its times from four successive clock readings: it starts at the
    first, lasts the whole milliseconds between the first and the second,
    completes at the third and expires 604800 seconds (7 days) after the
    Unix second of the fourth.  With a clock that never runs backwards the
    duration is not negative, the result does not complete before it starts
    and does not expire less than 7 days after it completes. *)
Theorem result_times_follow_the_clock
    (env : Worker.Env) (record : SQSMessage) (job : ProcessingJob.t) (w : World) :
  unmarshalJob env (Body record) = inr job ->
  exists r,
    putRequests (snd (processMessage env record w)) = putRequests w ++ [r]
    /\ ProcessingResult.StartedAt r = reading w 0
    /\ ProcessingResult.ProcessingTimeMs r
       = Z.quot (reading w 1 - reading w 0) 1000000
    /\ ProcessingResult.CompletedAt r = reading w 2
    /\ ProcessingResult.ExpiresAt r = reading w 3 / 1000000000 + 604800
    /\ ProcessingResult.FileSizeBytes r = ProcessingJob.Size job
    /\ ((forall i j, (i <= j)%nat -> clock w i <= clock w j) ->
        0 <= ProcessingResult.ProcessingTimeMs r
        /\ ProcessingResult.StartedAt r <= ProcessingResult.CompletedAt r
        /\ ProcessingResult.CompletedAt r / 1000000000 + 604800
           <= ProcessingResult.ExpiresAt r).
Proof.
  intros Hjob.
  assert (Hmono : (forall i j, (i <= j)%nat -> clock w i <= clock w j) ->
                  0 <= Z.quot (reading w 1 - reading w 0) 1000000
                  /\ reading w 0 <= reading w 2
                  /\ reading w 2 / 1000000000 + 604800
                     <= reading w 3 / 1000000000 + 604800).
  { intros Hclock. unfold reading.
    pose proof (Hclock (0 + reads w) (1 + reads w))%nat ltac:(lia).
    pose proof (Hclock (0 + reads w) (2 + reads w))%nat ltac:(lia).
    pose proof (Hclock (2 + reads w) (3 + reads w))%nat ltac:(lia).
    split; [apply Z.quot_pos; lia|]. split; [lia|].
    apply Z.add_le_mono_r, Z.div_le_mono; lia. }
  destruct (processMessage_cases env record job w Hjob)
    as [(cause & Hrun)|(body & p & agg & Hget & Hparse)].
  - destruct (saveFailedResult_spec env job (clock w (reads w)) cause (announced job w))
      as (_ & Hput & _).
    rewrite Hrun. eexists. split; [exact Hput|].
    unfold failedResult; simpl. rewrite expiry_is_seven_days.
    do 5 (split; [reflexivity|]). exact Hmono.
  - destruct (processMessage_completed env record job body p agg w Hjob Hget Hparse)
      as (Hput & _).
    eexists. split; [exact Hput|].
    unfold completedResult; simpl. rewrite expiry_is_seven_days.
    do 5 (split; [reflexivity|]). exact Hmono.
Qed.

Lemma result_times_follow_the_clock_witness :
  exists r,
    putRequests (snd (processMessage Deployment.workerEnv (mkSQSMessage "job-43")
                        Deployment.initial))
    = putRequests Deployment.initial ++ [r]
    /\ ProcessingResult.StartedAt r = reading Deployment.initial 0
    /\ ProcessingResult.ProcessingTimeMs r
       = Z.quot (reading Deployment.initial 1 - reading Deployment.initial 0) 1000000
    /\ ProcessingResult.CompletedAt r = reading Deployment.initial 2
    /\ ProcessingResult.ExpiresAt r = reading Deployment.initial 3 / 1000000000 + 604800
    /\ ProcessingResult.FileSizeBytes r = ProcessingJob.Size Deployment.job43
    /\ ((forall i j, (i <= j)%nat -> clock Deployment.initial i <= clock Deployment.initial j) ->
        0 <= ProcessingResult.ProcessingTimeMs r
        /\ ProcessingResult.StartedAt r <= ProcessingResult.CompletedAt r
        /\ ProcessingResult.CompletedAt r / 1000000000 + 604800
           <= ProcessingResult.ExpiresAt r).
Proof.
  apply (result_times_follow_the_clock Deployment.workerEnv (mkSQSMessage "job-43")
           Deployment.job43 Deployment.initial).
  reflexivity.
Defined.

(** X14. Whether the metrics collector exists or not makes no difference to
    what [processMessage] returns, writes to the store or prints: metrics
    are a side channel. *)
Theorem metrics_never_change_the_outcome
    (decode : string -> error + ProcessingJob.t)
    (entry : string -> option LogEntry.t)
    (fetch : string -> string -> error + Bufio.Reader)
    (fault : nat -> ProcessingResult.t -> option error)
    (record : SQSMessage) (w : World) :
  fst (processMessage (Worker.mkEnv decode entry fetch fault true) record w)
  = fst (processMessage (Worker.mkEnv decode entry fetch fault false) record w)
  /\ table (snd (processMessage (Worker.mkEnv decode entry fetch fault true) record w))
     = table (snd (processMessage (Worker.mkEnv decode entry fetch fault false) record w))
  /\ putRequests (snd (processMessage (Worker.mkEnv decode entry fetch fault true) record w))
     = putRequests (snd (processMessage (Worker.mkEnv decode entry fetch fault false)
                           record w))
  /\ stdout (snd (processMessage (Worker.mkEnv decode entry fetch fault true) record w))
     = stdout (snd (processMessage (Worker.mkEnv decode entry fetch fault false) record w)).
Proof.
  unfold processMessage, saveFailedResult, saveResult, SinceMilliseconds, EmitBatch,
    PutItem, Printf, Now, bind, ret; simpl.
  destruct (decode (Body record)) as [e|job]; simpl; [auto|].
  destruct (fetch _ _) as [e|body]; simpl.
  - destruct (fault _ _); simpl; auto.
  - destruct (Processor.Parse entry Processor.NewLogParser body) as [p [e|agg]]; simpl.
    + destruct (fault _ _); simpl; auto.
    + destruct (fault _ _); simpl; auto.
Qed.

End WorkerExtras.

(** * Further properties of the trigger *)

Section TriggerExtras.

Import Runtime Trigger Spec.

Lemma split_from_part (sep : ascii) (a b : string) (cur : list ascii) :
  Keys.free sep a = true ->
  Strings.split_from sep cur (a +:+ String sep b)
  = String.string_of_list_ascii (rev cur ++ String.list_ascii_of_string a)
    :: Strings.split_from sep [] b.
Proof.
  unfold Keys.free. revert cur. induction a as [|c a IH]; intros cur Hfree; simpl in *.
  - rewrite Ascii.eqb_refl, app_nil_r. reflexivity.
  - apply andb_prop in Hfree as [Hc Ha].
    destruct (Ascii.eqb c sep); [discriminate|].
    rewrite (IH (c :: cur) Ha). simpl. rewrite <- app_assoc. reflexivity.
Qed.

Lemma split_from_nonempty (sep : ascii) (s : string) (cur : list ascii) :
  exists p rest, Strings.split_from sep cur s = p :: rest.
Proof.
  destruct (split_from_head sep s cur) as (p & q & rest & H & _). eauto.
Qed.

Lemma split_from_two (sep : ascii) (s : string) (cur : list ascii)
    (p q : string) (tl : list string) :
  Strings.split_from sep cur s = p :: q :: tl ->
  exists a b,
    s = a +:+ String sep b
    /\ Keys.free sep a = true
    /\ p = String.string_of_list_ascii (rev cur ++ String.list_ascii_of_string a)
    /\ Strings.split_from sep [] b = q :: tl.
Proof.
  unfold Keys.free. revert cur. induction s as [|c s IH]; intros cur H; simpl in H.
  - discriminate.
  - destruct (Ascii.eqb c sep) eqn:Hc.
    + apply Ascii.eqb_eq in Hc. subst c. inversion H; subst.
      exists EmptyString, s. simpl. rewrite app_nil_r. auto.
    + destruct (IH (c :: cur) H) as (a & b & Hs & Hfree & Hp & Hrest).
      exists (String c a), b. simpl. rewrite Hc. simpl.
      split; [now rewrite Hs|]. split; [exact Hfree|]. split; [|exact Hrest].
      rewrite Hp. simpl. rewrite <- app_assoc. reflexivity.
Qed.

(** X17. The job id of a key is the text between its first and its second
    underscore, provided the key starts with [logs/test_] and has a second
    underscore: [extractJobID] answers [id] exactly for the keys of the form
    [logs/test_<id>_<anything>] in which [id] holds no underscore. *)
Theorem job_id_is_second_segment (key id : string) :
  extractJobID key = Some id
  <-> Keys.free "_"%char id = true
      /\ exists rest, key = "logs/test_" +:+ id +:+ String "_"%char rest.
Proof.
  unfold extractJobID, Strings.Split. split.
  - destruct (Strings.split_from "_"%char [] key) as [|p0 [|p1 [|p2 tl]]] eqn:Hsplit;
      try discriminate.
    destruct (String.eqb_spec p0 "logs/test") as [Hp0|]; [|discriminate].
    intros Hid. inversion Hid; subst p1. clear Hid.
    apply split_from_two in Hsplit as (a & b & Hkey & Hfa & Hp & Hrest).
    apply split_from_two in Hrest as (a' & b' & Hb & Hfa' & Hp' & _).
    simpl in Hp, Hp'. rewrite String.string_of_list_ascii_of_string in Hp, Hp'.
    subst. split; [exact Hfa'|]. exists b'. reflexivity.
  - intros (Hfree & rest & ->).
    change ("logs/test_" +:+ id +:+ String "_"%char rest)
      with ("logs/test" +:+ String "_"%char (id +:+ String "_"%char rest)).
    rewrite split_from_part by reflexivity.
    rewrite (split_from_part "_"%char id rest [] Hfree).
    destruct (split_from_nonempty "_"%char rest []) as (p & tl & ->).
    simpl. rewrite String.string_of_list_ascii_of_string. reflexivity.
Qed.

Lemma job_id_is_second_segment_witness :
  Keys.free "_"%char "42" = true
  /\ exists rest, "logs/test_42_20240101T000000.json"
                  = "logs/test_" +:+ "42" +:+ String "_"%char rest.
Proof.
  apply (proj1 (job_id_is_second_segment "logs/test_42_20240101T000000.json" "42")).
  reflexivity.
Defined.

(** The four ways [processRecord] can end. *)
Lemma processRecord_shape (env : Trigger.Env) (record : S3EventRecord) (w : World) :
  (fst (processRecord env record w) = Panicked
   /\ queue (snd (processRecord env record w)) = queue w
   /\ sendRequests (snd (processRecord env record w)) = sendRequests w
   /\ exists head,
        HeadObject env (BucketName record) (ObjectKey record) = inr head
        /\ ContentLength head = None)
  \/ (exists err,
        fst (processRecord env record w) = Returned (Some err)
        /\ queue (snd (processRecord env record w)) = queue w
        /\ (sendRequests (snd (processRecord env record w)) = sendRequests w
            \/ exists msg, sendRequests (snd (processRecord env record w))
                           = sendRequests w ++ [msg]))
  \/ (fst (processRecord env record w) = Returned None
      /\ Strings.HasSuffix (Strings.ToLower (ObjectKey record)) ".json" = false
      /\ queue (snd (processRecord env record w)) = queue w
      /\ sendRequests (snd (processRecord env record w)) = sendRequests w)
  \/ (fst (processRecord env record w) = Returned None
      /\ Strings.HasSuffix (Strings.ToLower (ObjectKey record)) ".json" = true
      /\ exists msg,
           queue (snd (processRecord env record w)) = queue w ++ [msg]
           /\ sendRequests (snd (processRecord env record w)) = sendRequests w ++ [msg]
           /\ extractJobID (ObjectKey record) = Some (JobIDAttribute msg)).
Proof.
  unfold processRecord, SendMessage, SinceMilliseconds, EmitBatch, Printf, Now, bind, ret;
    simpl.
  destruct (Strings.HasSuffix (Strings.ToLower (ObjectKey record)) ".json") eqn:Hsuffix;
    simpl; [|right; right; left; auto].
  destruct (HeadObject env (BucketName record) (ObjectKey record)) as [e|head] eqn:Hhead;
    simpl; [right; left; eexists; auto|].
  destruct (extractJobID (ObjectKey record)) as [jobID|] eqn:Hid;
    simpl; [|right; left; eexists; auto].
  destruct (ContentLength head) as [size|] eqn:Hsize; simpl; [|left; eauto 6].
  destruct (marshalJob env _) as [e|jobBytes]; simpl; [right; left; eexists; auto|].
  destruct (sendFault env _ _) as [e|] eqn:Hsend; simpl.
  - right; left. eexists. split; [reflexivity|]. split; [reflexivity|].
    right. eexists. reflexivity.
  - right; right; right.
    destruct (metricsCollector env); simpl;
      (split; [reflexivity|]; split; [reflexivity|]; eexists; eauto).
Qed.

(** X16. A message reaches the queue exactly when [processRecord] returns
    [nil] for a key with the [.json] suffix: then one message is sent and
    queued, carrying as its job id attribute the id extracted from the key.
    Whenever the call returns an error the queue is as it was. *)
Theorem enqueued_exactly_on_success
    (env : Trigger.Env) (record : S3EventRecord) (w : World) :
  (fst (processRecord env record w) = Returned None ->
   Strings.HasSuffix (Strings.ToLower (ObjectKey record)) ".json" = true ->
   exists msg,
     queue (snd (processRecord env record w)) = queue w ++ [msg]
     /\ sendRequests (snd (processRecord env record w)) = sendRequests w ++ [msg]
     /\ extractJobID (ObjectKey record) = Some (JobIDAttribute msg))
  /\ (fst (processRecord env record w) <> Returned None ->
      queue (snd (processRecord env record w)) = queue w).
Proof.
  destruct (processRecord_shape env record w)
    as [(Hret & Hq & _)|[(err & Hret & Hq & _)|[(Hret & Hsuf & Hq & _)|(Hret & Hsuf & Hmsg)]]];
    rewrite Hret; split; intros; try congruence; auto.
Qed.

Lemma enqueued_exactly_on_success_witness :
  exists msg,
    queue (snd (processRecord Deployment.triggerEnv
                  (Deployment.arrival "logs/test_42_20240101T000000.json")
                  Deployment.initial))
    = queue Deployment.initial ++ [msg]
    /\ sendRequests (snd (processRecord Deployment.triggerEnv
                            (Deployment.arrival "logs/test_42_20240101T000000.json")
                            Deployment.initial))
       = sendRequests Deployment.initial ++ [msg]
    /\ extractJobID (ObjectKey (Deployment.arrival "logs/test_42_20240101T000000.json"))
       = Some (JobIDAttribute msg).
Proof.
  apply (proj1 (enqueued_exactly_on_success Deployment.triggerEnv
                  (Deployment.arrival "logs/test_42_20240101T000000.json")
                  Deployment.initial)).
  - vm_compute. reflexivity.
  - reflexivity.
Defined.

(** X15. As long as every metadata answer carries a content length, the
    trigger's handler returns [nil] for every batch, whatever happens to
    the single notifications, and issues at most one [SendMessage] per
    notification. *)
Theorem trigger_handler_always_returns_nil
    (env : Trigger.Env) (records : list S3EventRecord) (w : World) :
  (forall bucket key head,
      HeadObject env bucket key = inr head -> ContentLength head <> None) ->
  fst (handler env records w) = Returned None
  /\ (length (sendRequests (snd (handler env records w)))
      <= length (sendRequests w) + length records)%nat.
Proof.
  intros Hlen. revert w.
  induction records as [|record records IH]; intros w; simpl; [split; [reflexivity|lia]|].
  unfold bind.
  pose proof (processRecord_shape env record w) as Hshape.
  destruct (processRecord env record w) as [res w1]; simpl in Hshape.
  assert (Hsent : (length (sendRequests w1) <= length (sendRequests w) + 1)%nat).
  { destruct Hshape
      as [(_ & _ & -> & _)|[(err & _ & _ & [->|(msg & ->)])|[(_ & _ & _ & ->)|
          (_ & _ & msg & _ & -> & _)]]];
      rewrite ?length_app; simpl; lia. }
  destruct Hshape
    as [(Hret & _ & _ & head & Hhead & Hnone)|[(err & Hret & _)|[(Hret & _)|(Hret & _)]]];
    subst res.
  - exfalso. exact (Hlen _ _ _ Hhead Hnone).
  - unfold EmitBatch, Printf, Now, bind, ret; simpl.
    destruct (metricsCollector env); simpl;
      match goal with |- context [handler env records ?w'] =>
        destruct (IH w') as (IH1 & IH2); simpl in IH2 end;
      (split; [exact IH1|lia]).
  - destruct (IH w1) as (IH1 & IH2). split; [exact IH1|lia].
  - destruct (IH w1) as (IH1 & IH2). split; [exact IH1|lia].
Qed.

Lemma trigger_handler_always_returns_nil_witness :
  fst (handler Deployment.triggerEnv
         [Deployment.arrival "logs/test_bad.json";
          Deployment.arrival "logs/readme.txt";
          Deployment.arrival "logs/test_42_20240101T000000.json"]
         Deployment.initial) = Returned None
  /\ (length (sendRequests
                (snd (handler Deployment.triggerEnv
                        [Deployment.arrival "logs/test_bad.json";
                         Deployment.arrival "logs/readme.txt";
                         Deployment.arrival "logs/test_42_20240101T000000.json"]
                        Deployment.initial)))
      <= length (sendRequests Deployment.initial) + 3)%nat.
Proof.
  apply (trigger_handler_always_returns_nil Deployment.triggerEnv
           [Deployment.arrival "logs/test_bad.json";
            Deployment.arrival "logs/readme.txt";
            Deployment.arrival "logs/test_42_20240101T000000.json"]
           Deployment.initial).
  intros bucket key head Hhead. unfold Deployment.triggerEnv, Deployment.headers in Hhead.
  simpl in Hhead. destruct (String.eqb bucket "uploads"); inversion Hhead.
  discriminate.
Defined.

(** X18. A metadata answer without a content length, for a key that has
    the suffix and a job id, makes [processRecord] panic on the nil
    dereference before anything is sent; the handler then ends in that
    panic and the notifications that follow are not processed. *)
Theorem missing_content_length_panics
    (env : Trigger.Env) (record : S3EventRecord) (siblings : list S3EventRecord)
    (head : HeadObjectOutput) (jobID : string) (w : World) :
  Strings.HasSuffix (Strings.ToLower (ObjectKey record)) ".json" = true ->
  HeadObject env (BucketName record) (ObjectKey record) = inr head ->
  ContentLength head = None ->
  extractJobID (ObjectKey record) = Some jobID ->
  fst (processRecord env record w) = Panicked
  /\ sendRequests (snd (processRecord env record w)) = sendRequests w
  /\ handler env (record :: siblings) w = (Panicked, snd (processRecord env record w)).
Proof.
  intros Hsuffix Hhead Hnone Hid.
  assert (Hrun : fst (processRecord env record w) = Panicked
                 /\ sendRequests (snd (processRecord env record w)) = sendRequests w).
  { unfold processRecord, Printf, Now, bind, ret; simpl.
    rewrite Hsuffix; simpl. rewrite Hhead, Hid; simpl. rewrite Hnone. auto. }
  destruct Hrun as [Hret Hsent]. split; [exact Hret|]. split; [exact Hsent|].
  simpl. unfold bind.
  destruct (processRecord env record w) as [res w1]; simpl in *. subst res.
  reflexivity.
Qed.

Lemma missing_content_length_panics_witness :
  fst (processRecord Keys.lengthless
         (Deployment.arrival "logs/test_42_20240101T000000.json") Deployment.initial)
  = Panicked
  /\ sendRequests (snd (processRecord Keys.lengthless
                          (Deployment.arrival "logs/test_42_20240101T000000.json")
                          Deployment.initial))
     = sendRequests Deployment.initial
  /\ handler Keys.lengthless
       (Deployment.arrival "logs/test_42_20240101T000000.json"
        :: [Deployment.arrival "logs/test_43_20240101T000000.json"])
       Deployment.initial
     = (Panicked,
        snd (processRecord Keys.lengthless
               (Deployment.arrival "logs/test_42_20240101T000000.json")
               Deployment.initial)).
Proof.
  apply (missing_content_length_panics Keys.lengthless
           (Deployment.arrival "logs/test_42_20240101T000000.json")
           [Deployment.arrival "logs/test_43_20240101T000000.json"]
           (mkHeadObjectOutput None None) "42" Deployment.initial); reflexivity.
Defined.

End TriggerExtras.

(** * Properties of the metrics collector *)

Section MetricsExtras.

Import Metrics.

Lemma batchLoop_spec (c : Collector) (data : list MetricDatum) (fuel : nat) :
  forall (i : nat) (st : State),
    (length data - i <= fuel)%nat ->
    exists chunks rest,
      calls (snd (batchLoop fuel c data i st))
      = calls st ++ map (mkPutMetricDataInput (namespace c)) chunks
      /\ skipn i data = concat chunks ++ rest
      /\ Forall (fun ch => (1 <= length ch <= 1000)%nat) chunks
      /\ reads (snd (batchLoop fuel c data i st)) = reads st
      /\ match fst (batchLoop fuel c data i st) with
         | None =>
             rest = []
             /\ (length data - i <= 1000 * length chunks < length data - i + 1000)%nat
         | Some e =>
             exists cause ch,
               last chunks = Some ch
               /\ putFault st (length (calls st) + length chunks - 1)%nat
                    (mkPutMetricDataInput (namespace c) ch) = Some cause
               /\ e = Errorf_w "failed to emit batch metrics: " cause
         end.
Proof.
  induction fuel as [|fuel IH]; intros i st Hfuel.
  - exists [], []. simpl. rewrite app_nil_r.
    repeat split; try reflexivity; try lia; [|constructor].
    apply skipn_all2. lia.
  - simpl. destruct (Nat.ltb_spec i (length data)) as [Hlt|Hge].
    + set (stop := (if (length data <? i + 1000)%nat then length data else i + 1000)%nat).
      set (chunk := firstn (stop - i) (skipn i data)).
      assert (Hlen : (length chunk = stop - i /\ 1 <= stop - i <= 1000)%nat).
      { subst chunk stop. rewrite length_firstn, length_skipn.
        destruct (Nat.ltb_spec (length data) (i + 1000)); lia. }
      assert (Hsplit : skipn i data = chunk ++ skipn (i + 1000) data).
      { subst chunk stop. destruct (Nat.ltb_spec (length data) (i + 1000)) as [Hs|Hs].
        - rewrite firstn_all2 by (rewrite length_skipn; lia).
          rewrite (@skipn_all2 _ (i + 1000)%nat data) by lia. now rewrite app_nil_r.
        - replace (i + 1000 - i)%nat with 1000%nat by lia.
          rewrite <- (firstn_skipn 1000 (skipn i data)) at 1.
          rewrite skipn_skipn. f_equal. f_equal. lia. }
      unfold PutMetricData.
      destruct (putFault st (length (calls st))
                  (mkPutMetricDataInput (namespace c) chunk)) as [e|] eqn:Hfault.
      * exists [chunk], (skipn (i + 1000) data). simpl. rewrite app_nil_r.
        split; [reflexivity|]. split; [exact Hsplit|].
        split; [constructor; [lia|constructor]|]. split; [reflexivity|].
        exists e, chunk. split; [reflexivity|]. split; [|reflexivity].
        replace (length (calls st) + 1 - 1)%nat with (length (calls st)) by lia.
        exact Hfault.
      * destruct (IH (i + 1000)%nat
                    (mkState (clock st) (reads st) (putFault st)
                       (calls st ++ [mkPutMetricDataInput (namespace c) chunk]))
                    ltac:(lia))
          as (chunks & rest & Hcalls & Hskip & Hsizes & Hreads & Hres).
        exists (chunk :: chunks), rest.
        split; [rewrite Hcalls; simpl; rewrite <- app_assoc; reflexivity|].
        split; [rewrite Hsplit, Hskip; simpl; rewrite app_assoc; reflexivity|].
        split; [constructor; [lia|exact Hsizes]|]. split; [exact Hreads|].
        destruct (fst (batchLoop fuel c data (i + 1000)%nat _)) as [e|].
        -- destruct Hres as (cause & ch & Hlast & Hf & He).
           exists cause, ch. simpl in Hf. rewrite length_app in Hf. simpl in Hf.
           split; [|split; [|exact He]].
           ++ destruct chunks; [discriminate|exact Hlast].
           ++ simpl. replace (length (calls st) + S (length chunks) - 1)%nat
                with (length (calls st) + 1 + length chunks - 1)%nat by lia.
              exact Hf.
        -- destruct Hres as (-> & Hbound). split; [reflexivity|]. simpl length. lia.
    + exists [], []. simpl. rewrite app_nil_r.
      repeat split; try reflexivity; try lia; [|constructor].
      apply skipn_all2. lia.
Qed.

Lemma EmitBatch_data (c : Collector) (metrics : list (string * MetricValue))
    (timestamp : Time) :
  map (fun '(name, mv) => mkMetricDatum name (value mv) (unit mv) timestamp (dims c))
      metrics
  = map (Telemetry.datum c timestamp) metrics.
Proof. apply map_ext. intros [name mv]. reflexivity. Qed.

(** X19. With a service that accepts every call, [EmitBatch] returns [nil]
    and sends every metric of the map exactly once, in the order of the
    iteration, all stamped with the one clock reading taken for the batch:
    the calls it issues carry the collector's namespace and between 1 and
    1000 data each, as few calls as that limit allows.  For an empty map it
    issues no call and does not read the clock. *)
Theorem batch_is_sent_whole_in_chunks
    (c : Collector) (metrics : list (string * MetricValue)) (st : State) :
  (forall n input, putFault st n input = None) ->
  fst (EmitBatch c metrics st) = None
  /\ reads (snd (EmitBatch c metrics st))
     = match metrics with [] => reads st | _ => S (reads st) end
  /\ exists chunks,
       calls (snd (EmitBatch c metrics st))
       = calls st ++ map (mkPutMetricDataInput (namespace c)) chunks
       /\ concat chunks = map (Telemetry.datum c (clock st (reads st))) metrics
       /\ Forall (fun ch => (1 <= length ch <= 1000)%nat) chunks
       /\ (length metrics <= 1000 * length chunks < length metrics + 1000)%nat.
Proof.
  intros Hok. unfold EmitBatch.
  destruct metrics as [|m metrics].
  - simpl. split; [reflexivity|]. split; [reflexivity|].
    exists []. simpl. rewrite app_nil_r. repeat split; try lia. constructor.
  - unfold Now. rewrite EmitBatch_data.
    set (data := map (Telemetry.datum c (clock st (reads st))) (m :: metrics)).
    set (st1 := mkState (clock st) (S (reads st)) (putFault st) (calls st)).
    destruct (batchLoop_spec c data (length data) 0 st1 ltac:(lia))
      as (chunks & rest & Hcalls & Hskip & Hsizes & Hreads & Hres).
    destruct (fst (batchLoop (length data) c data 0 st1)) as [e|].
    + destruct Hres as (cause & ch & _ & Hf & _). simpl in Hf.
      rewrite Hok in Hf. discriminate.
    + destruct Hres as (-> & Hbound). rewrite app_nil_r in Hskip. simpl in Hskip.
      split; [reflexivity|]. split; [exact Hreads|].
      exists chunks. split; [exact Hcalls|]. split; [symmetry; exact Hskip|].
      split; [exact Hsizes|].
      subst data. rewrite length_map in Hbound. lia.
Qed.

Lemma batch_is_sent_whole_in_chunks_witness :
  fst (EmitBatch Telemetry.collector Telemetry.batch Telemetry.healthy) = None
  /\ reads (snd (EmitBatch Telemetry.collector Telemetry.batch Telemetry.healthy)) = 1%nat
  /\ exists chunks,
       calls (snd (EmitBatch Telemetry.collector Telemetry.batch Telemetry.healthy))
       = calls Telemetry.healthy
         ++ map (mkPutMetricDataInput (namespace Telemetry.collector)) chunks
       /\ concat chunks
          = map (Telemetry.datum Telemetry.collector
                   (clock Telemetry.healthy (reads Telemetry.healthy))) Telemetry.batch
       /\ Forall (fun ch => (1 <= length ch <= 1000)%nat) chunks
       /\ (length Telemetry.batch <= 1000 * length chunks < length Telemetry.batch + 1000)%nat.
Proof.
  apply (batch_is_sent_whole_in_chunks Telemetry.collector Telemetry.batch
           Telemetry.healthy).
  reflexivity.
Defined.



End MetricsExtras.
